(** * zerank-mcp: the MCP adapter in front of the ZeroEntropy reranking API

    A shallow embedding of the three entry points of the repository

    - the protocol-conformant Cloudflare worker (class [MCPServer] with
      [MCP_ERROR_CODES] and the [initialized] flag), module [Conformant];
    - the minimal worker of [src/worker.js], module [Minimal];
    - the stdio server of [src/index.js], module [Stdio];

    together with the part of the JavaScript runtime they rest on: strings as
    sequences of UTF-16 code units, JSON values, property access, string
    conversion, [JSON.stringify], and the fragment of Zod the schemas use. *)

From Stdlib Require Import ZArith NArith QArith Qpower List String Ascii Bool Lia.
Import ListNotations.

Set Implicit Arguments.
Unset Strict Implicit.
Set Warnings "-register-all".

Local Open Scope Z_scope.

(* ================================================================== *)
(** ** JavaScript strings *)

(** A JavaScript string is a sequence of 16-bit code units; [length] counts
    code units. *)
Definition jsstring := list N.

(** The string written by an ASCII literal of the source. *)
Definition lit (s : string) : jsstring :=
  List.map N_of_ascii (list_ascii_of_string s).

Fixpoint js_eqb (a b : jsstring) : bool :=
  match a, b with
  | [], [] => true
  | x :: a', y :: b' => N.eqb x y && js_eqb a' b'
  | _, _ => false
  end.

(** [s.length] *)
Definition js_length (s : jsstring) : N := N.of_nat (List.length s).

(** White space and line terminators, the code units [String.prototype.trim]
    strips. *)
Definition is_white_space (c : N) : bool :=
  ((9 <=? c) && (c <=? 13) || (c =? 32) || (c =? 160) || (c =? 5760)
   || (8192 <=? c) && (c <=? 8202) || (c =? 8232) || (c =? 8233)
   || (c =? 8239) || (c =? 8287) || (c =? 12288) || (c =? 65279))%N.

Fixpoint trim_start (s : jsstring) : jsstring :=
  match s with
  | c :: s' => if is_white_space c then trim_start s' else s
  | [] => []
  end.

(** [s.trim()] *)
Definition trim (s : jsstring) : jsstring :=
  List.rev (trim_start (List.rev (trim_start s))).

Fixpoint starts_with (p s : jsstring) : bool :=
  match p, s with
  | [], _ => true
  | x :: p', y :: s' => N.eqb x y && starts_with p' s'
  | _ :: _, [] => false
  end.

(** [s.includes(p)] *)
Fixpoint includes (s p : jsstring) : bool :=
  starts_with p s ||
  match s with
  | [] => false
  | _ :: s' => includes s' p
  end.

(* ================================================================== *)
(** ** Numbers

    The numbers of a JSON document are decimals.  A finite JavaScript number
    is identified with the decimal that [Number::toString] prints for it (the
    shortest one that reads back as the same binary64), so a number is
    [mant * 10 ^ expo] in lowest terms; the sign of zero is not tracked
    ([-0 === 0], and both print as [0]). *)

Definition canonical (m e : Z) : bool :=
  if m =? 0 then e =? 0 else negb (m mod 10 =? 0).

Record number := mkNum {
  mant : Z;
  expo : Z;
  num_canon : canonical mant expo = true
}.

Fixpoint strip_zeros (fuel : nat) (m e : Z) : Z * Z :=
  match fuel with
  | O => (m, e)
  | S fuel' =>
      if m mod 10 =? 0 then strip_zeros fuel' (m / 10) (e + 1) else (m, e)
  end.

Definition normalize (m e : Z) : Z * Z :=
  if m =? 0 then (0, 0) else strip_zeros (S (Z.to_nat (Z.log2 (Z.abs m)))) m e.

Definition num_zero : number := @mkNum 0 0 eq_refl.

(** The number [m * 10 ^ e]. *)
Definition decimal (m e : Z) : number :=
  let '(m', e') := normalize m e in
  match bool_dec (canonical m' e') true with
  | left H => @mkNum m' e' H
  | right _ => num_zero
  end.

Definition num_of_Z (z : Z) : number := decimal z 0.

(** The mathematical value. *)
Definition num_value (x : number) : Q :=
  (inject_Z (mant x) * Qpower (10 # 1) (expo x))%Q.

(** [a <= b] on numbers. *)
Definition num_leb (a b : number) : bool := Qle_bool (num_value a) (num_value b).

(** [Number.isInteger(x)]: a decimal in lowest terms is an integer exactly
    when its exponent is not negative. *)
Definition is_integer (x : number) : bool := 0 <=? expo x.

Definition digit_char (d : N) : N := (48 + d)%N.

(** The decimal digits of [n], most significant first; [fuel] bounds their
    number. *)
Fixpoint digits_fuel (fuel : nat) (n : N) : jsstring :=
  match fuel with
  | O => []
  | S fuel' =>
      if (n <? 10)%N then [digit_char n]
      else digits_fuel fuel' (n / 10) ++ [digit_char (n mod 10)]
  end.

(** The decimal digits of a natural number: it has no more decimal digits
    than binary ones. *)
Definition N_toString (n : N) : jsstring :=
  digits_fuel (S (N.to_nat (N.size n))) n.

(** The digits [ds] of a positive number with the decimal point after the
    [n]-th digit, as [Number::toString] of ECMA-262 lays them out ([k] is
    the number of digits): an integer, a fraction, a fraction below one, or
    the exponent form. *)
Definition positive_toString (ds : jsstring) (n : Z) : jsstring :=
  let k := Z.of_nat (List.length ds) in
  if (k <=? n) && (n <=? 21) then
    ds ++ List.repeat (digit_char 0) (Z.to_nat (n - k))
  else if (0 <? n) && (n <=? 21) then
    List.firstn (Z.to_nat n) ds ++ lit "." ++ List.skipn (Z.to_nat n) ds
  else if (-6 <? n) && (n <=? 0) then
    lit "0." ++ List.repeat (digit_char 0) (Z.to_nat (- n)) ++ ds
  else
    let e' := n - 1 in
    let es := (if e' <? 0 then lit "-" else lit "+")
              ++ N_toString (Z.to_N (Z.abs e')) in
    match ds with
    | [d] => d :: lit "e" ++ es
    | d :: rest => d :: lit "." ++ rest ++ lit "e" ++ es
    | [] => []
    end.

(** [Number::toString(x)] *)
Definition Number_toString (x : number) : jsstring :=
  let m := mant x in
  if m =? 0 then lit "0" else
  let ds := N_toString (Z.to_N (Z.abs m)) in
  (if m <? 0 then lit "-" else [])
  ++ positive_toString ds (Z.of_nat (List.length ds) + expo x).

(* ================================================================== *)
(** ** Values *)

(** The values that reach the adapter: what [JSON.parse] produces, plus
    [undefined].  The properties of an object are listed in the order in
    which the object enumerates them. *)
Inductive value :=
| VUndefined
| VNull
| VBool (b : bool)
| VNum (x : number)
| VStr (s : jsstring)
| VArr (items : list value)
| VObj (props : list (jsstring * value)).

(** What is thrown: an [Error] object, of which the code reads [name] and
    [message]. *)
Record exn := mkExn { err_name : jsstring; err_message : jsstring }.

Inductive completion (A : Type) :=
| Normal (a : A)
| Throw (e : exn).
Arguments Normal {A} a.
Arguments Throw {A} e.

Definition Error (msg : jsstring) : exn := mkExn (lit "Error") msg.
Definition TypeError (msg : jsstring) : exn := mkExn (lit "TypeError") msg.

Fixpoint own_property (props : list (jsstring * value)) (k : jsstring) : value :=
  match props with
  | [] => VUndefined
  | (k', v) :: props' => if js_eqb k' k then v else own_property props' k
  end.

Definition has_own_property (props : list (jsstring * value)) (k : jsstring) : bool :=
  List.existsb (fun p => js_eqb (fst p) k) props.

(** [v.k] for the property names the adapter reads ([jsonrpc], [id],
    [method], [params], [name], [arguments], [results], [index],
    [relevance_score]): none of them is a member of a built-in prototype, so
    only an object's own properties answer; reading a property of [undefined]
    or [null] throws (the message is V8's). *)
Definition Get (v : value) (k : jsstring) : completion value :=
  match v with
  | VUndefined =>
      Throw (TypeError (lit "Cannot read properties of undefined (reading '"
                        ++ k ++ lit "')"))
  | VNull =>
      Throw (TypeError (lit "Cannot read properties of null (reading '"
                        ++ k ++ lit "')"))
  | VObj props => Normal (own_property props k)
  | _ => Normal VUndefined
  end.

(** [!!v] *)
Definition ToBoolean (v : value) : bool :=
  match v with
  | VUndefined | VNull => false
  | VBool b => b
  | VNum x => negb (mant x =? 0)
  | VStr s => match s with [] => false | _ => true end
  | VArr _ | VObj _ => true
  end.

(** [v === "literal"] *)
Definition strict_eq_str (v : value) (s : jsstring) : bool :=
  match v with
  | VStr s' => js_eqb s' s
  | _ => false
  end.

Fixpoint join (sep : jsstring) (parts : list jsstring) : jsstring :=
  match parts with
  | [] => []
  | [p] => p
  | p :: parts' => p ++ sep ++ join sep parts'
  end.

(** [String(v)], as a template literal applies it.  An object that has an
    own property [toString] (never callable in a JSON value) has no primitive
    value; an array joins its elements with commas, [null] and [undefined]
    giving the empty string. *)
Fixpoint ToString (v : value) : completion jsstring :=
  match v with
  | VUndefined => Normal (lit "undefined")
  | VNull => Normal (lit "null")
  | VBool true => Normal (lit "true")
  | VBool false => Normal (lit "false")
  | VNum x => Normal (Number_toString x)
  | VStr s => Normal s
  | VArr items =>
      (fix elements (l : list value) (acc : list jsstring) : completion jsstring :=
         match l with
         | [] => Normal (join (lit ",") (List.rev acc))
         | VUndefined :: l' | VNull :: l' => elements l' ([] :: acc)
         | i :: l' =>
             match ToString i with
             | Normal s => elements l' (s :: acc)
             | Throw e => Throw e
             end
         end) items []
  | VObj props =>
      if has_own_property props (lit "toString")
      then Throw (TypeError (lit "Cannot convert object to primitive value"))
      else Normal (lit "[object Object]")
  end.


(* ================================================================== *)
(** ** [JSON.stringify] *)

Definition hex_char (d : N) : N := (if d <? 10 then 48 + d else 87 + d)%N.

(** [\uXXXX], four lowercase hexadecimal digits. *)
Definition unicode_escape (c : N) : jsstring :=
  lit "\u" ++ [hex_char ((c / 4096) mod 16); hex_char ((c / 256) mod 16);
               hex_char ((c / 16) mod 16); hex_char (c mod 16)]%N.

Definition is_lead_surrogate (c : N) : bool := ((55296 <=? c) && (c <=? 56319))%N.
Definition is_trail_surrogate (c : N) : bool := ((56320 <=? c) && (c <=? 57343))%N.

Definition escape_unit (c : N) : jsstring :=
  (if c =? 8 then lit "\b"
   else if c =? 9 then lit "\t"
   else if c =? 10 then lit "\n"
   else if c =? 12 then lit "\f"
   else if c =? 13 then lit "\r"
   else if c =? 34 then [92; 34]
   else if c =? 92 then lit "\\"
   else if c <? 32 then unicode_escape c
   else [c])%N.

Fixpoint quote_units (s : jsstring) : jsstring :=
  match s with
  | [] => []
  | c :: s' =>
      if is_lead_surrogate c then
        match s' with
        | d :: s'' =>
            if is_trail_surrogate d then c :: d :: quote_units s''
            else unicode_escape c ++ quote_units s'
        | [] => unicode_escape c
        end
      else if is_trail_surrogate c then unicode_escape c ++ quote_units s'
      else escape_unit c ++ quote_units s'
  end.

(** [QuoteJSONString]: the string between double quotes, control characters,
    quotes, backslashes and lone surrogates escaped. *)
Definition QuoteJSONString (s : jsstring) : jsstring :=
  34%N :: quote_units s ++ [34%N].

(** The brackets around the members of an array or an object, as
    [SerializeJSONArray] and [SerializeJSONObject] lay them out: [indent] is
    the indentation of the enclosing line, [gap] the unit of indentation
    (empty for the compact form). *)
Definition wrap_members (open close gap indent : jsstring)
    (partial : list jsstring) : jsstring :=
  match partial with
  | [] => open ++ close
  | _ =>
      match gap with
      | [] => open ++ join (lit ",") partial ++ close
      | _ =>
          let inner := indent ++ gap in
          open ++ [10%N] ++ inner
               ++ join (lit "," ++ [10%N] ++ inner) partial
               ++ [10%N] ++ indent ++ close
      end
  end.

(** [SerializeJSONProperty]: [None] stands for [undefined], the result for a
    value JSON cannot express. *)
Fixpoint SerializeJSONProperty (gap indent : jsstring) (v : value)
    : option jsstring :=
  match v with
  | VUndefined => None
  | VNull => Some (lit "null")
  | VBool true => Some (lit "true")
  | VBool false => Some (lit "false")
  | VNum x => Some (Number_toString x)
  | VStr s => Some (QuoteJSONString s)
  | VArr items =>
      let partial :=
        (fix elements (l : list value) : list jsstring :=
           match l with
           | [] => []
           | i :: l' =>
               match SerializeJSONProperty gap (indent ++ gap) i with
               | Some s => s
               | None => lit "null"
               end :: elements l'
           end) items in
      Some (wrap_members (lit "[") (lit "]") gap indent partial)
  | VObj props =>
      let partial :=
        (fix members (l : list (jsstring * value)) : list jsstring :=
           match l with
           | [] => []
           | (k, x) :: l' =>
               match SerializeJSONProperty gap (indent ++ gap) x with
               | Some s =>
                   (QuoteJSONString k ++ lit ":"
                    ++ match gap with [] => [] | _ => lit " " end ++ s)
                   :: members l'
               | None => members l'
               end
           end) props in
      Some (wrap_members (lit "{") (lit "}") gap indent partial)
  end.

(** [JSON.stringify(v)] *)
Definition JSON_stringify (v : value) : option jsstring :=
  SerializeJSONProperty [] [] v.

(** [JSON.stringify(v, null, space)] for a number of spaces up to ten. *)
Definition JSON_stringify_indent (v : value) (space : nat) : option jsstring :=
  SerializeJSONProperty (List.repeat 32%N (Nat.min space 10)) [] v.

(* ================================================================== *)
(** ** [JSON.parse]

    The text is read in one pass, code unit by code unit: a lexer mode
    collects the code units of a string, a number or a literal, and each
    finished token moves a pushdown automaton that holds the arrays and
    objects still open. *)

Definition is_digit (c : N) : bool := ((48 <=? c) && (c <=? 57))%N.

Fixpoint span_digits (l : jsstring) : jsstring * jsstring :=
  match l with
  | c :: l' =>
      if is_digit c then let (d, r) := span_digits l' in (c :: d, r)
      else ([], l)
  | [] => ([], [])
  end.

(** The natural number a sequence of decimal digits writes. *)
Definition digits_value (l : jsstring) : N :=
  List.fold_left (fun acc c => acc * 10 + (c - 48))%N l 0%N.

(** The fraction of a JSON number: a point and at least one digit. *)
Definition read_fraction (l : jsstring) : option (jsstring * jsstring) :=
  match l with
  | c :: r =>
      if (c =? 46)%N then
        match span_digits r with
        | ([], _) => None
        | (frac, r') => Some (frac, r')
        end
      else Some ([], l)
  | [] => Some ([], [])
  end.

(** The exponent of a JSON number, which ends the number. *)
Definition read_exponent (l : jsstring) : option Z :=
  match l with
  | [] => Some 0
  | c :: r =>
      if ((c =? 101) || (c =? 69))%N then
        let '(negative, r1) :=
          match r with
          | s :: r' =>
              if (s =? 45)%N then (true, r')
              else if (s =? 43)%N then (false, r')
              else (false, r)
          | [] => (false, r)
          end in
        match span_digits r1 with
        | ((_ :: _) as ds, []) =>
            Some (if negative then - Z.of_N (digits_value ds)
                  else Z.of_N (digits_value ds))
        | _ => None
        end
      else None
  end.

(** The number an unsigned JSON number writes: an integer part with no
    leading zero, an optional fraction, an optional exponent. *)
Definition read_unsigned (negative : bool) (l : jsstring) : option number :=
  let '(int, l2) := span_digits l in
  match int with
  | [] => None
  | c :: more =>
      if (c =? 48)%N && negb (match more with [] => true | _ => false end)
      then None
      else
        match read_fraction l2 with
        | None => None
        | Some (frac, l3) =>
            match read_exponent l3 with
            | None => None
            | Some e =>
                let m := Z.of_N (digits_value (int ++ frac)) in
                Some (decimal (if negative then - m else m)
                        (e - Z.of_nat (List.length frac)))
            end
        end
  end.

(** The number a whole JSON number token writes. *)
Definition number_of_chars (l : jsstring) : option number :=
  match l with
  | c :: r => if (c =? 45)%N then read_unsigned true r else read_unsigned false l
  | [] => None
  end.

Inductive token :=
| TLBrace | TRBrace | TLBracket | TRBracket | TColon | TComma
| TString (s : jsstring)
| TNumber (x : number)
| TTrue | TFalse | TNull.

(** An array or an object still open: the elements read so far, last
    first; the properties defined so far and the key that waits for its
    value. *)
Inductive frame :=
| FArr (items : list value)
| FObj (props : list (jsstring * value)) (key : option jsstring).

Inductive expect :=
| EValue | EValueOrClose | EKeyOrClose | EKey | EColon | ECommaOrClose | EDone.

Record pstate := mkP {
  stack : list frame;
  expecting : expect;
  parsed : option value
}.

Definition value_expected (e : expect) : bool :=
  match e with
  | EValue | EValueOrClose => true
  | _ => false
  end.

(** A property name that is an array index: a canonical numeric string
    below [2^32 - 1]. *)
Definition array_index (k : jsstring) : option N :=
  match k with
  | [] => None
  | c :: more =>
      if List.forallb is_digit k
         && (negb (c =? 48)%N || match more with [] => true | _ => false end)
         && (digits_value k <? 4294967295)%N
      then Some (digits_value k)
      else None
  end.

Fixpoint replace_property (props : list (jsstring * value)) (k : jsstring)
    (v : value) : list (jsstring * value) :=
  match props with
  | [] => []
  | (k', v') :: props' =>
      if js_eqb k' k then (k', v) :: props'
      else (k', v') :: replace_property props' k v
  end.

Fixpoint insert_index (props : list (jsstring * value)) (i : N) (k : jsstring)
    (v : value) : list (jsstring * value) :=
  match props with
  | [] => [(k, v)]
  | (k', v') :: props' =>
      match array_index k' with
      | Some j =>
          if (j <? i)%N then (k', v') :: insert_index props' i k v
          else (k, v) :: props
      | None => (k, v) :: props
      end
  end.

(** [CreateDataProperty]: a property that exists takes the new value where
    it stands; a new one is enumerated after the others, array indexes first
    and in ascending order. *)
Definition define_property (props : list (jsstring * value)) (k : jsstring)
    (v : value) : list (jsstring * value) :=
  if has_own_property props k then replace_property props k v
  else
    match array_index k with
    | Some i => insert_index props i k v
    | None => props ++ [(k, v)]
    end.

(** A finished value goes where the enclosing array or object, if any,
    expects it. *)
Definition push_value (v : value) (stk : list frame) : option pstate :=
  match stk with
  | [] => Some (mkP [] EDone (Some v))
  | FArr items :: rest => Some (mkP (FArr (v :: items) :: rest) ECommaOrClose None)
  | FObj props (Some k) :: rest =>
      Some (mkP (FObj (define_property props k v) None :: rest) ECommaOrClose None)
  | FObj _ None :: _ => None
  end.

Definition feed (p : pstate) (t : token) : option pstate :=
  match t with
  | TLBracket =>
      if value_expected (expecting p)
      then Some (mkP (FArr [] :: stack p) EValueOrClose None) else None
  | TLBrace =>
      if value_expected (expecting p)
      then Some (mkP (FObj [] None :: stack p) EKeyOrClose None) else None
  | TRBracket =>
      match expecting p, stack p with
      | EValueOrClose, FArr items :: rest
      | ECommaOrClose, FArr items :: rest => push_value (VArr (List.rev items)) rest
      | _, _ => None
      end
  | TRBrace =>
      match expecting p, stack p with
      | EKeyOrClose, FObj props None :: rest
      | ECommaOrClose, FObj props None :: rest => push_value (VObj props) rest
      | _, _ => None
      end
  | TComma =>
      match expecting p, stack p with
      | ECommaOrClose, FArr _ :: _ => Some (mkP (stack p) EValue None)
      | ECommaOrClose, FObj _ _ :: _ => Some (mkP (stack p) EKey None)
      | _, _ => None
      end
  | TColon =>
      match expecting p with
      | EColon => Some (mkP (stack p) EValue None)
      | _ => None
      end
  | TString s =>
      match expecting p, stack p with
      | EKey, FObj props None :: rest
      | EKeyOrClose, FObj props None :: rest =>
          Some (mkP (FObj props (Some s) :: rest) EColon None)
      | EValue, _ | EValueOrClose, _ => push_value (VStr s) (stack p)
      | _, _ => None
      end
  | TNumber x =>
      if value_expected (expecting p) then push_value (VNum x) (stack p) else None
  | TTrue =>
      if value_expected (expecting p) then push_value (VBool true) (stack p) else None
  | TFalse =>
      if value_expected (expecting p) then push_value (VBool false) (stack p) else None
  | TNull =>
      if value_expected (expecting p) then push_value VNull (stack p) else None
  end.

(** The lexer's modes; the code units collected so far are kept last
    first. *)
Inductive lexmode :=
| LStart
| LString (acc : jsstring)
| LEscape (acc : jsstring)
| LUnicode (acc : jsstring) (hex : list N)
| LNumber (chars : jsstring)
| LLiteral (chars : jsstring).

Definition is_json_space (c : N) : bool :=
  ((c =? 32) || (c =? 9) || (c =? 10) || (c =? 13))%N.

Definition is_number_char (c : N) : bool :=
  (is_digit c || (c =? 45) || (c =? 43) || (c =? 46) || (c =? 101) || (c =? 69))%N.

Definition is_lower (c : N) : bool := ((97 <=? c) && (c <=? 122))%N.

Definition hex_value (c : N) : option N :=
  (if is_digit c then Some (c - 48)
   else if (97 <=? c) && (c <=? 102) then Some (c - 87)
   else if (65 <=? c) && (c <=? 70) then Some (c - 55)
   else None)%N.

(** The code unit a one-letter escape stands for. *)
Definition unescape (c : N) : option N :=
  (if (c =? 34) || (c =? 92) || (c =? 47) then Some c
   else if c =? 98 then Some 8
   else if c =? 102 then Some 12
   else if c =? 110 then Some 10
   else if c =? 114 then Some 13
   else if c =? 116 then Some 9
   else None)%N.

Definition literal_token (chars : jsstring) : option token :=
  if js_eqb chars (lit "true") then Some TTrue
  else if js_eqb chars (lit "false") then Some TFalse
  else if js_eqb chars (lit "null") then Some TNull
  else None.

Definition in_mode (m : lexmode) (p : option pstate) : option (lexmode * pstate) :=
  match p with
  | Some p' => Some (m, p')
  | None => None
  end.

(** A code unit between tokens. *)
Definition start_char (p : pstate) (c : N) : option (lexmode * pstate) :=
  (if is_json_space c then Some (LStart, p)
   else if c =? 123 then in_mode LStart (feed p TLBrace)
   else if c =? 125 then in_mode LStart (feed p TRBrace)
   else if c =? 91 then in_mode LStart (feed p TLBracket)
   else if c =? 93 then in_mode LStart (feed p TRBracket)
   else if c =? 58 then in_mode LStart (feed p TColon)
   else if c =? 44 then in_mode LStart (feed p TComma)
   else if c =? 34 then Some (LString [], p)
   else if (c =? 45) || is_digit c then Some (LNumber [c], p)
   else if is_lower c then Some (LLiteral [c], p)
   else None)%N.

(** The token a number or a literal ends in, when the code unit [c] that
    cannot continue it arrives. *)
Definition end_token (p : pstate) (t : option token) : option pstate :=
  match t with
  | Some t' => feed p t'
  | None => None
  end.

Definition lex_char (st : lexmode * pstate) (c : N) : option (lexmode * pstate) :=
  let '(mode, p) := st in
  match mode with
  | LStart => start_char p c
  | LString acc =>
      if (c =? 34)%N then in_mode LStart (feed p (TString (List.rev acc)))
      else if (c =? 92)%N then Some (LEscape acc, p)
      else if (c <? 32)%N then None
      else Some (LString (c :: acc), p)
  | LEscape acc =>
      match unescape c with
      | Some u => Some (LString (u :: acc), p)
      | None => if (c =? 117)%N then Some (LUnicode acc [], p) else None
      end
  | LUnicode acc hex =>
      match hex_value c, hex with
      | Some h, [a; b; d] =>
          Some (LString ((((a * 16 + b) * 16 + d) * 16 + h)%N :: acc), p)
      | Some h, _ => Some (LUnicode acc (hex ++ [h]), p)
      | None, _ => None
      end
  | LNumber chars =>
      if is_number_char c then Some (LNumber (c :: chars), p)
      else
        match end_token p (option_map TNumber (number_of_chars (List.rev chars))) with
        | Some p' => start_char p' c
        | None => None
        end
  | LLiteral chars =>
      if is_lower c then Some (LLiteral (c :: chars), p)
      else
        match end_token p (literal_token (List.rev chars)) with
        | Some p' => start_char p' c
        | None => None
        end
  end.

Fixpoint lex (st : lexmode * pstate) (text : jsstring)
    : option (lexmode * pstate) :=
  match text with
  | [] => Some st
  | c :: text' =>
      match lex_char st c with
      | Some st' => lex st' text'
      | None => None
      end
  end.

(** The end of the text ends a number or a literal; a string must be
    closed. *)
Definition lex_end (st : lexmode * pstate) : option pstate :=
  match fst st with
  | LStart => Some (snd st)
  | LNumber chars =>
      end_token (snd st) (option_map TNumber (number_of_chars (List.rev chars)))
  | LLiteral chars => end_token (snd st) (literal_token (List.rev chars))
  | _ => None
  end.

(** [JSON.parse(text)]: [None] stands for the [SyntaxError]. *)
Definition JSON_parse (text : jsstring) : option value :=
  match lex (LStart, mkP [] EValue None) text with
  | Some st =>
      match lex_end st with
      | Some p =>
          match expecting p, stack p with
          | EDone, [] => parsed p
          | _, _ => None
          end
      | None => None
      end
  | None => None
  end.

(* ================================================================== *)
(** ** Effects: exceptions and mutable state *)

(** A computation over a mutable state [S] that returns or throws.  An
    [async] function is such a computation: [await] runs it, a rejection is a
    [Throw]. *)
Definition M (S A : Type) : Type := S -> completion A * S.

Section Monad.
Context {S : Type}.

Definition ret {A} (a : A) : M S A := fun s => (Normal a, s).

Definition throw {A} (e : exn) : M S A := fun s => (Throw e, s).

Definition bind {A B} (m : M S A) (k : A -> M S B) : M S B :=
  fun s =>
    match m s with
    | (Normal a, s') => k a s'
    | (Throw e, s') => (Throw e, s')
    end.

(** [try { m } catch (error) { h error }] *)
Definition try_catch {A} (m : M S A) (h : exn -> M S A) : M S A :=
  fun s =>
    match m s with
    | (Normal a, s') => (Normal a, s')
    | (Throw e, s') => h e s'
    end.

(** The value of an expression that may throw. *)
Definition eval {A} (c : completion A) : M S A := fun s => (c, s).

Definition modify (f : S -> S) : M S unit := fun s => (Normal tt, f s).
End Monad.

Declare Scope js_scope.
Delimit Scope js_scope with js.
Notation "x <- m ;; k" := (bind m (fun x => k))
  (at level 61, m at next level, right associativity) : js_scope.
Notation "' pat <- m ;; k" :=
  (bind m (fun x => match x with pat => k end))
  (at level 61, pat pattern, m at next level, right associativity) : js_scope.
Notation "m ;;; k" := (bind m (fun _ => k))
  (at level 61, right associativity) : js_scope.
Local Open Scope js_scope.

(* ================================================================== *)
(** ** The network *)

(** An outbound call of [fetch(url, {method, headers, body})]. *)
Record HttpRequest := mkHttpRequest {
  req_url : jsstring;
  req_method : jsstring;
  req_headers : list (jsstring * jsstring);
  req_body : option jsstring
}.

(** What the adapter reads of the upstream's answer: [response.status]
    ([response.ok] follows from it) and the outcome of [response.json()]. *)
Record UpstreamResponse := mkUpstream {
  up_status : N;
  up_json : completion value
}.

(** [response.ok]: the status is in the range 200-299. *)
Definition up_ok (r : UpstreamResponse) : bool :=
  ((200 <=? up_status r) && (up_status r <=? 299))%N.

(** The network answers a call, knowing the calls made before it: the call
    fails (DNS, connection, ...) or a response arrives. *)
Definition network := list HttpRequest -> HttpRequest -> completion UpstreamResponse.

(** The outbound calls made so far, oldest first. *)
Definition trace := list HttpRequest.

Definition IO (A : Type) : Type := M trace A.

(** [await fetch(...)]: the call is recorded and the network answers. *)
Definition fetch (net : network) (rq : HttpRequest) : IO UpstreamResponse :=
  fun t => (net t rq, t ++ [rq]).

(** What a handler answers: [new Response(body, {status, headers})]. *)
Record Response := mkResponse {
  status : N;
  headers : list (jsstring * jsstring);
  body : option jsstring
}.

Definition json_headers : list (jsstring * jsstring) :=
  [(lit "Content-Type", lit "application/json")].

(* ================================================================== *)
(** ** The fragment of Zod the schemas use *)

(** A schema maps an input to the parsed output, or to [None] when it raises
    an issue. *)
Definition zschema := value -> option value.

Fixpoint parse_all (p : zschema) (items : list value) : option (list value) :=
  match items with
  | [] => Some []
  | i :: items' =>
      match p i, parse_all p items' with
      | Some o, Some os => Some (o :: os)
      | _, _ => None
      end
  end.

Fixpoint parse_shape (shape : list (jsstring * zschema))
    (props : list (jsstring * value)) : option (list (jsstring * value)) :=
  match shape with
  | [] => Some []
  | (k, p) :: shape' =>
      match p (own_property props k), parse_shape shape' props with
      | Some o, Some os => Some ((k, o) :: os)
      | _, _ => None
      end
  end.

Module z.
(** [z.string()] *)
Definition string : zschema :=
  fun v => match v with VStr _ => Some v | _ => None end.

(** [z.number()] *)
Definition number : zschema :=
  fun v => match v with VNum _ => Some v | _ => None end.

(** [z.array(element)]: every element is parsed; the output holds the
    parsed elements. *)
Definition array (element : zschema) : zschema :=
  fun v =>
    match v with
    | VArr items => option_map VArr (parse_all element items)
    | _ => None
    end.

(** [z.object(shape)]: the keys of the shape are parsed, the others are
    stripped. *)
Definition object (shape : list (jsstring * zschema)) : zschema :=
  fun v =>
    match v with
    | VObj props => option_map VObj (parse_shape shape props)
    | _ => None
    end.

(** [.min(n)] and [.max(n)] of a string schema: bounds on [length]. *)
Definition string_min (n : N) (p : zschema) : zschema :=
  fun v =>
    match p v with
    | Some (VStr s) => if (n <=? js_length s)%N then Some (VStr s) else None
    | _ => None
    end.

Definition string_max (n : N) (p : zschema) : zschema :=
  fun v =>
    match p v with
    | Some (VStr s) => if (js_length s <=? n)%N then Some (VStr s) else None
    | _ => None
    end.

(** [.min(n)] and [.max(n)] of an array schema: bounds on [length]. *)
Definition array_min (n : N) (p : zschema) : zschema :=
  fun v =>
    match p v with
    | Some (VArr l) =>
        if (n <=? N.of_nat (List.length l))%N then Some (VArr l) else None
    | _ => None
    end.

Definition array_max (n : N) (p : zschema) : zschema :=
  fun v =>
    match p v with
    | Some (VArr l) =>
        if (N.of_nat (List.length l) <=? n)%N then Some (VArr l) else None
    | _ => None
    end.

(** [.refine(check)] of an array schema: the check runs on the parsed
    array, and only when the array and its elements have the right types. *)
Definition array_refine (check : list value -> bool) (p : zschema) : zschema :=
  fun v =>
    match p v with
    | Some (VArr l) => if check l then Some (VArr l) else None
    | _ => None
    end.

(** [.int()], [.min(x)] and [.max(x)] of a number schema. *)
Definition int (p : zschema) : zschema :=
  fun v =>
    match p v with
    | Some (VNum x) => if is_integer x then Some (VNum x) else None
    | _ => None
    end.

Definition number_min (lo : Z) (p : zschema) : zschema :=
  fun v =>
    match p v with
    | Some (VNum x) => if num_leb (num_of_Z lo) x then Some (VNum x) else None
    | _ => None
    end.

Definition number_max (hi : Z) (p : zschema) : zschema :=
  fun v =>
    match p v with
    | Some (VNum x) => if num_leb x (num_of_Z hi) then Some (VNum x) else None
    | _ => None
    end.
End z.

(** [docs.every(doc => doc.trim().length > 0)], on an array of strings. *)
Definition every_nonblank (docs : list value) : bool :=
  List.forallb
    (fun doc =>
       match doc with
       | VStr s => (0 <? js_length (trim s))%N
       | _ => false
       end) docs.

Definition RerankRequestSchema : zschema :=
  z.object
    [ (lit "query", z.string_max 10000 (z.string_min 1 z.string));
      (lit "documents",
        z.array_refine every_nonblank
          (z.array_max 1000 (z.array_min 1 (z.array z.string))));
      (lit "api_key", z.string_min 1 z.string) ].

Definition RerankResultSchema : zschema :=
  z.object
    [ (lit "index", z.number_max 1000 (z.number_min 0 (z.int z.number)));
      (lit "relevance_score", z.number_max 1 (z.number_min 0 z.number)) ].

Definition RerankResponseSchema : zschema :=
  z.object
    [ (lit "results",
        z.array_max 1000 (z.array_min 1 (z.array RerankResultSchema))) ].

Definition ZERANK_API_BASE : jsstring :=
  lit "https://api.zeroentropy.dev/v1/models/rerank".

(* ================================================================== *)
(** ** The rerank client *)

Definition ZodError (msg : jsstring) : exn := mkExn (lit "ZodError") msg.

(** The result of [JSON.stringify] as a value. *)
Definition string_or_undefined (o : option jsstring) : value :=
  match o with
  | Some s => VStr s
  | None => VUndefined
  end.

Fixpoint map_values (f : value -> completion value) (l : list value)
    : completion (list value) :=
  match l with
  | [] => Normal []
  | x :: l' =>
      match f x with
      | Throw e => Throw e
      | Normal y =>
          match map_values f l' with
          | Throw e => Throw e
          | Normal ys => Normal (y :: ys)
          end
      end
  end.

(** [v.map(f)] for [v] written [expr] in the source: only an array has a
    [map] to call. *)
Definition array_map (expr : jsstring) (v : value)
    (f : value -> completion value) : completion value :=
  match v with
  | VArr items =>
      match map_values f items with
      | Normal l => Normal (VArr l)
      | Throw e => Throw e
      end
  | _ => Throw (TypeError (expr ++ lit ".map is not a function"))
  end.

(** [const { name, arguments: args } = params], for [params] written [expr]
    in the source. *)
Definition destructure_call (expr : jsstring) (params : value)
    : completion (value * value) :=
  let cannot (what : jsstring) :=
    Throw (TypeError (lit "Cannot destructure property 'name' of '" ++ expr
                      ++ lit "' as it is " ++ what ++ lit ".")) in
  match params with
  | VUndefined => cannot (lit "undefined")
  | VNull => cannot (lit "null")
  | _ =>
      match Get params (lit "name"), Get params (lit "arguments") with
      | Normal n, Normal a => Normal (n, a)
      | Throw e, _ | _, Throw e => Throw e
      end
  end.

(** [r => ({ index: r.index, relevance_score: r.relevance_score })] *)
Definition result_entry (r : value) : completion value :=
  match Get r (lit "index"), Get r (lit "relevance_score") with
  | Normal i, Normal s =>
      Normal (VObj [(lit "index", i); (lit "relevance_score", s)])
  | Throw e, _ | _, Throw e => Throw e
  end.

Section RerankClient.
(** The text of a [ZodError], which Zod derives from the schema and the
    rejected input. *)
Variable zod_message : zschema -> value -> jsstring.
Variable net : network.

(** [schema.parse(v)] *)
Definition parse (schema : zschema) (v : value) : completion value :=
  match schema v with
  | Some o => Normal o
  | None => Throw (ZodError (zod_message schema v))
  end.

(** [makeRerankRequest(query, documents, apiKey)]: the same text in the
    three entry points. *)
Definition makeRerankRequest (query documents apiKey : value) : IO value :=
  bearer <- eval (ToString apiKey) ;;
  let headers :=
    [ (lit "Authorization", lit "Bearer " ++ bearer);
      (lit "Content-Type", lit "application/json") ] in
  let body :=
    JSON_stringify (VObj [(lit "query", query); (lit "documents", documents)]) in
  try_catch
    (response <- fetch net (mkHttpRequest ZERANK_API_BASE (lit "POST") headers body) ;;
     (if negb (up_ok response) then
        if (up_status response =? 401)%N then
          throw (Error (lit "Invalid API key"))
        else if (up_status response =? 429)%N then
          throw (Error (lit "Rate limit exceeded"))
        else
          throw (Error (lit "API error: " ++ N_toString (up_status response)))
      else ret tt) ;;;
     result <- eval (up_json response) ;;
     results <- eval (Get result (lit "results")) ;;
     (if negb (ToBoolean results) then
        throw (Error (lit "Invalid API response format"))
      else ret tt) ;;;
     mapped <- eval (array_map (lit "result.results") results result_entry) ;;
     eval (parse RerankResponseSchema (VObj [(lit "results", mapped)])))
    (fun error =>
       if js_eqb (err_name error) (lit "TypeError")
          && includes (err_message error) (lit "fetch")
       then throw (Error (lit "Request error: " ++ err_message error))
       else throw error).
End RerankClient.

(** An inbound HTTP request, of which the worker reads the outcome of
    [request.json()]. *)
Record Request := mkRequest { json : completion value }.

(** The text content [{type: "text", text}] of a tool result. *)
Definition text_content (text : value) : value :=
  VObj [(lit "type", VStr (lit "text")); (lit "text", text)].

(** The descriptor of the one tool, as [tools/list] answers it. *)
Definition tool_descriptor : value :=
  VObj
    [ (lit "name", VStr (lit "get_reranking"));
      (lit "description", VStr (lit "Get the reranked document listing"));
      (lit "inputSchema",
        VObj
          [ (lit "type", VStr (lit "object"));
            (lit "properties",
              VObj
                [ (lit "query",
                    VObj [ (lit "type", VStr (lit "string"));
                           (lit "description", VStr (lit "The search query"));
                           (lit "minLength", VNum (num_of_Z 1));
                           (lit "maxLength", VNum (num_of_Z 10000)) ]);
                  (lit "documents",
                    VObj [ (lit "type", VStr (lit "array"));
                           (lit "description", VStr (lit "Array of documents to rerank"));
                           (lit "items", VObj [(lit "type", VStr (lit "string"))]);
                           (lit "minItems", VNum (num_of_Z 1));
                           (lit "maxItems", VNum (num_of_Z 1000)) ]);
                  (lit "api_key",
                    VObj [ (lit "type", VStr (lit "string"));
                           (lit "description", VStr (lit "API key for authentication"));
                           (lit "minLength", VNum (num_of_Z 1)) ]) ]);
            (lit "required",
              VArr [VStr (lit "query"); VStr (lit "documents"); VStr (lit "api_key")]) ]) ].

(** The promise a [try] block returns without awaiting it settles outside the
    block. *)
Definition settle {S A} (m : M S (M S A)) : M S A := bind m (fun p => p).

(* ================================================================== *)
(** ** The protocol-conformant worker *)

Module Conformant.

Module MCP_ERROR_CODES.
Definition PARSE_ERROR : Z := -32700.
Definition INVALID_REQUEST : Z := -32600.
Definition METHOD_NOT_FOUND : Z := -32601.
Definition INVALID_PARAMS : Z := -32602.
Definition INTERNAL_ERROR : Z := -32603.
End MCP_ERROR_CODES.
Import MCP_ERROR_CODES.

(** The durable object: its [initialized] flag ([ctx] and [env] are stored
    and never read), and the outbound calls made through it. *)
Record state := mkState {
  initialized : bool;
  outbound : trace
}.

(** [new MCPServer(ctx, env)] *)
Definition constructor : state := mkState false [].

Definition liftIO {A} (m : IO A) : M state A :=
  fun st =>
    let '(r, t) := m (outbound st) in
    (r, mkState (initialized st) t).

(** [createErrorResponse(message, id = null, code = INTERNAL_ERROR)]: an
    [undefined] argument takes the default. *)
Definition createErrorResponse (message : jsstring) (id : value) (code : Z)
    : Response :=
  let id := match id with VUndefined => VNull | _ => id end in
  mkResponse 500 json_headers
    (JSON_stringify
       (VObj [ (lit "jsonrpc", VStr (lit "2.0"));
               (lit "error",
                 VObj [ (lit "code", VNum (num_of_Z code));
                        (lit "message", VStr message) ]);
               (lit "id", id) ])).

Definition handleInitialize (params id : value) : M state Response :=
  modify (fun st => mkState true (outbound st)) ;;;
  ret (mkResponse 200 json_headers
         (JSON_stringify
            (VObj [ (lit "jsonrpc", VStr (lit "2.0"));
                    (lit "id", id);
                    (lit "result",
                      VObj [ (lit "protocolVersion", VStr (lit "2024-11-05"));
                             (lit "capabilities", VObj [(lit "tools", VObj [])]);
                             (lit "serverInfo",
                               VObj [ (lit "name", VStr (lit "zerank-mcp"));
                                      (lit "version", VStr (lit "0.1.0")) ]) ]) ]))).

Definition handleInitialized (params : value) : Response :=
  mkResponse 204 [] None.

Definition handlePing (id : value) : Response :=
  mkResponse 200 json_headers
    (JSON_stringify
       (VObj [ (lit "jsonrpc", VStr (lit "2.0"));
               (lit "id", id);
               (lit "result", VObj []) ])).

Definition listTools (id : value) : Response :=
  mkResponse 200 json_headers
    (JSON_stringify
       (VObj [ (lit "jsonrpc", VStr (lit "2.0"));
               (lit "id", id);
               (lit "result", VObj [(lit "tools", VArr [tool_descriptor])]) ])).

Section Server.
Variable zod_message : zschema -> value -> jsstring.
Variable net : network.

Definition callTool (params id : value) : M state Response :=
  '(name, args) <- eval (destructure_call (lit "params") params) ;;
  if strict_eq_str name (lit "get_reranking") then
    try_catch
      (validatedArgs <- eval (parse zod_message RerankRequestSchema args) ;;
       query <- eval (Get validatedArgs (lit "query")) ;;
       documents <- eval (Get validatedArgs (lit "documents")) ;;
       api_key <- eval (Get validatedArgs (lit "api_key")) ;;
       response <- liftIO (makeRerankRequest zod_message net query documents api_key) ;;
       ret (mkResponse 200 json_headers
              (JSON_stringify
                 (VObj [ (lit "jsonrpc", VStr (lit "2.0"));
                         (lit "id", id);
                         (lit "result",
                           VObj [ (lit "content",
                                    VArr [ text_content
                                             (string_or_undefined
                                                (JSON_stringify_indent response 2)) ]) ]) ]))))
      (fun error =>
         ret (createErrorResponse (err_message error) id INVALID_PARAMS))
  else
    shown <- eval (ToString name) ;;
    ret (createErrorResponse (lit "Unknown tool: " ++ shown) id METHOD_NOT_FOUND).

Definition handleRequest (request : Request) : M state Response :=
  settle
    (try_catch
       (body <- eval (json request) ;;
        jsonrpc <- eval (Get body (lit "jsonrpc")) ;;
        if negb (ToBoolean jsonrpc) || negb (strict_eq_str jsonrpc (lit "2.0")) then
          id <- eval (Get body (lit "id")) ;;
          ret (ret (createErrorResponse (lit "Invalid JSON-RPC version") id
                      INVALID_REQUEST))
        else
          method <- eval (Get body (lit "method")) ;;
          if strict_eq_str method (lit "initialize") then
            params <- eval (Get body (lit "params")) ;;
            id <- eval (Get body (lit "id")) ;;
            response <- handleInitialize params id ;;
            ret (ret response)
          else if strict_eq_str method (lit "initialized") then
            params <- eval (Get body (lit "params")) ;;
            ret (ret (handleInitialized params))
          else if strict_eq_str method (lit "ping") then
            id <- eval (Get body (lit "id")) ;;
            ret (ret (handlePing id))
          else if strict_eq_str method (lit "tools/list") then
            id <- eval (Get body (lit "id")) ;;
            ret (ret (listTools id))
          else if strict_eq_str method (lit "tools/call") then
            params <- eval (Get body (lit "params")) ;;
            id <- eval (Get body (lit "id")) ;;
            ret (callTool params id)
          else
            id <- eval (Get body (lit "id")) ;;
            ret (ret (createErrorResponse (lit "Unknown method") id
                        METHOD_NOT_FOUND)))
       (fun error =>
          ret (ret (createErrorResponse (err_message error) VNull PARSE_ERROR)))).

(** [MCPServer.fetch(request)] *)
Definition fetch (request : Request) : M state Response :=
  handleRequest request.

(** The worker's entry point, in front of the durable object. *)
Definition worker_fetch (request : Request) : M state Response :=
  try_catch (fetch request)
    (fun error =>
       ret (mkResponse 500 json_headers
              (JSON_stringify
                 (VObj [ (lit "error",
                           VStr (lit "Worker error: " ++ err_message error)) ])))).
End Server.
End Conformant.

(* ================================================================== *)
(** ** The minimal worker, [src/worker.js] *)

Module Minimal.

(** The durable object has no field that is read or written; the state is
    the outbound calls made through it. *)
Definition state := trace.

(** [createErrorResponse(message, id = null)]: the code is fixed. *)
Definition createErrorResponse (message : jsstring) (id : value) : Response :=
  let id := match id with VUndefined => VNull | _ => id end in
  mkResponse 500 json_headers
    (JSON_stringify
       (VObj [ (lit "jsonrpc", VStr (lit "2.0"));
               (lit "error",
                 VObj [ (lit "code", VNum (num_of_Z (-32603)));
                        (lit "message", VStr message) ]);
               (lit "id", id) ])).

Definition listTools : Response :=
  mkResponse 200 json_headers
    (JSON_stringify
       (VObj [ (lit "jsonrpc", VStr (lit "2.0"));
               (lit "result", VObj [(lit "tools", VArr [tool_descriptor])]) ])).

Section Server.
Variable zod_message : zschema -> value -> jsstring.
Variable net : network.

Definition callTool (params : value) : M state Response :=
  '(name, args) <- eval (destructure_call (lit "params") params) ;;
  if strict_eq_str name (lit "get_reranking") then
    try_catch
      (validatedArgs <- eval (parse zod_message RerankRequestSchema args) ;;
       query <- eval (Get validatedArgs (lit "query")) ;;
       documents <- eval (Get validatedArgs (lit "documents")) ;;
       api_key <- eval (Get validatedArgs (lit "api_key")) ;;
       response <- makeRerankRequest zod_message net query documents api_key ;;
       ret (mkResponse 200 json_headers
              (JSON_stringify
                 (VObj [ (lit "jsonrpc", VStr (lit "2.0"));
                         (lit "result",
                           VObj [ (lit "content",
                                    VArr [ text_content
                                             (string_or_undefined
                                                (JSON_stringify_indent response 2)) ]) ]) ]))))
      (fun error => ret (createErrorResponse (err_message error) VUndefined))
  else
    shown <- eval (ToString name) ;;
    ret (createErrorResponse (lit "Unknown tool: " ++ shown) VUndefined).

Definition handleRequest (request : Request) : M state Response :=
  settle
    (try_catch
       (body <- eval (json request) ;;
        method <- eval (Get body (lit "method")) ;;
        if strict_eq_str method (lit "tools/list") then
          ret (ret listTools)
        else if strict_eq_str method (lit "tools/call") then
          params <- eval (Get body (lit "params")) ;;
          ret (callTool params)
        else
          id <- eval (Get body (lit "id")) ;;
          ret (ret (createErrorResponse (lit "Unknown method") id)))
       (fun error =>
          ret (ret (createErrorResponse (err_message error) VUndefined)))).

Definition fetch (request : Request) : M state Response :=
  handleRequest request.

Definition worker_fetch (request : Request) : M state Response :=
  try_catch (fetch request)
    (fun error =>
       ret (mkResponse 500 json_headers
              (JSON_stringify
                 (VObj [ (lit "error",
                           VStr (lit "Worker error: " ++ err_message error)) ])))).
End Server.
End Minimal.

(* ================================================================== *)
(** ** The stdio server, [src/index.js] *)

Module Stdio.

(** [new Server({name, version}, {capabilities})]: the identity and the
    capabilities the server is built with. *)
Definition serverInfo : value :=
  VObj [ (lit "name", VStr (lit "zerank-mcp"));
         (lit "version", VStr (lit "0.1.0")) ].

Definition capabilities : value := VObj [(lit "tools", VObj [])].

(** The handler of [ListToolsRequestSchema]. *)
Definition listToolsHandler : value :=
  VObj [(lit "tools", VArr [tool_descriptor])].

Section Server.
Variable zod_message : zschema -> value -> jsstring.
Variable net : network.

(** The handler of [CallToolRequestSchema]: it returns the tool result
    the SDK sends back, or throws to the SDK. *)
Definition callToolHandler (request : value) : IO value :=
  params <- eval (Get request (lit "params")) ;;
  '(name, args) <- eval (destructure_call (lit "request.params") params) ;;
  if strict_eq_str name (lit "get_reranking") then
    try_catch
      (validatedArgs <- eval (parse zod_message RerankRequestSchema args) ;;
       query <- eval (Get validatedArgs (lit "query")) ;;
       documents <- eval (Get validatedArgs (lit "documents")) ;;
       api_key <- eval (Get validatedArgs (lit "api_key")) ;;
       response <- makeRerankRequest zod_message net query documents api_key ;;
       ret (VObj [ (lit "content",
                     VArr [ text_content
                              (string_or_undefined
                                 (JSON_stringify_indent response 2)) ]) ]))
      (fun error =>
         ret (VObj [ (lit "content",
                       VArr [ text_content
                                (VStr (lit "Error: " ++ err_message error)) ]);
                     (lit "isError", VBool true) ]))
  else
    shown <- eval (ToString name) ;;
    throw (Error (lit "Unknown tool: " ++ shown)).
End Server.
End Stdio.


(* ================================================================== *)
(** ** Vocabulary of the specification *)

(** [undefined] or [null]: the values that have no properties. *)
Definition nullish (v : value) : bool :=
  match v with
  | VUndefined | VNull => true
  | _ => false
  end.

(** The field [k] of a message: [undefined] when it is missing. *)
Definition field (v : value) (k : jsstring) : value :=
  match v with
  | VObj props => own_property props k
  | _ => VUndefined
  end.

(** The [id] of an error response: [null] when the request has none. *)
Definition id_or_null (id : value) : value :=
  match id with
  | VUndefined => VNull
  | _ => id
  end.

(** The JSON-RPC error object [{jsonrpc: "2.0", error: {code, message}, id}]. *)
Definition jsonrpc_error (code : Z) (msg : jsstring) (id : value) : value :=
  VObj [ (lit "jsonrpc", VStr (lit "2.0"));
         (lit "error",
           VObj [ (lit "code", VNum (num_of_Z code));
                  (lit "message", VStr msg) ]);
         (lit "id", id) ].

(** The response that carries a JSON-RPC error object: HTTP status 500, JSON
    content type. *)
Definition error_response (code : Z) (msg : jsstring) (id : value) : Response :=
  mkResponse 500 json_headers (JSON_stringify (jsonrpc_error code msg id)).

(** A JSON-RPC 2.0 request message of the given method. *)
Definition is_request (body : value) (method : jsstring) : Prop :=
  nullish body = false
  /\ field body (lit "jsonrpc") = VStr (lit "2.0")
  /\ field body (lit "method") = VStr method.

(** A request whose [params] name the tool [name] and carry the
    [arguments] [args]. *)
Definition is_tool_call (request name args : value) : Prop :=
  nullish request = false
  /\ nullish (field request (lit "params")) = false
  /\ field (field request (lit "params")) (lit "name") = name
  /\ field (field request (lit "params")) (lit "arguments") = args.

(** A JSON-RPC [tools/call] request for the tool [name] with [arguments]
    [args]. *)
Definition is_tools_call (body name args : value) : Prop :=
  is_request body (lit "tools/call") /\ is_tool_call body name args.

(** The RerankRequest constraints: [args] has a [query] of 1 to 10000 code
    units, 1 to 1000 [documents], each a string that is not empty once
    trimmed, and an [api_key] that is not empty. *)
Definition RerankRequest_ok (args : value) (query : jsstring)
    (documents : list jsstring) (api_key : jsstring) : Prop :=
  field args (lit "query") = VStr query
  /\ field args (lit "documents") = VArr (List.map VStr documents)
  /\ field args (lit "api_key") = VStr api_key
  /\ (1 <= js_length query <= 10000)%N
  /\ (1 <= N.of_nat (List.length documents) <= 1000)%N
  /\ Forall (fun d => trim d <> []) documents
  /\ (1 <= js_length api_key)%N.

(** The arguments violate the constraints, whichever way they are read. *)
Definition violates_RerankRequest (args : value) : Prop :=
  forall query documents api_key,
    ~ RerankRequest_ok args query documents api_key.

(** The validated arguments [{query, documents, api_key}]. *)
Definition validated_args (query : jsstring) (documents : list jsstring)
    (api_key : jsstring) : value :=
  VObj [ (lit "query", VStr query);
         (lit "documents", VArr (List.map VStr documents));
         (lit "api_key", VStr api_key) ].

(** A number whose value is an integer. *)
Definition is_whole (x : number) : Prop :=
  exists z : Z, (num_value x == inject_Z z)%Q.

(** The RerankResult bounds: an element [r] with an integer [index] from 0
    to 1000 and a [relevance_score] from 0 to 1. *)
Definition RerankResult_ok (r : value) (p : number * number) : Prop :=
  field r (lit "index") = VNum (fst p)
  /\ field r (lit "relevance_score") = VNum (snd p)
  /\ is_whole (fst p)
  /\ (0 <= num_value (fst p) <= 1000)%Q
  /\ (0 <= num_value (snd p) <= 1)%Q.

(** A well-formed upstream body: [results] is an array of 1 to 1000
    elements within the RerankResult bounds; [rs] lists their indexes and
    scores. *)
Definition RerankResponse_ok (result : value) (rs : list (number * number))
    : Prop :=
  exists items,
    field result (lit "results") = VArr items
    /\ Forall2 RerankResult_ok items rs
    /\ (1 <= N.of_nat (List.length items) <= 1000)%N.

(** The element [{index, relevance_score}]. *)
Definition result_object (p : number * number) : value :=
  VObj [ (lit "index", VNum (fst p)); (lit "relevance_score", VNum (snd p)) ].

(** The structure [{results: [{index, relevance_score}, ...]}]. *)
Definition rerank_response (rs : list (number * number)) : value :=
  VObj [ (lit "results", VArr (List.map result_object rs)) ].

(** A [POST] to the reranking endpoint, the key in the [Authorization]
    header, the body the JSON text of [{query, documents}]. *)
Definition outbound_call (query documents : value) (api_key : jsstring)
    : HttpRequest :=
  mkHttpRequest ZERANK_API_BASE (lit "POST")
    [ (lit "Authorization", lit "Bearer " ++ api_key);
      (lit "Content-Type", lit "application/json") ]
    (JSON_stringify
       (VObj [ (lit "query", query); (lit "documents", documents) ])).

(** The one outbound call of a rerank invocation on validated inputs. *)
Definition rerank_call (query : jsstring) (documents : list jsstring)
    (api_key : jsstring) : HttpRequest :=
  outbound_call (VStr query) (VArr (List.map VStr documents)) api_key.

(** The message of the client's failure on a status that is not a success. *)
Definition status_message (status : N) : jsstring :=
  if (status =? 401)%N then lit "Invalid API key"
  else if (status =? 429)%N then lit "Rate limit exceeded"
  else lit "API error: " ++ N_toString status.

(** What the client's [catch] throws on: a [TypeError] that mentions
    [fetch] is wrapped, anything else is thrown again. *)
Definition rethrown (e : exn) : exn :=
  if js_eqb (err_name e) (lit "TypeError") && includes (err_message e) (lit "fetch")
  then Error (lit "Request error: " ++ err_message e)
  else e.

(** The tool result [{content: [{type: "text", text}]}] whose text is the
    JSON text of [response], indented by two spaces. *)
Definition tool_result (response : value) : value :=
  VObj [ (lit "content",
           VArr [ text_content
                    (string_or_undefined (JSON_stringify_indent response 2)) ]) ].

(** The tool result that reports a failure: [isError] is set and the text is
    the message after ["Error: "]. *)
Definition tool_error (msg : jsstring) : value :=
  VObj [ (lit "content", VArr [ text_content (VStr (lit "Error: " ++ msg)) ]);
         (lit "isError", VBool true) ].

(** The response that carries the JSON-RPC result [{jsonrpc: "2.0", id,
    result}]: HTTP status 200 (the default), JSON content type. *)
Definition result_response (id result : value) : Response :=
  mkResponse 200 json_headers
    (JSON_stringify
       (VObj [ (lit "jsonrpc", VStr (lit "2.0"));
               (lit "id", id);
               (lit "result", result) ])).

(** The same without an [id], as the minimal worker answers. *)
Definition anonymous_result_response (result : value) : Response :=
  mkResponse 200 json_headers
    (JSON_stringify
       (VObj [ (lit "jsonrpc", VStr (lit "2.0")); (lit "result", result) ])).

(** Sequences of decimal digits, and of the characters of a JSON number. *)
Definition all_digits (l : jsstring) : Prop :=
  Forall (fun c => is_digit c = true) l.

Definition number_chars (l : jsstring) : Prop :=
  Forall (fun c => is_number_char c = true) l.

(** The text of one element of [results], where [JSON.stringify] writes it
    with two spaces of indentation: four spaces deep. *)
Definition element_text (p : number * number) : jsstring :=
  match SerializeJSONProperty [32; 32]%N [32; 32; 32; 32]%N (result_object p) with
  | Some s => s
  | None => lit "null"
  end.

(** What the client makes of the parsed body of a successful response,
    before its [catch]. *)
Definition read_results (zod_message : zschema -> value -> jsstring)
    (result : value) : completion value :=
  match Get result (lit "results") with
  | Throw e => Throw e
  | Normal results =>
      if negb (ToBoolean results) then
        Throw (Error (lit "Invalid API response format"))
      else
        match array_map (lit "result.results") results result_entry with
        | Throw e => Throw e
        | Normal mapped =>
            parse zod_message RerankResponseSchema
              (VObj [(lit "results", mapped)])
        end
  end.

(** The outcome of the client once the network has answered. *)
Definition client_outcome (zod_message : zschema -> value -> jsstring)
    (answer : completion UpstreamResponse) : completion value :=
  match answer with
  | Throw e => Throw (rethrown e)
  | Normal r =>
      if up_ok r then
        match up_json r with
        | Throw e => Throw (rethrown e)
        | Normal result =>
            match read_results zod_message result with
            | Throw e => Throw (rethrown e)
            | Normal v => Normal v
            end
        end
      else Throw (Error (status_message (up_status r)))
  end.

(* ================================================================== *)
(** ** Sample inputs *)

Definition sample_zod_message : zschema -> value -> jsstring :=
  fun _ _ => lit "Documents cannot be empty strings".

(** The arguments of the specification's scenario. *)
Definition sample_args : value :=
  VObj [ (lit "query", VStr (lit "ml"));
         (lit "documents", VArr [VStr (lit "a"); VStr (lit "b")]);
         (lit "api_key", VStr (lit "k")) ].

(** The same with a document of white space only. *)
Definition sample_blank_args : value :=
  VObj [ (lit "query", VStr (lit "ml"));
         (lit "documents", VArr [VStr (lit "a"); VStr (lit "  ")]);
         (lit "api_key", VStr (lit "k")) ].

Definition sample_call (id : Z) (tool : jsstring) (args : value) : value :=
  VObj [ (lit "jsonrpc", VStr (lit "2.0"));
         (lit "id", VNum (num_of_Z id));
         (lit "method", VStr (lit "tools/call"));
         (lit "params",
           VObj [ (lit "name", VStr tool); (lit "arguments", args) ]) ].

(** A request of version 2.0 without [params]. *)
Definition sample_request (id : Z) (method : jsstring) : value :=
  VObj [ (lit "jsonrpc", VStr (lit "2.0"));
         (lit "id", VNum (num_of_Z id));
         (lit "method", VStr method) ].

(** The upstream body of the specification's scenario: index 1 scored 0.8,
    index 0 scored 0.1. *)
Definition sample_scores : list (number * number) :=
  [ (num_of_Z 1, decimal 8 (-1)); (num_of_Z 0, decimal 1 (-1)) ].

Definition sample_upstream_body : value :=
  VObj [ (lit "results",
           VArr [ VObj [ (lit "index", VNum (num_of_Z 1));
                         (lit "relevance_score", VNum (decimal 8 (-1))) ];
                  VObj [ (lit "index", VNum (num_of_Z 0));
                         (lit "relevance_score", VNum (decimal 1 (-1))) ] ]) ].

(** A network that answers every call with the given status and body. *)
Definition sample_network (status : N) (body : value) : network :=
  fun _ _ => Normal (mkUpstream status (Normal body)).

(* ================================================================== *)
(** ** JSON data *)

(** The properties of an object in the order in which it enumerates them,
    when they are defined one after the other in the order of [props]. *)
Definition define_all (props : list (jsstring * value))
    : list (jsstring * value) :=
  List.fold_left (fun acc kv => define_property acc (fst kv) (snd kv)) props [].

(** The values a JSON text writes: no [undefined] in them, and every object
    lists its properties in the order in which it enumerates them. *)
Fixpoint json_data (v : value) : Prop :=
  match v with
  | VUndefined => False
  | VNull | VBool _ | VNum _ | VStr _ => True
  | VArr items =>
      (fix all (l : list value) : Prop :=
         match l with
         | [] => True
         | i :: l' => json_data i /\ all l'
         end) items
  | VObj props =>
      define_all props = props
      /\ (fix all (l : list (jsstring * value)) : Prop :=
            match l with
            | [] => True
            | (_, x) :: l' => json_data x /\ all l'
            end) props
  end.

(** Induction on a value, with the property at hand for the elements of an
    array and for the values of the properties of an object. *)
Section ValueInduction.
Variable P : value -> Prop.
Hypothesis P_undefined : P VUndefined.
Hypothesis P_null : P VNull.
Hypothesis P_bool : forall b, P (VBool b).
Hypothesis P_num : forall x, P (VNum x).
Hypothesis P_str : forall s, P (VStr s).
Hypothesis P_arr : forall items, Forall P items -> P (VArr items).
Hypothesis P_obj :
  forall props, Forall (fun kv => P (snd kv)) props -> P (VObj props).

Fixpoint value_nested_ind (v : value) : P v :=
  match v with
  | VUndefined => P_undefined
  | VNull => P_null
  | VBool b => P_bool b
  | VNum x => P_num x
  | VStr s => P_str s
  | VArr items =>
      P_arr
        ((fix all (l : list value) : Forall P l :=
            match l with
            | [] => Forall_nil P
            | i :: l' => Forall_cons i (value_nested_ind i) (all l')
            end) items)
  | VObj props =>
      P_obj
        ((fix all (l : list (jsstring * value))
            : Forall (fun kv => P (snd kv)) l :=
            match l with
            | [] => Forall_nil _
            | kv :: l' =>
                @Forall_cons _ (fun kv => P (snd kv)) kv l'
                  (value_nested_ind (snd kv)) (all l')
            end) props)
  end.
End ValueInduction.

(** The code units that follow a value in what [JSON.stringify] writes: a
    comma, a closing bracket or brace, a line feed. *)
Definition is_delimiter (c : N) : bool :=
  ((c =? 44) || (c =? 93) || (c =? 125) || (c =? 10))%N.

(** White space between the tokens of a JSON text. *)
Definition blank (l : jsstring) : Prop :=
  Forall (fun c => is_json_space c = true) l.

(** The text of a value is read back as the value where a value is
    expected, at the end of the text or before a delimiter. *)
Definition reads_back (v : value) : Prop :=
  forall gap indent p p' text,
    blank gap -> blank indent ->
    value_expected (expecting p) = true ->
    push_value v (stack p) = Some p' ->
    SerializeJSONProperty gap indent v = Some text ->
    exists st,
      lex (LStart, p) text = Some st
      /\ lex_end st = Some p'
      /\ forall c, is_delimiter c = true -> lex_char st c = start_char p' c.

(** The text of an element of an array and of a member of an object, as
    [SerializeJSONProperty] writes them. *)
Definition item_text (gap indent : jsstring) (i : value) : jsstring :=
  match SerializeJSONProperty gap indent i with
  | Some s => s
  | None => lit "null"
  end.

Definition member_text (gap indent : jsstring) (kv : jsstring * value)
    : jsstring :=
  QuoteJSONString (fst kv) ++ lit ":"
  ++ match gap with [] => [] | _ => lit " " end
  ++ item_text gap indent (snd kv).

(** The JSON-RPC result message [{jsonrpc: "2.0", id, result}] as it is
    sent: [JSON.stringify] leaves out the [id] of a request that has none. *)
Definition result_message (id result : value) : value :=
  VObj ((lit "jsonrpc", VStr (lit "2.0"))
        :: match id with
           | VUndefined => []
           | _ => [(lit "id", id)]
           end
        ++ [(lit "result", result)]).

(** The entry point [entry] in front of the handler [handler]: it returns
    what the handler returns, and answers what the handler throws with a
    response of status 500 whose body is [{error: "Worker error: " +
    message}]; the state is the one the handler leaves. *)
Definition guards {S : Type} (entry handler : M S Response) : Prop :=
  forall s,
    exists r,
      entry s = (Normal r, snd (handler s))
      /\ (forall r', fst (handler s) = Normal r' -> r = r')
      /\ (forall e,
            fst (handler s) = Throw e ->
            exists text,
              r = mkResponse 500 json_headers (Some text)
              /\ JSON_parse text
                 = Some (VObj [ (lit "error",
                                  VStr (lit "Worker error: "
                                        ++ err_message e)) ])).

(** The methods the protocol-conformant worker dispatches on. *)
Definition protocol_methods : list jsstring :=
  [ lit "initialize"; lit "initialized"; lit "ping"; lit "tools/list";
    lit "tools/call" ].

(** What the tool descriptor advertises for a property of the arguments:
    the value of a keyword of its schema, [undefined] when it has none. *)
Definition advertised (property keyword : jsstring) : value :=
  field (field (field (field tool_descriptor (lit "inputSchema"))
                  (lit "properties")) property) keyword.

(** The length [n] is within the advertised bounds; a bound that is not
    advertised does not bind. *)
Definition within (lo hi : value) (n : N) : Prop :=
  (forall x, lo = VNum x -> (num_value x <= inject_Z (Z.of_N n))%Q)
  /\ (forall x, hi = VNum x -> (inject_Z (Z.of_N n) <= num_value x)%Q).

(* ================================================================== *)
(** ** Strings and property access *)

Lemma js_eqb_eq (a b : jsstring) : js_eqb a b = true <-> a = b.
Proof.
  revert b; induction a as [|x a IH]; intros [|y b]; simpl; split;
    try congruence; try reflexivity.
  - intros H. apply andb_true_iff in H as [Hx Hab].
    apply N.eqb_eq in Hx. apply IH in Hab. congruence.
  - intros H. injection H as -> ->. rewrite N.eqb_refl. simpl. now apply IH.
Qed.

Lemma js_eqb_refl (a : jsstring) : js_eqb a a = true.
Proof. now apply js_eqb_eq. Qed.

Lemma strict_eq_str_true (v : value) (s : jsstring) :
  strict_eq_str v s = true <-> v = VStr s.
Proof.
  destruct v; simpl; split; try congruence.
  - intros H. apply js_eqb_eq in H. congruence.
  - intros H. injection H as ->. apply js_eqb_refl.
Qed.

Lemma strict_eq_str_refl (s : jsstring) : strict_eq_str (VStr s) s = true.
Proof. apply js_eqb_refl. Qed.

Lemma starts_with_app (p r : jsstring) : starts_with p (p ++ r) = true.
Proof.
  induction p as [|x p IH]; simpl; [reflexivity|].
  now rewrite N.eqb_refl.
Qed.

Lemma includes_prefix (p s : jsstring) :
  starts_with p s = true -> includes s p = true.
Proof. destruct s; simpl; intros ->; reflexivity. Qed.

Lemma includes_app (a b c : jsstring) : includes (a ++ b ++ c) b = true.
Proof.
  induction a as [|x a IH]; simpl.
  - apply includes_prefix, starts_with_app.
  - rewrite IH. apply orb_true_r.
Qed.

Lemma includes_refl (s : jsstring) : includes s s = true.
Proof.
  apply includes_prefix. rewrite <- (List.app_nil_r s) at 2.
  apply starts_with_app.
Qed.

Lemma includes_suffix (a b : jsstring) : includes (a ++ b) b = true.
Proof.
  rewrite <- (List.app_nil_r b) at 1. apply includes_app.
Qed.

Lemma Get_field (v : value) (k : jsstring) :
  nullish v = false -> Get v k = Normal (field v k).
Proof. destruct v; simpl; congruence. Qed.

(* ================================================================== *)
(** ** Numbers and their digits *)

Lemma number_eq (x y : number) : mant x = mant y -> expo x = expo y -> x = y.
Proof.
  destruct x as [m e H], y as [m' e' H']. simpl. intros -> ->.
  f_equal. apply Eqdep_dec.UIP_dec, bool_dec.
Qed.

Lemma normalize_canonical (m e : Z) :
  canonical m e = true -> normalize m e = (m, e).
Proof.
  unfold canonical, normalize. destruct (m =? 0) eqn:E.
  - intros He. apply Z.eqb_eq in E, He. congruence.
  - intros Hm. cbn [strip_zeros].
    destruct (m mod 10 =? 0); [discriminate|reflexivity].
Qed.

Lemma decimal_of_canonical (m e : Z) (H : canonical m e = true) :
  decimal m e = @mkNum m e H.
Proof.
  unfold decimal. rewrite (normalize_canonical H).
  destruct (bool_dec (canonical m e) true) as [H'|H']; [|contradiction].
  apply number_eq; reflexivity.
Qed.

Lemma decimal_canonical (x : number) : decimal (mant x) (expo x) = x.
Proof. destruct x as [m e H]. apply decimal_of_canonical. Qed.

Lemma strip_zeros_shift (j fuel : nat) (m e : Z) :
  (j < fuel)%nat -> m mod 10 <> 0 ->
  strip_zeros fuel (m * 10 ^ Z.of_nat j) e = (m, e + Z.of_nat j).
Proof.
  revert fuel e; induction j as [|j IH]; intros fuel e Hf Hm.
  - destruct fuel; [lia|]. cbn [strip_zeros].
    rewrite Z.mul_1_r, Z.add_0_r.
    destruct (m mod 10 =? 0) eqn:E; [apply Z.eqb_eq in E; contradiction|].
    reflexivity.
  - destruct fuel; [lia|]. cbn [strip_zeros].
    rewrite Nat2Z.inj_succ, Z.pow_succ_r by lia.
    replace (m * (10 * 10 ^ Z.of_nat j)) with (m * 10 ^ Z.of_nat j * 10) by ring.
    rewrite Z.mod_mul, Z.div_mul by lia. cbn [Z.eqb].
    rewrite IH by (assumption || lia). f_equal. lia.
Qed.

Lemma log2_shift (m : Z) (j : nat) :
  m <> 0 -> (j <= Z.to_nat (Z.log2 (Z.abs (m * 10 ^ Z.of_nat j))))%nat.
Proof.
  intros Hm.
  assert (2 ^ Z.of_nat j <= Z.abs (m * 10 ^ Z.of_nat j)) as H.
  { rewrite Z.abs_mul, (Z.abs_eq (10 ^ _)) by (apply Z.pow_nonneg; lia).
    transitivity (1 * 10 ^ Z.of_nat j).
    - rewrite Z.mul_1_l. apply Z.pow_le_mono_l. lia.
    - apply Z.mul_le_mono_nonneg_r; [apply Z.pow_nonneg|]; lia. }
  apply Z.log2_le_mono in H. rewrite Z.log2_pow2 in H by lia. lia.
Qed.

(** A mantissa written with trailing zeros is the same number. *)
Lemma decimal_shift (x : number) (j : nat) :
  mant x <> 0 ->
  decimal (mant x * 10 ^ Z.of_nat j) (expo x - Z.of_nat j) = x.
Proof.
  intros Hm. destruct x as [m e H]. cbn [mant expo] in *.
  assert (m mod 10 <> 0) as Hmod.
  { unfold canonical in H. destruct (m =? 0) eqn:E;
      [apply Z.eqb_eq in E; contradiction|].
    destruct (m mod 10 =? 0) eqn:E'; [discriminate|]. now apply Z.eqb_neq. }
  unfold decimal, normalize.
  destruct (m * 10 ^ Z.of_nat j =? 0) eqn:E.
  { apply Z.eqb_eq in E. apply Z.mul_eq_0 in E as [E|E]; [contradiction|].
    apply Z.pow_nonzero in E; try lia. }
  rewrite strip_zeros_shift; [|pose proof (log2_shift j Hm); lia|assumption].
  replace (e - Z.of_nat j + Z.of_nat j) with e by lia.
  destruct (bool_dec (canonical m e) true) as [H'|H']; [|contradiction].
  apply number_eq; reflexivity.
Qed.

(** Stripping trailing zeros keeps the value and ends in lowest terms. *)
Lemma strip_zeros_spec (fuel : nat) (m e : Z) :
  m <> 0 -> Z.abs m < 2 ^ Z.of_nat fuel ->
  canonical (fst (strip_zeros fuel m e)) (snd (strip_zeros fuel m e)) = true
  /\ (inject_Z (fst (strip_zeros fuel m e))
      * Qpower (10 # 1) (snd (strip_zeros fuel m e))
      == inject_Z m * Qpower (10 # 1) e)%Q.
Proof.
  revert m e; induction fuel as [|fuel IH]; intros m e Hm Hb.
  - simpl in Hb. lia.
  - cbn [strip_zeros]. destruct (m mod 10 =? 0) eqn:E.
    + apply Z.eqb_eq in E.
      assert (m = 10 * (m / 10)) as Hdiv by (apply Z_div_exact_full_2; lia).
      assert (m / 10 <> 0) as Hq by lia.
      assert (Z.abs (m / 10) < 2 ^ Z.of_nat fuel) as Hqb.
      { rewrite Nat2Z.inj_succ, Z.pow_succ_r in Hb by lia. lia. }
      destruct (IH (m / 10) (e + 1) Hq Hqb) as [Hc Hv].
      split; [exact Hc|]. rewrite Hv.
      rewrite Qpower_plus by discriminate.
      rewrite Hdiv at 2. rewrite inject_Z_mult.
      change (Qpower (10 # 1) 1) with (inject_Z 10). ring.
    + split; [|reflexivity]. cbn [fst snd]. unfold canonical.
      apply Z.eqb_neq in Hm. now rewrite Hm, E.
Qed.

(** [decimal m e] is the number [m * 10 ^ e], in lowest terms. *)
Lemma decimal_value (m e : Z) :
  (num_value (decimal m e) == inject_Z m * Qpower (10 # 1) e)%Q.
Proof.
  unfold decimal, normalize. destruct (m =? 0) eqn:E.
  - apply Z.eqb_eq in E. subst m.
    change (inject_Z 0) with 0%Q. rewrite Qmult_0_l. reflexivity.
  - apply Z.eqb_neq in E.
    assert (Z.abs m < 2 ^ Z.of_nat (S (Z.to_nat (Z.log2 (Z.abs m))))) as Hb.
    { rewrite Nat2Z.inj_succ, Z2Nat.id by apply Z.log2_nonneg.
      apply Z.log2_spec. lia. }
    destruct (strip_zeros_spec e E Hb) as [Hc Hv].
    destruct (strip_zeros _ m e) as [m' e']. cbn [fst snd] in *.
    destruct (bool_dec (canonical m' e') true) as [H|H]; [|contradiction].
    exact Hv.
Qed.

(** [Number.isInteger] holds of the numbers whose value is an integer. *)
Lemma is_integer_whole (x : number) : is_integer x = true <-> is_whole x.
Proof.
  unfold is_integer, is_whole, num_value. destruct x as [m e H]. cbn [mant expo].
  split.
  - intros He. apply Z.leb_le in He. exists (m * 10 ^ e).
    rewrite inject_Z_mult, (Zpower_Qpower 10 e He). reflexivity.
  - intros [z Hz]. apply Z.leb_le.
    destruct (Z_lt_le_dec e 0) as [Hneg|]; [exfalso|assumption].
    unfold canonical in H. destruct (m =? 0) eqn:E0.
    { apply Z.eqb_eq in H. lia. }
    assert (m mod 10 <> 0) as Hmod
      by (destruct (m mod 10 =? 0) eqn:E; [discriminate|now apply Z.eqb_neq]).
    replace e with (- (- e)) in Hz by lia.
    rewrite Qpower_opp in Hz.
    assert (~ (Qpower (10 # 1) (- e) == 0)%Q) as Hnz
      by (apply Qpower_not_0; discriminate).
    assert (inject_Z m == inject_Z z * Qpower (10 # 1) (- e))%Q as Hm.
    { rewrite <- Hz. field. exact Hnz. }
    change (10 # 1) with (inject_Z 10) in Hm.
    rewrite <- Zpower_Qpower, <- inject_Z_mult in Hm by lia.
    apply (proj1 (inject_Z_injective _ _)) in Hm.
    apply Hmod. rewrite Hm.
    replace (- e) with (Z.succ (- e - 1)) by lia.
    rewrite Z.pow_succ_r by lia.
    replace (z * (10 * 10 ^ (- e - 1))) with (z * 10 ^ (- e - 1) * 10) by ring.
    apply Z.mod_mul. lia.
Qed.

Lemma digits_value_acc (l : jsstring) (acc : N) :
  List.fold_left (fun a c => a * 10 + (c - 48))%N l acc
  = (acc * 10 ^ N.of_nat (List.length l) + digits_value l)%N.
Proof.
  unfold digits_value. revert acc; induction l as [|c l IH]; intros acc.
  - simpl. lia.
  - cbn [List.fold_left List.length]. rewrite IH, (IH (0 * 10 + (c - 48))%N).
    rewrite Nat2N.inj_succ, N.pow_succ_r'. lia.
Qed.

Lemma digits_value_app (a b : jsstring) :
  digits_value (a ++ b)
  = (digits_value a * 10 ^ N.of_nat (List.length b) + digits_value b)%N.
Proof.
  unfold digits_value at 1. rewrite List.fold_left_app.
  fold (digits_value a). apply digits_value_acc.
Qed.

Lemma digits_value_zeros (j : nat) : digits_value (List.repeat 48%N j) = 0%N.
Proof.
  induction j as [|j IH]; [reflexivity|].
  change (List.repeat 48%N (S j)) with ([48%N] ++ List.repeat 48%N j).
  rewrite digits_value_app, IH. reflexivity.
Qed.

Lemma all_digits_zeros (j : nat) : all_digits (List.repeat 48%N j).
Proof. induction j; constructor; auto. Qed.

Lemma digit_char_value (d : N) : (d < 10)%N -> (digit_char d - 48 = d)%N.
Proof. unfold digit_char. lia. Qed.

Lemma digit_char_digit (d : N) : (d < 10)%N -> is_digit (digit_char d) = true.
Proof.
  unfold is_digit, digit_char. intros H.
  apply andb_true_iff. split; apply N.leb_le; lia.
Qed.

Lemma digits_fuel_S (f : nat) (n : N) :
  digits_fuel (S f) n =
    if (n <? 10)%N then [digit_char n]
    else digits_fuel f (n / 10) ++ [digit_char (n mod 10)].
Proof. reflexivity. Qed.

(** The digits of [n]: they write [n], and start with a zero only for
    zero itself. *)
Lemma digits_fuel_spec (f : nat) (n : N) :
  (n < 2 ^ N.of_nat f)%N ->
  digits_value (digits_fuel (S f) n) = n
  /\ all_digits (digits_fuel (S f) n)
  /\ exists d more, digits_fuel (S f) n = d :: more
                    /\ (n <> 0%N -> d <> 48%N)
                    /\ (n = 0%N -> more = []).
Proof.
  revert n; induction f as [|f IH]; intros n Hn.
  - assert (n = 0%N) as -> by (simpl in Hn; lia).
    repeat split; [repeat constructor|].
    exists 48%N, []. repeat split; congruence.
  - rewrite (digits_fuel_S (S f) n). destruct (n <? 10)%N eqn:E.
    + apply N.ltb_lt in E. repeat split.
      * unfold digits_value. simpl. now apply digit_char_value.
      * constructor; [now apply digit_char_digit|constructor].
      * exists (digit_char n), []. repeat split.
        unfold digit_char. lia.
    + apply N.ltb_ge in E.
      assert (n / 10 < 2 ^ N.of_nat f)%N as Hq.
      { apply N.Div0.div_lt_upper_bound.
        rewrite Nat2N.inj_succ, N.pow_succ_r' in Hn. lia. }
      destruct (IH (n / 10)%N Hq) as (Hv & Hd & d & more & Heq & Hnz & _).
      assert (n mod 10 < 10)%N as Hr by (apply N.mod_lt; lia).
      repeat split.
      * rewrite digits_value_app, Hv. unfold digits_value at 1.
        cbn [List.fold_left List.length]. rewrite digit_char_value by assumption.
        change (N.of_nat 1) with 1%N. rewrite N.pow_1_r.
        pose proof (N.div_mod n 10). lia.
      * apply Forall_app. split; [exact Hd|].
        constructor; [now apply digit_char_digit|constructor].
      * rewrite Heq. exists d, (more ++ [digit_char (n mod 10)]).
        repeat split.
        -- intros _. apply Hnz. intros H0.
           pose proof (N.div_mod n 10). lia.
        -- intros ->. simpl in E. lia.
Qed.

Lemma N_toString_spec (n : N) :
  digits_value (N_toString n) = n
  /\ all_digits (N_toString n)
  /\ exists d more, N_toString n = d :: more
                    /\ (n <> 0%N -> d <> 48%N)
                    /\ (n = 0%N -> more = []).
Proof.
  apply digits_fuel_spec. rewrite N2Nat.id. apply N.size_gt.
Qed.

Lemma span_digits_all (ds rest : jsstring) :
  all_digits ds ->
  match rest with [] => True | c :: _ => is_digit c = false end ->
  span_digits (ds ++ rest) = (ds, rest).
Proof.
  intros Hd Hr. induction Hd as [|c ds Hc _ IH]; simpl.
  - destruct rest as [|c rest]; simpl; [reflexivity|]. now rewrite Hr.
  - now rewrite Hc, IH.
Qed.

Lemma span_digits_whole (ds : jsstring) :
  all_digits ds -> span_digits ds = (ds, []).
Proof.
  intros Hd. rewrite <- (List.app_nil_r ds) at 1.
  now apply span_digits_all.
Qed.

Lemma all_digits_app (a b : jsstring) :
  all_digits a -> all_digits b -> all_digits (a ++ b).
Proof. intros Ha Hb. apply Forall_app. now split. Qed.

Lemma read_exponent_written (z : Z) :
  read_exponent
    (lit "e" ++ (if z <? 0 then lit "-" else lit "+")
     ++ N_toString (Z.to_N (Z.abs z))) = Some z.
Proof.
  destruct (N_toString_spec (Z.to_N (Z.abs z))) as (Hv & Hd & d & more & Heq & _).
  assert (forall neg : bool,
            match span_digits (N_toString (Z.to_N (Z.abs z))) with
            | ((_ :: _) as ds, []) =>
                Some (if neg then - Z.of_N (digits_value ds)
                      else Z.of_N (digits_value ds))
            | _ => None
            end = Some (if neg then - Z.abs z else Z.abs z)) as Hs.
  { intros neg. rewrite (span_digits_whole Hd), Heq. cbv iota beta.
    rewrite <- Heq. rewrite Hv. rewrite Z2N.id by lia. reflexivity. }
  destruct (z <? 0) eqn:E.
  - apply Z.ltb_lt in E. change (read_exponent _) with
      (match span_digits (N_toString (Z.to_N (Z.abs z))) with
       | ((_ :: _) as ds, []) => Some (- Z.of_N (digits_value ds))
       | _ => None
       end).
    rewrite (Hs true). f_equal. lia.
  - apply Z.ltb_ge in E. change (read_exponent _) with
      (match span_digits (N_toString (Z.to_N (Z.abs z))) with
       | ((_ :: _) as ds, []) => Some (Z.of_N (digits_value ds))
       | _ => None
       end).
    rewrite (Hs false). f_equal. lia.
Qed.

Lemma read_unsigned_parts (neg : bool) (l int l2 frac l3 : jsstring) (e : Z) :
  span_digits l = (int, l2) ->
  (exists d r, int = d :: r /\ (d <> 48%N \/ r = [])) ->
  read_fraction l2 = Some (frac, l3) ->
  read_exponent l3 = Some e ->
  read_unsigned neg l =
    Some (decimal (if neg then - Z.of_N (digits_value (int ++ frac))
                   else Z.of_N (digits_value (int ++ frac)))
            (e - Z.of_nat (List.length frac))).
Proof.
  intros Hs (d & r & -> & Hz) Hf He.
  unfold read_unsigned. rewrite Hs, Hf, He.
  destruct Hz as [Hz| ->].
  - apply N.eqb_neq in Hz. rewrite Hz. reflexivity.
  - rewrite andb_false_r. reflexivity.
Qed.

Lemma read_fraction_none (l : jsstring) :
  match l with [] => True | c :: _ => c <> 46%N end ->
  read_fraction l = Some ([], l).
Proof.
  destruct l as [|c l]; [reflexivity|]. intros Hc.
  unfold read_fraction. apply N.eqb_neq in Hc. now rewrite Hc.
Qed.

Lemma read_fraction_some (frac rest : jsstring) :
  all_digits frac -> frac <> [] ->
  match rest with [] => True | c :: _ => is_digit c = false end ->
  read_fraction (46%N :: frac ++ rest) = Some (frac, rest).
Proof.
  intros Hd Hne Hr. unfold read_fraction. cbn [N.eqb Pos.eqb].
  rewrite (span_digits_all Hd Hr). destruct frac; [contradiction|reflexivity].
Qed.

(** Reading what [Number::toString] wrote gives the number back. *)
Lemma read_unsigned_written (x : number) :
  mant x <> 0 ->
  read_unsigned (mant x <? 0)
    (positive_toString (N_toString (Z.to_N (Z.abs (mant x))))
       (Z.of_nat (List.length (N_toString (Z.to_N (Z.abs (mant x))))) + expo x))
  = Some x.
Proof.
  intros Hm.
  destruct (N_toString_spec (Z.to_N (Z.abs (mant x))))
    as (Hv & Hd & d & more & Heq & Hnz & _).
  set (ds := N_toString (Z.to_N (Z.abs (mant x)))) in *.
  assert (d <> 48%N) as Hd0 by (apply Hnz; lia).
  assert (is_digit d = true /\ all_digits more) as [Hdd Hmore]
    by (rewrite Heq in Hd; now inversion Hd).
  assert (forall v : N, v = Z.to_N (Z.abs (mant x)) ->
            (if mant x <? 0 then - Z.of_N v else Z.of_N v) = mant x) as Hsign.
  { intros v ->. rewrite Z2N.id by lia.
    destruct (mant x <? 0) eqn:E;
      [apply Z.ltb_lt in E | apply Z.ltb_ge in E]; lia. }
  unfold positive_toString.
  set (k := Z.of_nat (List.length ds)).
  assert (k = Z.of_nat (S (List.length more))) as Hk
    by (unfold k; now rewrite Heq).
  destruct ((k <=? k + expo x) && (k + expo x <=? 21)) eqn:EA.
  { (* an integer *)
    apply andb_true_iff in EA as [EA _]. apply Z.leb_le in EA.
    replace (k + expo x - k) with (expo x) by lia.
    change (digit_char 0) with 48%N.
    rewrite (@read_unsigned_parts _ _
               (ds ++ List.repeat 48%N (Z.to_nat (expo x))) [] [] [] 0).
    - f_equal.
      etransitivity; [|apply (@decimal_shift x (Z.to_nat (expo x)) Hm)].
      f_equal; [|cbn [List.length]; lia].
      rewrite List.app_nil_r, digits_value_app, digits_value_zeros, Hv,
        List.repeat_length, N.add_0_r, N2Z.inj_mul, N2Z.inj_pow, nat_N_Z.
      change (Z.of_N 10) with 10. rewrite Z2N.id by lia.
      destruct (mant x <? 0) eqn:E;
        [apply Z.ltb_lt in E; rewrite Z.abs_neq by lia
        |apply Z.ltb_ge in E; rewrite Z.abs_eq by lia]; ring.
    - apply span_digits_whole, all_digits_app;
        [exact Hd | apply all_digits_zeros].
    - rewrite Heq. cbn [app]. eauto.
    - reflexivity.
    - reflexivity. }
  destruct ((0 <? k + expo x) && (k + expo x <=? 21)) eqn:EB.
  { (* digits on both sides of the point *)
    apply andb_true_iff in EB as [EB1 EB2].
    apply Z.ltb_lt in EB1. apply Z.leb_le in EB2.
    apply andb_false_iff in EA as [EA|EA]; apply Z.leb_gt in EA; [|lia].
    set (j := Z.to_nat (k + expo x)).
    assert (0 < j < List.length ds)%nat as Hj by (unfold j, k in *; lia).
    assert (all_digits (List.firstn j ds) /\ all_digits (List.skipn j ds))
      as [Hp Hq]
      by (apply Forall_app; rewrite List.firstn_skipn; exact Hd).
    assert (List.length (List.skipn j ds) = (List.length ds - j)%nat) as Hlen
      by apply List.length_skipn.
    change (lit ".") with [46%N]. cbn [app].
    rewrite (@read_unsigned_parts _ _ (List.firstn j ds)
               (46%N :: List.skipn j ds) (List.skipn j ds) [] 0).
    - f_equal. rewrite List.firstn_skipn, Hv, (Hsign _ eq_refl).
      etransitivity; [|apply (decimal_canonical x)]. f_equal.
      rewrite Hlen. unfold j, k in *. lia.
    - now apply span_digits_all.
    - rewrite Heq. destruct j as [|j']; [lia|]. cbn [List.firstn]. eauto.
    - rewrite <- (List.app_nil_r (List.skipn j ds)) at 1.
      apply read_fraction_some; [exact Hq| |exact I].
      intros E. rewrite E in Hlen. simpl in Hlen. lia.
    - reflexivity. }
  destruct ((-6 <? k + expo x) && (k + expo x <=? 0)) eqn:EC.
  { (* a fraction below one *)
    apply andb_true_iff in EC as [_ EC]. apply Z.leb_le in EC.
    change (lit "0.") with [48%N; 46%N]. change (digit_char 0) with 48%N.
    cbn [app].
    set (zs := List.repeat 48%N (Z.to_nat (- (k + expo x)))).
    rewrite (@read_unsigned_parts _ _ [48%N] (46%N :: zs ++ ds) (zs ++ ds) [] 0).
    - f_equal.
      change ([48%N] ++ zs ++ ds) with
        (List.repeat 48%N (S (Z.to_nat (- (k + expo x)))) ++ ds).
      rewrite digits_value_app, digits_value_zeros, Hv. cbn [N.mul N.add].
      rewrite (Hsign _ eq_refl).
      etransitivity; [|apply (decimal_canonical x)]. f_equal.
      rewrite List.length_app. unfold zs. rewrite List.repeat_length.
      unfold k in *. lia.
    - reflexivity.
    - eauto.
    - rewrite <- (List.app_nil_r (zs ++ ds)) at 1.
      apply read_fraction_some.
      + apply all_digits_app; [apply all_digits_zeros | exact Hd].
      + rewrite Heq. destruct zs; discriminate.
      + exact I.
    - reflexivity. }
  (* the exponent form *)
  set (es := (if k + expo x - 1 <? 0 then lit "-" else lit "+")
             ++ N_toString (Z.to_N (Z.abs (k + expo x - 1)))).
  assert (read_exponent (lit "e" ++ es) = Some (k + expo x - 1)) as He
    by apply read_exponent_written.
  rewrite Heq.
  destruct more as [|c more'].
  - rewrite (@read_unsigned_parts _ _ [d] (lit "e" ++ es) [] (lit "e" ++ es)
               (k + expo x - 1)).
    + f_equal. rewrite List.app_nil_r, <- Heq, Hv, (Hsign _ eq_refl).
      etransitivity; [|apply (decimal_canonical x)]. f_equal.
      cbn [List.length] in *. lia.
    + cbn [span_digits]. rewrite Hdd. reflexivity.
    + eauto.
    + apply read_fraction_none. discriminate.
    + exact He.
  - change (lit ".") with [46%N]. cbn [app].
    rewrite (@read_unsigned_parts _ _ [d]
               (46%N :: (c :: more') ++ lit "e" ++ es) (c :: more')
               (lit "e" ++ es) (k + expo x - 1)).
    + f_equal. change ([d] ++ c :: more') with (d :: c :: more').
      rewrite <- Heq, Hv, (Hsign _ eq_refl).
      etransitivity; [|apply (decimal_canonical x)]. f_equal. lia.
    + cbn [span_digits]. rewrite Hdd. reflexivity.
    + eauto.
    + apply read_fraction_some; [exact Hmore|discriminate|reflexivity].
    + exact He.
Qed.

Lemma number_roundtrip (x : number) :
  number_of_chars (Number_toString x) = Some x.
Proof.
  unfold Number_toString. destruct (mant x =? 0) eqn:E.
  - apply Z.eqb_eq in E.
    change (number_of_chars (lit "0")) with (Some (decimal 0 0)).
    f_equal. rewrite <- (decimal_canonical x), E.
    destruct x as [m e H]. cbn [mant expo] in *. subst m.
    unfold canonical in H. simpl in H. apply Z.eqb_eq in H. now subst e.
  - apply Z.eqb_neq in E. pose proof (read_unsigned_written E) as Hr.
    destruct (mant x <? 0) eqn:Es.
    + exact Hr.
    + cbn [app]. unfold number_of_chars.
      destruct (positive_toString _ _) as [|c r] eqn:Ep.
      { discriminate Hr. }
      destruct (c =? 45)%N eqn:Ec; [|exact Hr].
      apply N.eqb_eq in Ec. subst c. discriminate Hr.
Qed.

(* ================================================================== *)
(** ** Reading back what [JSON.stringify] wrote *)

Lemma digits_number_chars (l : jsstring) : all_digits l -> number_chars l.
Proof.
  apply Forall_impl. intros c Hc. unfold is_number_char. now rewrite Hc.
Qed.

Lemma number_chars_app (a b : jsstring) :
  number_chars a -> number_chars b -> number_chars (a ++ b).
Proof. intros Ha Hb. apply Forall_app. now split. Qed.

Lemma positive_toString_chars (ds : jsstring) (n : Z) d more :
  all_digits ds -> ds = d :: more ->
  number_chars (positive_toString ds n)
  /\ exists c r, positive_toString ds n = c :: r /\ is_digit c = true.
Proof.
  intros Hd Heq.
  assert (is_digit d = true /\ all_digits more) as [Hdd Hmore]
    by (rewrite Heq in Hd; now inversion Hd).
  unfold positive_toString.
  destruct ((Z.of_nat (List.length ds) <=? n) && (n <=? 21)).
  { split.
    - apply number_chars_app; apply digits_number_chars;
        [exact Hd | apply all_digits_zeros].
    - rewrite Heq. cbn [app]. eauto. }
  destruct ((0 <? n) && (n <=? 21)) eqn:EB.
  { apply andb_true_iff in EB as [EB _]. apply Z.ltb_lt in EB.
    assert (all_digits (List.firstn (Z.to_nat n) ds)
            /\ all_digits (List.skipn (Z.to_nat n) ds)) as [Hp Hq]
      by (apply Forall_app; rewrite List.firstn_skipn; exact Hd).
    split.
    - apply number_chars_app; [now apply digits_number_chars|].
      apply number_chars_app; [repeat constructor|now apply digits_number_chars].
    - rewrite Heq. destruct (Z.to_nat n) as [|j] eqn:E; [lia|].
      cbn [List.firstn app]. eauto. }
  destruct ((-6 <? n) && (n <=? 0)).
  { split.
    - apply number_chars_app; [repeat constructor|].
      apply number_chars_app; apply digits_number_chars;
        [apply all_digits_zeros | exact Hd].
    - exists 48%N. eexists. split; reflexivity. }
  destruct (N_toString_spec (Z.to_N (Z.abs (n - 1)))) as (_ & He & _).
  assert (number_chars
            (lit "e" ++ (if n - 1 <? 0 then lit "-" else lit "+")
             ++ N_toString (Z.to_N (Z.abs (n - 1))))) as Hes.
  { apply number_chars_app; [repeat constructor|].
    apply number_chars_app; [|now apply digits_number_chars].
    destruct (n - 1 <? 0); repeat constructor. }
  rewrite Heq. destruct more as [|c more'].
  - split; [|eauto]. constructor; [|exact Hes].
    unfold is_number_char. now rewrite Hdd.
  - split; [|eauto]. constructor; [unfold is_number_char; now rewrite Hdd|].
    change (lit ".") with [46%N]. cbn [app]. constructor; [reflexivity|].
    apply (@number_chars_app (c :: more'));
      [now apply digits_number_chars|exact Hes].
Qed.

(** What [Number::toString] writes is made of the characters of a number,
    and starts with a digit or a minus sign. *)
Lemma Number_toString_chars (x : number) :
  number_chars (Number_toString x)
  /\ exists c r, Number_toString x = c :: r
                 /\ (c = 45%N \/ is_digit c = true).
Proof.
  unfold Number_toString. destruct (mant x =? 0).
  { split; [repeat constructor|]. exists 48%N, []. split; [reflexivity|now right]. }
  destruct (N_toString_spec (Z.to_N (Z.abs (mant x))))
    as (_ & Hd & d & more & Heq & _).
  destruct (positive_toString_chars
              (Z.of_nat (List.length (N_toString (Z.to_N (Z.abs (mant x)))))
               + expo x) Hd Heq) as (Hc & c & r & Hp & Hcd).
  destruct (mant x <? 0).
  - split.
    + apply number_chars_app; [repeat constructor|exact Hc].
    + exists 45%N. eexists. split; [reflexivity|now left].
  - split; [exact Hc|]. exists c, r. split; [exact Hp|now right].
Qed.

Lemma lex_app (st : lexmode * pstate) (a b : jsstring) :
  lex st (a ++ b) =
    match lex st a with
    | Some st' => lex st' b
    | None => None
    end.
Proof.
  revert st; induction a as [|c a IH]; intros st; [reflexivity|].
  cbn [app lex]. destruct (lex_char st c); [apply IH|reflexivity].
Qed.

Lemma lex_number_chars (l acc : jsstring) (p : pstate) :
  number_chars l ->
  lex (LNumber acc, p) l = Some (LNumber (List.rev l ++ acc), p).
Proof.
  intros Hl. revert acc; induction Hl as [|c l Hc _ IH]; intros acc;
    [reflexivity|].
  cbn [lex lex_char]. rewrite Hc, IH. cbn [List.rev].
  now rewrite <- List.app_assoc.
Qed.

Lemma start_char_number (p : pstate) (c : N) :
  c = 45%N \/ is_digit c = true ->
  start_char p c = Some (LNumber [c], p).
Proof.
  intros [->|Hc]; [reflexivity|].
  unfold is_digit in Hc. apply andb_true_iff in Hc as [H1 H2].
  apply N.leb_le in H1, H2.
  unfold start_char, is_json_space.
  repeat match goal with
         | |- context [(c =? ?k)%N] =>
             replace (c =? k)%N with false by (symmetry; apply N.eqb_neq; lia)
         end.
  cbn [orb]. unfold is_digit.
  replace (48 <=? c)%N with true by (symmetry; apply N.leb_le; lia).
  replace (c <=? 57)%N with true by (symmetry; apply N.leb_le; lia).
  reflexivity.
Qed.

(** Between tokens, a written number is collected whole. *)
Lemma lex_number_written (p : pstate) (x : number) :
  lex (LStart, p) (Number_toString x)
  = Some (LNumber (List.rev (Number_toString x)), p).
Proof.
  destruct (Number_toString_chars x) as (Hc & c & r & Heq & Hstart).
  rewrite Heq in *. cbn [lex lex_char]. rewrite (start_char_number p Hstart).
  inversion Hc as [|? ? _ Hr]; subst.
  rewrite (lex_number_chars [c] p Hr). reflexivity.
Qed.

(** The character that cannot continue a number ends it: the number read
    is the number written. *)
Lemma lex_number_end (p : pstate) (x : number) (c : N) :
  is_number_char c = false ->
  lex_char (LNumber (List.rev (Number_toString x)), p) c =
    match feed p (TNumber x) with
    | Some p' => start_char p' c
    | None => None
    end.
Proof.
  intros Hc. cbn [lex_char]. rewrite Hc, List.rev_involutive, number_roundtrip.
  reflexivity.
Qed.

Lemma lex_written_number (p : pstate) (x : number) (c : N) (rest : jsstring) :
  is_number_char c = false ->
  lex (LStart, p) (Number_toString x ++ c :: rest) =
    match feed p (TNumber x) with
    | Some p' =>
        match start_char p' c with
        | Some st => lex st rest
        | None => None
        end
    | None => None
    end.
Proof.
  intros Hc. rewrite lex_app, lex_number_written. cbn [lex].
  rewrite (lex_number_end p x Hc). destruct (feed p (TNumber x)); reflexivity.
Qed.

Lemma serialize_array (gap indent : jsstring) (items : list value) :
  SerializeJSONProperty gap indent (VArr items) =
    Some (wrap_members (lit "[") (lit "]") gap indent
            (List.map
               (fun i =>
                  match SerializeJSONProperty gap (indent ++ gap) i with
                  | Some s => s
                  | None => lit "null"
                  end) items)).
Proof. reflexivity. Qed.

Lemma serialize_singleton_object (gap : jsstring) (k : jsstring) (v : value) s :
  SerializeJSONProperty gap gap v = Some s ->
  SerializeJSONProperty gap [] (VObj [(k, v)]) =
    Some (wrap_members (lit "{") (lit "}") gap []
            [ QuoteJSONString k ++ lit ":"
              ++ match gap with [] => [] | _ => lit " " end ++ s ]).
Proof.
  intros Hs. cbn [SerializeJSONProperty app]. now rewrite Hs.
Qed.

(** An element of the array, as it stands in the indented text, is read
    back as the element. *)
Lemma lex_element (p : number * number) items rest e :
  value_expected e = true ->
  lex (LStart, mkP (FArr items :: rest) e None) (element_text p)
  = Some (LStart,
          mkP (FArr (result_object p :: items) :: rest) ECommaOrClose None).
Proof.
  intros He. unfold element_text, result_object.
  cbn -[Number_toString lex].
  rewrite <- ?List.app_assoc. cbn [app].
  destruct e; try discriminate.
  - cbn -[Number_toString].
    rewrite lex_written_number by reflexivity. cbn -[Number_toString].
    rewrite lex_written_number by reflexivity. reflexivity.
  - cbn -[Number_toString].
    rewrite lex_written_number by reflexivity. cbn -[Number_toString].
    rewrite lex_written_number by reflexivity. reflexivity.
Qed.

Lemma lex_elements (rs : list (number * number)) items rest e :
  rs <> [] ->
  value_expected e = true ->
  lex (LStart, mkP (FArr items :: rest) e None)
    (join [44; 10; 32; 32; 32; 32]%N (List.map element_text rs))
  = Some (LStart,
          mkP (FArr (List.rev (List.map result_object rs) ++ items) :: rest)
            ECommaOrClose None).
Proof.
  revert items e; induction rs as [|p rs IH]; intros items e Hne He;
    [contradiction|].
  destruct rs as [|q rs].
  - cbn [List.map join List.rev app]. now apply lex_element.
  - change (join _ (List.map element_text (p :: q :: rs))) with
      (element_text p ++ [44; 10; 32; 32; 32; 32]%N
       ++ join [44; 10; 32; 32; 32; 32]%N (List.map element_text (q :: rs))).
    rewrite lex_app, (lex_element p items rest He), lex_app.
    change (lex _ [44; 10; 32; 32; 32; 32]%N) with
      (Some (LStart, mkP (FArr (result_object p :: items) :: rest) EValue None)).
    cbv beta iota. rewrite IH by (discriminate || reflexivity).
    cbn [List.map List.rev]. now rewrite <- !List.app_assoc.
Qed.

(** The text of the response, indented by two spaces, and its reading. *)
Lemma response_text_parses (rs : list (number * number)) :
  exists text,
    JSON_stringify_indent (rerank_response rs) 2 = Some text
    /\ JSON_parse text = Some (rerank_response rs).
Proof.
  unfold JSON_stringify_indent, rerank_response.
  change (List.repeat 32%N (Nat.min 2 10)) with [32%N; 32%N].
  assert (SerializeJSONProperty [32%N; 32%N] [32%N; 32%N]
            (VArr (List.map result_object rs))
          = Some (wrap_members (lit "[") (lit "]") [32%N; 32%N] [32%N; 32%N]
                    (List.map element_text rs))) as Harr.
  { rewrite serialize_array, List.map_map. reflexivity. }
  rewrite (serialize_singleton_object (lit "results") Harr).
  eexists. split; [reflexivity|].
  unfold JSON_parse.
  destruct rs as [|p rs]; [reflexivity|].
  set (texts := List.map element_text (p :: rs)).
  assert (exists t ts, texts = t :: ts) as (t & ts & Ht) by (cbn; eauto).
  unfold wrap_members at 2. rewrite Ht. rewrite <- Ht.
  cbn -[lex join texts]. cbn [join].
  rewrite <- ?List.app_assoc. cbn [app].
  cbn -[join texts].
  rewrite !lex_app. unfold texts.
  rewrite lex_elements by (discriminate || reflexivity).
  cbn -[List.rev List.map result_object].
  now rewrite List.app_nil_r, List.rev_involutive.
Qed.

(* ================================================================== *)
(** ** What the schemas accept *)

Lemma parse_all_strings (items out : list value) :
  parse_all z.string items = Some out <->
  out = items /\ exists docs, items = List.map VStr docs.
Proof.
  revert out; induction items as [|i items IH]; intros out; simpl.
  - split.
    + intros H. injection H as <-. split; [reflexivity|]. now exists [].
    + intros [-> _]. reflexivity.
  - split.
    + destruct i; simpl; try discriminate.
      destruct (parse_all z.string items) as [os|] eqn:E; [|discriminate].
      intros H. injection H as <-.
      destruct (proj1 (IH os) eq_refl) as [-> [docs ->]].
      split; [reflexivity|]. now exists (s :: docs).
    + intros [-> [docs Hd]]. destruct docs as [|d docs]; [discriminate|].
      simpl in Hd. injection Hd as -> ->. simpl.
      rewrite (proj2 (IH (List.map VStr docs))); [reflexivity|].
      split; [reflexivity|]. now exists docs.
Qed.

Lemma map_VStr_inj (a b : list jsstring) :
  List.map VStr a = List.map VStr b -> a = b.
Proof.
  revert b; induction a as [|x a IH]; intros [|y b] H; simpl in H;
    try discriminate; [reflexivity|].
  injection H as -> H. f_equal. now apply IH.
Qed.

Lemma every_nonblank_strings (docs : list jsstring) :
  every_nonblank (List.map VStr docs) = true <->
  Forall (fun d => trim d <> []) docs.
Proof.
  unfold every_nonblank. induction docs as [|d docs IH]; simpl.
  - split; [constructor|reflexivity].
  - rewrite andb_true_iff, IH. unfold js_length.
    split.
    + intros [Hd H]. constructor; [|exact H].
      intros E. rewrite E in Hd. discriminate.
    + intros H. inversion H as [|? ? Hd Hr]; subst. split; [|exact Hr].
      destruct (trim d); [congruence|reflexivity].
Qed.

Lemma query_schema (v o : value) :
  z.string_max 10000 (z.string_min 1 z.string) v = Some o <->
  o = v /\ exists s, v = VStr s /\ (1 <= js_length s <= 10000)%N.
Proof.
  unfold z.string_max, z.string_min, z.string.
  destruct v; simpl; try (split; [discriminate | intros [_ [? [? _]]]; discriminate]).
  destruct (1 <=? js_length s)%N eqn:E1; simpl;
    [destruct (js_length s <=? 10000)%N eqn:E2|]; simpl.
  - apply N.leb_le in E1, E2. split.
    + intros H. injection H as <-. split; [reflexivity|]. exists s. auto.
    + intros [-> _]. reflexivity.
  - apply N.leb_gt in E2. split; [discriminate|].
    intros [_ [s' [H [_ Hb]]]]. injection H as <-. lia.
  - apply N.leb_gt in E1. split; [discriminate|].
    intros [_ [s' [H [Hb _]]]]. injection H as <-. lia.
Qed.

Lemma api_key_schema (v o : value) :
  z.string_min 1 z.string v = Some o <->
  o = v /\ exists s, v = VStr s /\ (1 <= js_length s)%N.
Proof.
  unfold z.string_min, z.string.
  destruct v; simpl; try (split; [discriminate | intros [_ [? [? _]]]; discriminate]).
  destruct (1 <=? js_length s)%N eqn:E1; simpl.
  - apply N.leb_le in E1. split.
    + intros H. injection H as <-. split; [reflexivity|]. exists s. auto.
    + intros [-> _]. reflexivity.
  - apply N.leb_gt in E1. split; [discriminate|].
    intros [_ [s' [H Hb]]]. injection H as <-. lia.
Qed.

Lemma documents_schema (v o : value) :
  z.array_refine every_nonblank
    (z.array_max 1000 (z.array_min 1 (z.array z.string))) v = Some o <->
  o = v /\ exists docs, v = VArr (List.map VStr docs)
           /\ (1 <= N.of_nat (List.length docs) <= 1000)%N
           /\ Forall (fun d => trim d <> []) docs.
Proof.
  unfold z.array_refine, z.array_max, z.array_min, z.array.
  destruct v; simpl;
    try (split; [discriminate | intros [_ [? [? _]]]; discriminate]).
  destruct (parse_all z.string items) as [out|] eqn:E; simpl.
  - apply parse_all_strings in E as [-> [docs ->]].
    rewrite !List.length_map.
    destruct (1 <=? N.of_nat (List.length docs))%N eqn:E1; simpl;
      rewrite ?List.length_map;
      [destruct (N.of_nat (List.length docs) <=? 1000)%N eqn:E2; simpl;
       [destruct (every_nonblank (List.map VStr docs)) eqn:E3; simpl|]|].
    + apply N.leb_le in E1, E2. apply every_nonblank_strings in E3.
      split.
      * intros H. injection H as <-. split; [reflexivity|]. exists docs. auto.
      * intros [-> _]. reflexivity.
    + split; [discriminate|].
      intros [_ [docs' [H [_ Hf]]]]. injection H as H.
      apply map_VStr_inj in H. subst docs'.
      apply every_nonblank_strings in Hf. congruence.
    + apply N.leb_gt in E2. split; [discriminate|].
      intros [_ [docs' [H [Hb _]]]]. injection H as H.
      apply (f_equal (@List.length _)) in H. rewrite !List.length_map in H. lia.
    + apply N.leb_gt in E1. split; [discriminate|].
      intros [_ [docs' [H [Hb _]]]]. injection H as H.
      apply (f_equal (@List.length _)) in H. rewrite !List.length_map in H. lia.
  - split; [discriminate|].
    intros [_ [docs [H _]]]. injection H as ->.
    assert (parse_all z.string (List.map VStr docs) <> None) as Hn.
    { rewrite (proj2 (parse_all_strings (List.map VStr docs) (List.map VStr docs)));
        [discriminate|]. split; [reflexivity|]. now exists docs. }
    contradiction.
Qed.

Lemma RerankRequestSchema_accepts args query documents api_key :
  RerankRequest_ok args query documents api_key ->
  RerankRequestSchema args = Some (validated_args query documents api_key).
Proof.
  intros (Hq & Hd & Hk & Bq & Bd & Fd & Bk).
  destruct args; try discriminate. simpl in Hq, Hd, Hk.
  unfold RerankRequestSchema, z.object, parse_shape.
  rewrite Hq, Hd, Hk.
  rewrite (proj2 (query_schema (VStr query) (VStr query)))
    by (split; [reflexivity | exists query; auto]).
  rewrite (proj2 (documents_schema (VArr (List.map VStr documents))
                    (VArr (List.map VStr documents))))
    by (split; [reflexivity | exists documents; auto]).
  rewrite (proj2 (api_key_schema (VStr api_key) (VStr api_key)))
    by (split; [reflexivity | exists api_key; auto]).
  reflexivity.
Qed.

Lemma RerankRequestSchema_accepted args out :
  RerankRequestSchema args = Some out ->
  exists query documents api_key,
    RerankRequest_ok args query documents api_key.
Proof.
  destruct args; try discriminate.
  unfold RerankRequestSchema, z.object, parse_shape.
  destruct (z.string_max 10000 (z.string_min 1 z.string)
              (own_property props (lit "query"))) as [oq|] eqn:Eq;
    [|discriminate].
  destruct (z.array_refine every_nonblank
              (z.array_max 1000 (z.array_min 1 (z.array z.string)))
              (own_property props (lit "documents"))) as [od|] eqn:Ed;
    [|discriminate].
  destruct (z.string_min 1 z.string (own_property props (lit "api_key")))
    as [ok|] eqn:Ek; [|discriminate].
  intros _.
  apply query_schema in Eq as [_ [q [Hq Bq]]].
  apply documents_schema in Ed as [_ [d [Hd [Bd Fd]]]].
  apply api_key_schema in Ek as [_ [k [Hk Bk]]].
  exists q, d, k. repeat split; simpl; auto; lia.
Qed.

Lemma RerankRequestSchema_rejects args :
  violates_RerankRequest args <-> RerankRequestSchema args = None.
Proof.
  split.
  - intros Hv. destruct (RerankRequestSchema args) as [out|] eqn:E;
      [|reflexivity].
    apply RerankRequestSchema_accepted in E as (q & d & k & H).
    exfalso. exact (Hv q d k H).
  - intros E q d k H. apply RerankRequestSchema_accepts in H. congruence.
Qed.

(* ================================================================== *)
(** ** The rerank client, step by step *)

Lemma num_value_0 : num_value (num_of_Z 0) = 0%Q.
Proof. reflexivity. Qed.

Lemma num_value_1 : num_value (num_of_Z 1) = 1%Q.
Proof. reflexivity. Qed.

Lemma num_value_1000 : num_value (num_of_Z 1000) = 1000%Q.
Proof. reflexivity. Qed.

Lemma num_leb_le (a b : number) :
  num_leb a b = true <-> (num_value a <= num_value b)%Q.
Proof. apply Qle_bool_iff. Qed.

Lemma index_schema (v o : value) :
  z.number_max 1000 (z.number_min 0 (z.int z.number)) v = Some o <->
  o = v /\ exists x, v = VNum x /\ is_integer x = true
                     /\ (0 <= num_value x <= 1000)%Q.
Proof.
  unfold z.number_max, z.number_min, z.int, z.number.
  destruct v; simpl;
    try (split; [discriminate | intros [_ [? [? _]]]; discriminate]).
  destruct (is_integer x) eqn:Ei; simpl;
    [destruct (num_leb (num_of_Z 0) x) eqn:E0; simpl;
     [destruct (num_leb x (num_of_Z 1000)) eqn:E1; simpl|]|].
  - apply num_leb_le in E0, E1. rewrite num_value_0 in E0.
    rewrite num_value_1000 in E1. split.
    + intros H. injection H as <-. split; [reflexivity|]. exists x. auto.
    + intros [-> _]. reflexivity.
  - split; [discriminate|]. intros [_ [x' [H [_ [_ Hb]]]]]. injection H as <-.
    rewrite <- num_value_1000 in Hb. apply num_leb_le in Hb. congruence.
  - split; [discriminate|]. intros [_ [x' [H [_ [Hb _]]]]]. injection H as <-.
    rewrite <- num_value_0 in Hb. apply num_leb_le in Hb. congruence.
  - split; [discriminate|]. intros [_ [x' [H [Hi _]]]]. injection H as <-.
    congruence.
Qed.

Lemma score_schema (v o : value) :
  z.number_max 1 (z.number_min 0 z.number) v = Some o <->
  o = v /\ exists x, v = VNum x /\ (0 <= num_value x <= 1)%Q.
Proof.
  unfold z.number_max, z.number_min, z.number.
  destruct v; simpl;
    try (split; [discriminate | intros [_ [? [? _]]]; discriminate]).
  destruct (num_leb (num_of_Z 0) x) eqn:E0; simpl;
    [destruct (num_leb x (num_of_Z 1)) eqn:E1; simpl|].
  - apply num_leb_le in E0, E1. rewrite num_value_0 in E0.
    rewrite num_value_1 in E1. split.
    + intros H. injection H as <-. split; [reflexivity|]. exists x. auto.
    + intros [-> _]. reflexivity.
  - split; [discriminate|]. intros [_ [x' [H [_ Hb]]]]. injection H as <-.
    rewrite <- num_value_1 in Hb. apply num_leb_le in Hb. congruence.
  - split; [discriminate|]. intros [_ [x' [H [Hb _]]]]. injection H as <-.
    rewrite <- num_value_0 in Hb. apply num_leb_le in Hb. congruence.
Qed.

Lemma entry_index (i s : value) :
  own_property [(lit "index", i); (lit "relevance_score", s)] (lit "index") = i.
Proof. reflexivity. Qed.

Lemma entry_score (i s : value) :
  own_property [(lit "index", i); (lit "relevance_score", s)]
    (lit "relevance_score") = s.
Proof. reflexivity. Qed.

Lemma RerankResultSchema_entry (i s o : value) :
  RerankResultSchema (VObj [(lit "index", i); (lit "relevance_score", s)])
    = Some o <->
  exists p, i = VNum (fst p) /\ s = VNum (snd p)
            /\ is_integer (fst p) = true
            /\ (0 <= num_value (fst p) <= 1000)%Q
            /\ (0 <= num_value (snd p) <= 1)%Q
            /\ o = result_object p.
Proof.
  unfold RerankResultSchema, z.object, parse_shape.
  rewrite entry_index, entry_score.
  destruct (z.number_max 1000 (z.number_min 0 (z.int z.number)) i)
    as [oi|] eqn:Ei.
  - apply index_schema in Ei as [-> [x [-> [Hi Hb]]]].
    destruct (z.number_max 1 (z.number_min 0 z.number) s) as [os|] eqn:Es.
    + apply score_schema in Es as [-> [y [-> Hy]]]. simpl. split.
      * intros H. injection H as <-. exists (x, y). simpl. auto 10.
      * intros [[x' y'] (H1 & H2 & _ & _ & _ & ->)]. simpl in *.
        injection H1 as <-. injection H2 as <-. reflexivity.
    + simpl. split; [discriminate|].
      intros [[x' y'] (_ & H2 & _ & _ & Hy & _)]. simpl in *. subst s.
      assert (z.number_max 1 (z.number_min 0 z.number) (VNum y')
              = Some (VNum y')) as E.
      { apply score_schema. split; [reflexivity|]. exists y'. auto. }
      congruence.
  - simpl. split; [discriminate|].
    intros [[x' y'] (H1 & _ & Hi & Hx & _ & _)]. simpl in *. subst i.
    assert (z.number_max 1000 (z.number_min 0 (z.int z.number)) (VNum x')
            = Some (VNum x')) as E.
    { apply index_schema. split; [reflexivity|]. exists x'. auto. }
    congruence.
Qed.

Lemma result_entry_field (r : value) :
  result_entry r =
    if nullish r then result_entry r
    else Normal (VObj [ (lit "index", field r (lit "index"));
                        (lit "relevance_score", field r (lit "relevance_score")) ]).
Proof.
  destruct (nullish r) eqn:E; [reflexivity|].
  unfold result_entry. now rewrite !(Get_field _ E).
Qed.

Lemma result_entry_nullish (r : value) :
  nullish r = true -> exists e, result_entry r = Throw e.
Proof. destruct r; try discriminate; intros _; eexists; reflexivity. Qed.

Lemma RerankResult_ok_entry (r : value) (p : number * number) :
  RerankResult_ok r p -> result_entry r = Normal (result_object p).
Proof.
  intros (Hi & Hs & _).
  rewrite result_entry_field.
  destruct r; try discriminate; simpl nullish; cbv iota.
  now rewrite Hi, Hs.
Qed.

Lemma entries_accepts (items : list value) (rs : list (number * number)) :
  Forall2 RerankResult_ok items rs ->
  map_values result_entry items = Normal (List.map result_object rs)
  /\ parse_all RerankResultSchema (List.map result_object rs)
     = Some (List.map result_object rs).
Proof.
  induction 1 as [|r p items rs Hr _ [IH1 IH2]]; [split; reflexivity|].
  cbn [List.map map_values parse_all].
  rewrite (RerankResult_ok_entry Hr), IH1, IH2.
  destruct Hr as (_ & _ & Hi & Hx & Hy). apply is_integer_whole in Hi.
  assert (RerankResultSchema (result_object p) = Some (result_object p)) as E.
  { apply RerankResultSchema_entry. exists p. auto 10. }
  rewrite E. split; reflexivity.
Qed.

Lemma entries_accepted (items mapped out : list value) :
  map_values result_entry items = Normal mapped ->
  parse_all RerankResultSchema mapped = Some out ->
  exists rs, Forall2 RerankResult_ok items rs /\ out = List.map result_object rs.
Proof.
  revert mapped out; induction items as [|r items IH]; intros mapped out; simpl.
  - intros H. injection H as <-. simpl. intros H. injection H as <-.
    exists []. split; [constructor|reflexivity].
  - rewrite result_entry_field.
    destruct (nullish r) eqn:En.
    + destruct (result_entry_nullish En) as [e ->]. discriminate.
    + destruct (map_values result_entry items) as [ms|] eqn:Em; [|discriminate].
      intros H. injection H as <-. cbn [parse_all].
      destruct (RerankResultSchema _) as [o|] eqn:Eo; [|discriminate].
      destruct (parse_all RerankResultSchema ms) as [os|] eqn:Eos;
        [|discriminate].
      intros H. injection H as <-.
      apply RerankResultSchema_entry in Eo
        as (p & Hi & Hs & Hint & Hx & Hy & ->).
      destruct (IH ms os eq_refl Eos) as (rs & HF & ->).
      exists (p :: rs). split; [|reflexivity].
      constructor; [|exact HF]. apply is_integer_whole in Hint.
      repeat split; tauto.
Qed.

Lemma results_property (mapped : value) :
  own_property [(lit "results", mapped)] (lit "results") = mapped.
Proof. reflexivity. Qed.

Lemma RerankResponseSchema_results (mapped : list value) :
  RerankResponseSchema (VObj [(lit "results", VArr mapped)]) =
    match parse_all RerankResultSchema mapped with
    | Some out =>
        if ((1 <=? N.of_nat (List.length out))
            && (N.of_nat (List.length out) <=? 1000))%N
        then Some (VObj [(lit "results", VArr out)])
        else None
    | None => None
    end.
Proof.
  unfold RerankResponseSchema, z.object, parse_shape.
  rewrite results_property.
  unfold z.array_max, z.array_min, z.array.
  destruct (parse_all RerankResultSchema mapped) as [out|]; simpl;
    [|reflexivity].
  destruct (1 <=? N.of_nat (List.length out))%N; simpl; [|reflexivity].
  destruct (N.of_nat (List.length out) <=? 1000)%N; reflexivity.
Qed.

Lemma validated_args_fields query documents api_key :
  Get (validated_args query documents api_key) (lit "query")
    = Normal (VStr query)
  /\ Get (validated_args query documents api_key) (lit "documents")
     = Normal (VArr (List.map VStr documents))
  /\ Get (validated_args query documents api_key) (lit "api_key")
     = Normal (VStr api_key).
Proof. repeat split. Qed.

Lemma destructure_call_field (expr : jsstring) (params : value) :
  nullish params = false ->
  destructure_call expr params =
    Normal (field params (lit "name"), field params (lit "arguments")).
Proof. destruct params; try discriminate; reflexivity. Qed.

Lemma destructure_call_nullish (expr : jsstring) (params : value) :
  nullish params = true ->
  exists e, destructure_call expr params = Throw e
            /\ err_name e = lit "TypeError".
Proof.
  destruct params; try discriminate; intros _; eexists; split; reflexivity.
Qed.

Lemma truthy_version : ToBoolean (VStr (lit "2.0")) = true.
Proof. reflexivity. Qed.

Lemma method_tools_call :
  strict_eq_str (VStr (lit "tools/call")) (lit "initialize") = false
  /\ strict_eq_str (VStr (lit "tools/call")) (lit "initialized") = false
  /\ strict_eq_str (VStr (lit "tools/call")) (lit "ping") = false
  /\ strict_eq_str (VStr (lit "tools/call")) (lit "tools/list") = false.
Proof. repeat split. Qed.

Local Opaque lit JSON_stringify JSON_stringify_indent N_toString Number_toString.

Section ClientFacts.
Variable zod_message : zschema -> value -> jsstring.
Variable net : network.

Lemma catch_rethrows (e : exn) (t : trace) :
  (if js_eqb (err_name e) (lit "TypeError")
      && includes (err_message e) (lit "fetch")
   then throw (Error (lit "Request error: " ++ err_message e))
   else throw e) t = (@Throw value (rethrown e), t).
Proof.
  unfold rethrown.
  destruct (js_eqb (err_name e) (lit "TypeError")
            && includes (err_message e) (lit "fetch")); reflexivity.
Qed.

Lemma rethrown_Error (msg : jsstring) : rethrown (Error msg) = Error msg.
Proof. reflexivity. Qed.

(** One invocation is one outbound call, and its outcome is that of
    [client_outcome] on the network's answer. *)
Lemma makeRerankRequest_eq (query documents : value) (api_key : jsstring) t :
  makeRerankRequest zod_message net query documents (VStr api_key) t =
    (client_outcome zod_message (net t (outbound_call query documents api_key)),
     t ++ [outbound_call query documents api_key]).
Proof.
  unfold makeRerankRequest, client_outcome, read_results, try_catch, bind,
    eval, fetch, outbound_call.
  simpl ToString. cbv iota beta.
  destruct (net t _) as [r|e]; [|apply catch_rethrows].
  destruct (up_ok r); simpl.
  - destruct (up_json r) as [result|e]; [|apply catch_rethrows].
    destruct (Get result (lit "results")) as [results|e];
      [|apply catch_rethrows].
    destruct (ToBoolean results); simpl.
    + destruct (array_map _ results result_entry) as [mapped|e];
        [|apply catch_rethrows].
      destruct (parse _ _ _); [reflexivity|apply catch_rethrows].
    + reflexivity.
  - unfold status_message.
    destruct (up_status r =? 401)%N; [reflexivity|].
    destruct (up_status r =? 429)%N; reflexivity.
Qed.

Lemma read_results_accepts (result : value) (rs : list (number * number)) :
  RerankResponse_ok result rs ->
  read_results zod_message result = Normal (rerank_response rs).
Proof.
  intros (items & Hf & HF & Hb).
  assert (nullish result = false) as Hn
    by (destruct result; try discriminate; reflexivity).
  unfold read_results. rewrite (Get_field _ Hn), Hf.
  cbn [ToBoolean negb array_map].
  destruct (entries_accepts HF) as [-> Hp].
  unfold parse. rewrite RerankResponseSchema_results, Hp.
  rewrite List.length_map, <- (Forall2_length HF).
  destruct Hb as [Hb1 Hb2].
  apply N.leb_le in Hb1, Hb2. rewrite Hb1, Hb2. reflexivity.
Qed.

Lemma read_results_accepted (result v : value) :
  read_results zod_message result = Normal v ->
  exists rs, RerankResponse_ok result rs /\ v = rerank_response rs.
Proof.
  unfold read_results.
  destruct (nullish result) eqn:Hn.
  { destruct result; try discriminate; simpl; discriminate. }
  rewrite (Get_field _ Hn).
  destruct (field result (lit "results")) as [| | | | |items|] eqn:Hf;
    try (destruct (negb (ToBoolean _)); discriminate).
  cbn [ToBoolean negb array_map].
  destruct (map_values result_entry items) as [mapped|] eqn:Em; [|discriminate].
  unfold parse. rewrite RerankResponseSchema_results.
  destruct (parse_all RerankResultSchema mapped) as [out|] eqn:Ep;
    [|discriminate].
  destruct ((1 <=? N.of_nat (List.length out))
            && (N.of_nat (List.length out) <=? 1000))%N eqn:E; [|discriminate].
  intros H. injection H as <-.
  destruct (entries_accepted Em Ep) as (rs & HF & ->).
  exists rs. split; [|reflexivity].
  exists items. split; [exact Hf|]. split; [exact HF|].
  rewrite List.length_map, <- (Forall2_length HF) in E.
  apply andb_true_iff in E as [E1 E2].
  apply N.leb_le in E1, E2. lia.
Qed.

Lemma read_results_rejects (result : value) :
  (forall rs, ~ RerankResponse_ok result rs) ->
  exists e, read_results zod_message result = Throw e.
Proof.
  intros Hno.
  destruct (read_results zod_message result) as [v|e] eqn:E; [|now exists e].
  apply read_results_accepted in E as (rs & Hok & _).
  exfalso. exact (Hno rs Hok).
Qed.

End ClientFacts.

(* ================================================================== *)
(** ** The protocol-conformant worker, step by step *)

Section ConformantFacts.
Variable zod_message : zschema -> value -> jsstring.
Variable net : network.

Lemma handleRequest_version request body st :
  json request = Normal body ->
  nullish body = false ->
  strict_eq_str (field body (lit "jsonrpc")) (lit "2.0") = false ->
  Conformant.handleRequest zod_message net request st =
    (Normal (error_response (-32600) (lit "Invalid JSON-RPC version")
               (id_or_null (field body (lit "id")))), st).
Proof.
  intros Hj Hn Hv.
  unfold Conformant.handleRequest, settle, try_catch, bind, eval, ret.
  rewrite Hj, !(Get_field _ Hn), Hv, orb_true_r.
  reflexivity.
Qed.

(** A [tools/call] request reaches [callTool] with the request's [params]
    and [id]; what [callTool] throws is not caught. *)
Lemma handleRequest_tools_call request body st :
  json request = Normal body ->
  is_request body (lit "tools/call") ->
  Conformant.handleRequest zod_message net request st =
    Conformant.callTool zod_message net
      (field body (lit "params")) (field body (lit "id")) st.
Proof.
  intros Hj (Hn & Hv & Hm).
  unfold Conformant.handleRequest, settle, try_catch, bind, eval, ret.
  rewrite Hj, !(Get_field _ Hn), Hv, Hm, truthy_version.
  destruct method_tools_call as (-> & -> & -> & ->).
  rewrite !strict_eq_str_refl. reflexivity.
Qed.

Lemma callTool_rejects params id st :
  nullish params = false ->
  field params (lit "name") = VStr (lit "get_reranking") ->
  RerankRequestSchema (field params (lit "arguments")) = None ->
  Conformant.callTool zod_message net params id st =
    (Normal (error_response (-32602)
               (zod_message RerankRequestSchema (field params (lit "arguments")))
               (id_or_null id)), st).
Proof.
  intros Hn Hname Hr.
  unfold Conformant.callTool, try_catch, bind, eval, ret.
  rewrite (destructure_call_field _ Hn), Hname.
  rewrite strict_eq_str_refl.
  unfold parse. rewrite Hr. reflexivity.
Qed.

Lemma callTool_accepts params id st query documents api_key :
  nullish params = false ->
  field params (lit "name") = VStr (lit "get_reranking") ->
  RerankRequest_ok (field params (lit "arguments")) query documents api_key ->
  Conformant.callTool zod_message net params id st =
    (Normal
       match client_outcome zod_message
               (net (Conformant.outbound st) (rerank_call query documents api_key))
       with
       | Normal response => result_response id (tool_result response)
       | Throw e => error_response (-32602) (err_message e) (id_or_null id)
       end,
     Conformant.mkState (Conformant.initialized st)
       (Conformant.outbound st ++ [rerank_call query documents api_key])).
Proof.
  intros Hn Hname Hok.
  unfold Conformant.callTool, try_catch, bind, eval, ret.
  rewrite (destructure_call_field _ Hn), Hname.
  rewrite strict_eq_str_refl.
  unfold parse. rewrite (RerankRequestSchema_accepts Hok).
  destruct (validated_args_fields query documents api_key) as (-> & -> & ->).
  unfold Conformant.liftIO. rewrite makeRerankRequest_eq.
  fold (rerank_call query documents api_key).
  destruct (client_outcome _ _); reflexivity.
Qed.

End ConformantFacts.

Section ConformantFlag.
Variable zod_message : zschema -> value -> jsstring.
Variable net : network.

Lemma callTool_unknown params id st shown :
  nullish params = false ->
  strict_eq_str (field params (lit "name")) (lit "get_reranking") = false ->
  ToString (field params (lit "name")) = Normal shown ->
  Conformant.callTool zod_message net params id st =
    (Normal (error_response (-32601) (lit "Unknown tool: " ++ shown)
               (id_or_null id)), st).
Proof.
  intros Hn Hname Hs.
  unfold Conformant.callTool, bind, eval, ret.
  rewrite (destructure_call_field _ Hn), Hname, Hs. reflexivity.
Qed.

(** [callTool] neither reads nor writes the flag. *)
Lemma callTool_frame params id b t :
  Conformant.callTool zod_message net params id (Conformant.mkState b t) =
    (fst (Conformant.callTool zod_message net params id
            (Conformant.mkState false t)),
     Conformant.mkState b
       (Conformant.outbound
          (snd (Conformant.callTool zod_message net params id
                  (Conformant.mkState false t))))).
Proof.
  unfold Conformant.callTool, try_catch, bind, eval, ret, Conformant.liftIO.
  destruct (destructure_call _ params) as [[name args]|e]; [|reflexivity].
  destruct (strict_eq_str name _); [|destruct (ToString name); reflexivity].
  destruct (parse _ _ args) as [v|e]; [|reflexivity].
  destruct (Get v (lit "query")) as [q|e]; [|reflexivity].
  destruct (Get v (lit "documents")) as [d|e]; [|reflexivity].
  destruct (Get v (lit "api_key")) as [k|e]; [|reflexivity].
  cbn [Conformant.outbound Conformant.initialized].
  destruct (makeRerankRequest _ _ q d k t) as [[r|e] t']; reflexivity.
Qed.

(** Apart from [initialize], which sets it, a request leaves the flag as it
    is, and no request reads it. *)
Lemma handleRequest_frame request b t :
  exists b',
    Conformant.handleRequest zod_message net request (Conformant.mkState b t) =
      (fst (Conformant.handleRequest zod_message net request
              (Conformant.mkState false t)),
       Conformant.mkState b'
         (Conformant.outbound
            (snd (Conformant.handleRequest zod_message net request
                    (Conformant.mkState false t))))).
Proof.
  unfold Conformant.handleRequest, settle, try_catch, bind, eval, ret.
  destruct (json request) as [body|e]; [|exists b; reflexivity].
  destruct (Get body (lit "jsonrpc")) as [v|e] eqn:Ev; [|exists b; reflexivity].
  assert (forall k, Get body k = Normal (field body k)) as Hg.
  { intros k. apply Get_field. destruct body; try discriminate; reflexivity. }
  rewrite !Hg.
  destruct (negb (ToBoolean v) || negb (strict_eq_str v (lit "2.0")));
    [exists b; reflexivity|].
  destruct (strict_eq_str _ (lit "initialize")); [exists true; reflexivity|].
  destruct (strict_eq_str _ (lit "initialized")); [exists b; reflexivity|].
  destruct (strict_eq_str _ (lit "ping")); [exists b; reflexivity|].
  destruct (strict_eq_str _ (lit "tools/list")); [exists b; reflexivity|].
  destruct (strict_eq_str _ (lit "tools/call")); [|exists b; reflexivity].
  exists b. rewrite callTool_frame. reflexivity.
Qed.

Lemma handleRequest_initialize request body st :
  json request = Normal body ->
  is_request body (lit "initialize") ->
  Conformant.handleRequest zod_message net request st =
    (Normal (result_response (field body (lit "id"))
               (VObj [ (lit "protocolVersion", VStr (lit "2024-11-05"));
                       (lit "capabilities", VObj [(lit "tools", VObj [])]);
                       (lit "serverInfo",
                         VObj [ (lit "name", VStr (lit "zerank-mcp"));
                                (lit "version", VStr (lit "0.1.0")) ]) ])),
     Conformant.mkState true (Conformant.outbound st)).
Proof.
  intros Hj (Hn & Hv & Hm).
  unfold Conformant.handleRequest, settle, try_catch, bind, eval, ret.
  rewrite Hj, !(Get_field _ Hn), Hv, Hm, truthy_version.
  rewrite !strict_eq_str_refl. reflexivity.
Qed.

End ConformantFlag.

(* ================================================================== *)
(** ** The minimal worker and the stdio server, step by step *)

Section OtherEntryPoints.
Variable zod_message : zschema -> value -> jsstring.
Variable net : network.

Lemma minimal_callTool_unknown params t shown :
  nullish params = false ->
  strict_eq_str (field params (lit "name")) (lit "get_reranking") = false ->
  ToString (field params (lit "name")) = Normal shown ->
  Minimal.callTool zod_message net params t =
    (Normal (error_response (-32603) (lit "Unknown tool: " ++ shown) VNull), t).
Proof.
  intros Hn Hname Hs.
  unfold Minimal.callTool, bind, eval, ret.
  rewrite (destructure_call_field _ Hn), Hname, Hs. reflexivity.
Qed.

Lemma minimal_callTool_rejects params t :
  nullish params = false ->
  field params (lit "name") = VStr (lit "get_reranking") ->
  RerankRequestSchema (field params (lit "arguments")) = None ->
  Minimal.callTool zod_message net params t =
    (Normal (error_response (-32603)
               (zod_message RerankRequestSchema (field params (lit "arguments")))
               VNull), t).
Proof.
  intros Hn Hname Hr.
  unfold Minimal.callTool, try_catch, bind, eval, ret.
  rewrite (destructure_call_field _ Hn), Hname, strict_eq_str_refl.
  unfold parse. rewrite Hr. reflexivity.
Qed.

Lemma minimal_callTool_accepts params t query documents api_key :
  nullish params = false ->
  field params (lit "name") = VStr (lit "get_reranking") ->
  RerankRequest_ok (field params (lit "arguments")) query documents api_key ->
  Minimal.callTool zod_message net params t =
    (Normal
       match client_outcome zod_message
               (net t (rerank_call query documents api_key))
       with
       | Normal response => anonymous_result_response (tool_result response)
       | Throw e => error_response (-32603) (err_message e) VNull
       end,
     t ++ [rerank_call query documents api_key]).
Proof.
  intros Hn Hname Hok.
  unfold Minimal.callTool, try_catch, bind, eval, ret.
  rewrite (destructure_call_field _ Hn), Hname, strict_eq_str_refl.
  unfold parse. rewrite (RerankRequestSchema_accepts Hok).
  destruct (validated_args_fields query documents api_key) as (-> & -> & ->).
  rewrite makeRerankRequest_eq.
  fold (rerank_call query documents api_key).
  destruct (client_outcome _ _); reflexivity.
Qed.

Lemma stdio_handler_unknown request t shown :
  nullish request = false ->
  nullish (field request (lit "params")) = false ->
  strict_eq_str (field (field request (lit "params")) (lit "name"))
    (lit "get_reranking") = false ->
  ToString (field (field request (lit "params")) (lit "name")) = Normal shown ->
  Stdio.callToolHandler zod_message net request t =
    (Throw (Error (lit "Unknown tool: " ++ shown)), t).
Proof.
  intros Hr Hn Hname Hs.
  unfold Stdio.callToolHandler, bind, eval, throw.
  rewrite (Get_field _ Hr), (destructure_call_field _ Hn), Hname, Hs.
  reflexivity.
Qed.

Lemma stdio_handler_rejects request t :
  nullish request = false ->
  nullish (field request (lit "params")) = false ->
  field (field request (lit "params")) (lit "name") = VStr (lit "get_reranking") ->
  RerankRequestSchema (field (field request (lit "params")) (lit "arguments"))
    = None ->
  Stdio.callToolHandler zod_message net request t =
    (Normal (tool_error
               (zod_message RerankRequestSchema
                  (field (field request (lit "params")) (lit "arguments")))), t).
Proof.
  intros Hr Hn Hname Hno.
  unfold Stdio.callToolHandler, try_catch, bind, eval, ret.
  rewrite (Get_field _ Hr), (destructure_call_field _ Hn), Hname,
    strict_eq_str_refl.
  unfold parse. rewrite Hno. reflexivity.
Qed.

Lemma stdio_handler_accepts request t query documents api_key :
  nullish request = false ->
  nullish (field request (lit "params")) = false ->
  field (field request (lit "params")) (lit "name") = VStr (lit "get_reranking") ->
  RerankRequest_ok (field (field request (lit "params")) (lit "arguments"))
    query documents api_key ->
  Stdio.callToolHandler zod_message net request t =
    (Normal
       match client_outcome zod_message
               (net t (rerank_call query documents api_key))
       with
       | Normal response => tool_result response
       | Throw e => tool_error (err_message e)
       end,
     t ++ [rerank_call query documents api_key]).
Proof.
  intros Hr Hn Hname Hok.
  unfold Stdio.callToolHandler, try_catch, bind, eval, ret.
  rewrite (Get_field _ Hr), (destructure_call_field _ Hn), Hname,
    strict_eq_str_refl.
  unfold parse. rewrite (RerankRequestSchema_accepts Hok).
  destruct (validated_args_fields query documents api_key) as (-> & -> & ->).
  rewrite makeRerankRequest_eq.
  fold (rerank_call query documents api_key).
  destruct (client_outcome _ _); reflexivity.
Qed.

End OtherEntryPoints.

Lemma minimal_handleRequest_tools_call zod_message net request body t :
  json request = Normal body ->
  nullish body = false ->
  field body (lit "method") = VStr (lit "tools/call") ->
  Minimal.handleRequest zod_message net request t =
    Minimal.callTool zod_message net (field body (lit "params")) t.
Proof.
  intros Hj Hn Hm.
  unfold Minimal.handleRequest, settle, try_catch, bind, eval, ret.
  rewrite Hj, !(Get_field _ Hn), Hm.
  destruct method_tools_call as (_ & _ & _ & ->).
  rewrite strict_eq_str_refl. reflexivity.
Qed.

(** The violations the specification lists, for arguments of the right
    types. *)
Lemma listed_violations args query documents api_key :
  field args (lit "query") = VStr query ->
  field args (lit "documents") = VArr (List.map VStr documents) ->
  field args (lit "api_key") = VStr api_key ->
  (js_length query < 1 \/ 10000 < js_length query
   \/ N.of_nat (List.length documents) < 1
   \/ 1000 < N.of_nat (List.length documents)
   \/ Exists (fun d => trim d = []) documents
   \/ js_length api_key < 1)%N ->
  violates_RerankRequest args.
Proof.
  intros Hq Hd Hk Hbad q d k (Hq' & Hd' & Hk' & Bq & Bd & Fd & Bk).
  rewrite Hq in Hq'. rewrite Hd in Hd'. rewrite Hk in Hk'.
  injection Hq' as <-. injection Hk' as <-. injection Hd' as Hd'.
  apply map_VStr_inj in Hd'. subst d.
  destruct Hbad as [H|[H|[H|[H|[H|H]]]]]; try lia.
  apply Exists_exists in H as (x & Hin & Hx).
  rewrite Forall_forall in Fd. exact (Fd x Hin Hx).
Qed.

(* ================================================================== *)
(** ** The claims *)

(** C1. In the protocol-conformant worker, a [tools/call] of
    [get_reranking] whose arguments violate the RerankRequest constraints is
    answered with the JSON-RPC error of code -32602 (invalid params), and the
    state is left as it was: no outbound call is made. *)
Theorem C1_invalid_arguments_rejected
    zod_message net request body args st :
  json request = Normal body ->
  is_tools_call body (VStr (lit "get_reranking")) args ->
  violates_RerankRequest args ->
  Conformant.handleRequest zod_message net request st =
    (Normal (error_response (-32602) (zod_message RerankRequestSchema args)
               (id_or_null (field body (lit "id")))), st)
  /\ Conformant.outbound
       (snd (Conformant.handleRequest zod_message net request st))
     = Conformant.outbound st.
Proof.
  intros Hj (Hreq & _ & Hn & Hname & Hargs) Hv.
  apply RerankRequestSchema_rejects in Hv.
  rewrite (handleRequest_tools_call zod_message net st Hj Hreq).
  subst args.
  rewrite (callTool_rejects zod_message net _ st Hn Hname Hv).
  split; reflexivity.
Qed.

(** C2. When the upstream body is well formed (its [results] an array of
    1 to 1000 elements, each with an integer [index] from 0 to 1000 and a
    [relevance_score] from 0 to 1), the [tools/call] is answered with a
    result whose content is one text item, and the text, parsed as JSON, is
    the structure [{results: [{index, relevance_score}, ...]}] with the
    indexes and scores of the upstream elements, in their order. *)
Theorem C2_results_round_trip
    zod_message (net : network) request body args query documents api_key
    st upstream result rs :
  json request = Normal body ->
  is_tools_call body (VStr (lit "get_reranking")) args ->
  RerankRequest_ok args query documents api_key ->
  net (Conformant.outbound st) (rerank_call query documents api_key)
    = Normal upstream ->
  up_ok upstream = true ->
  up_json upstream = Normal result ->
  RerankResponse_ok result rs ->
  exists text,
    fst (Conformant.handleRequest zod_message net request st)
      = Normal (result_response (field body (lit "id"))
                  (VObj [ (lit "content",
                            VArr [ VObj [ (lit "type", VStr (lit "text"));
                                          (lit "text", VStr text) ] ]) ]))
    /\ JSON_parse text = Some (rerank_response rs).
Proof.
  intros Hj (Hreq & _ & Hn & Hname & Hargs) Hok Hnet Hup Hjson Hres.
  subst args.
  destruct (response_text_parses rs) as (text & Htext & Hparse).
  exists text. split; [|exact Hparse].
  rewrite (handleRequest_tools_call zod_message net st Hj Hreq).
  rewrite (callTool_accepts zod_message net _ st Hn Hname Hok), Hnet.
  unfold client_outcome.
  rewrite Hup, Hjson, (read_results_accepts zod_message Hres).
  unfold tool_result, text_content. rewrite Htext. reflexivity.
Qed.

(** C3. A validated rerank invocation makes exactly one outbound call, in
    each of the three entry points: a [POST] to the reranking endpoint whose
    body is the JSON text of the object with exactly the fields [query] and
    [documents], equal to the validated inputs; the key is in the
    [Authorization] header after ["Bearer "], and the body is the same
    whatever the key. *)
Theorem C3_upstream_request_shape
    zod_message net params id st args query documents api_key :
  nullish params = false ->
  field params (lit "name") = VStr (lit "get_reranking") ->
  field params (lit "arguments") = args ->
  RerankRequest_ok args query documents api_key ->
  let sent :=
    mkHttpRequest ZERANK_API_BASE (lit "POST")
      [ (lit "Authorization", lit "Bearer " ++ api_key);
        (lit "Content-Type", lit "application/json") ]
      (JSON_stringify
         (VObj [ (lit "query", VStr query);
                 (lit "documents", VArr (List.map VStr documents)) ])) in
  Conformant.outbound
    (snd (Conformant.callTool zod_message net params id st))
    = Conformant.outbound st ++ [sent]
  /\ snd (Minimal.callTool zod_message net params (Conformant.outbound st))
     = Conformant.outbound st ++ [sent]
  /\ snd (Stdio.callToolHandler zod_message net
            (VObj [(lit "params", params)]) (Conformant.outbound st))
     = Conformant.outbound st ++ [sent]
  /\ snd (makeRerankRequest zod_message net (VStr query)
            (VArr (List.map VStr documents)) (VStr api_key)
            (Conformant.outbound st))
     = Conformant.outbound st ++ [sent]
  /\ forall other_key,
       req_body (rerank_call query documents other_key) = req_body sent.
Proof.
  intros Hn Hname Hargs Hok sent. subst args.
  rewrite (callTool_accepts zod_message net id st Hn Hname Hok).
  rewrite (minimal_callTool_accepts zod_message net _ Hn Hname Hok).
  rewrite (@stdio_handler_accepts zod_message net
             (VObj [(lit "params", params)]) _ query documents api_key);
    try reflexivity; try assumption.
  rewrite makeRerankRequest_eq.
  repeat split; reflexivity.
Qed.

(** C4. When the upstream answers with a status that is not a success, the
    rerank client fails with a message the status determines: it contains
    ["Invalid API key"] for 401, ["Rate limit exceeded"] for 429, and the
    decimal status code for any other status; one outbound call has been
    made, and no second one. *)
Theorem C4_status_errors
    zod_message (net : network) query documents api_key t upstream :
  net t (outbound_call query documents api_key) = Normal upstream ->
  up_ok upstream = false ->
  exists e,
    makeRerankRequest zod_message net query documents (VStr api_key) t
      = (Throw e, t ++ [outbound_call query documents api_key])
    /\ e = Error (status_message (up_status upstream))
    /\ includes (err_message e)
         (if (up_status upstream =? 401)%N then lit "Invalid API key"
          else if (up_status upstream =? 429)%N then lit "Rate limit exceeded"
          else N_toString (up_status upstream)) = true.
Proof.
  intros Hnet Hok.
  exists (Error (status_message (up_status upstream))).
  rewrite makeRerankRequest_eq, Hnet. unfold client_outcome. rewrite Hok.
  repeat split. unfold status_message. cbn [Error err_message].
  destruct (up_status upstream =? 401)%N; [apply includes_refl|].
  destruct (up_status upstream =? 429)%N; [apply includes_refl|].
  apply includes_suffix.
Qed.

(** C5. When the body of a successful upstream response is not well formed
    (no [results], or a [results] that is not an array of 1 to 1000 elements
    within the RerankResult bounds), the rerank client throws, whatever part
    of the body is valid, and the [tools/call] is answered with a JSON-RPC
    error: the failure is ["Invalid API response format"] when [results] is
    missing, and a [ZodError] when [results] is an array of objects. *)
Theorem C5_malformed_upstream_fails_closed
    zod_message (net : network) request body args query documents api_key
    st upstream result :
  json request = Normal body ->
  is_tools_call body (VStr (lit "get_reranking")) args ->
  RerankRequest_ok args query documents api_key ->
  net (Conformant.outbound st) (rerank_call query documents api_key)
    = Normal upstream ->
  up_ok upstream = true ->
  up_json upstream = Normal result ->
  (forall rs, ~ RerankResponse_ok result rs) ->
  exists e,
    makeRerankRequest zod_message net (VStr query)
      (VArr (List.map VStr documents)) (VStr api_key) (Conformant.outbound st)
      = (Throw e,
         Conformant.outbound st ++ [rerank_call query documents api_key])
    /\ Conformant.handleRequest zod_message net request st
       = (Normal (error_response (-32602) (err_message e)
                    (id_or_null (field body (lit "id")))),
          Conformant.mkState (Conformant.initialized st)
            (Conformant.outbound st ++ [rerank_call query documents api_key]))
    /\ (nullish result = false ->
        ToBoolean (field result (lit "results")) = false ->
        e = Error (lit "Invalid API response format"))
    /\ (forall items,
          field result (lit "results") = VArr items ->
          Forall (fun r => nullish r = false) items ->
          e = ZodError
                (zod_message RerankResponseSchema
                   (VObj [ (lit "results",
                             VArr (List.map
                                     (fun r =>
                                        VObj [ (lit "index", field r (lit "index"));
                                               (lit "relevance_score",
                                                 field r (lit "relevance_score")) ])
                                     items)) ]))).
Proof.
  intros Hj (Hreq & _ & Hn & Hname & Hargs) Hok Hnet Hup Hjson Hbad. subst args.
  destruct (read_results_rejects zod_message Hbad) as [e0 He0].
  exists (rethrown e0).
  rewrite makeRerankRequest_eq.
  rewrite (handleRequest_tools_call zod_message net st Hj Hreq).
  rewrite (callTool_accepts zod_message net _ st Hn Hname Hok).
  fold (rerank_call query documents api_key).
  rewrite Hnet. unfold client_outcome. rewrite Hup, Hjson, He0.
  repeat split.
  - intros Hr Hf. unfold read_results in He0.
    rewrite (Get_field _ Hr), Hf in He0. injection He0 as <-. reflexivity.
  - intros items Hf Hall.
    assert (nullish result = false) as Hr
      by (destruct result; try discriminate; reflexivity).
    unfold read_results in He0. rewrite (Get_field _ Hr), Hf in He0.
    cbn [ToBoolean negb array_map] in He0.
    assert (map_values result_entry items
            = Normal (List.map
                        (fun r =>
                           VObj [ (lit "index", field r (lit "index"));
                                  (lit "relevance_score",
                                    field r (lit "relevance_score")) ])
                        items)) as Hm.
    { clear -Hall. induction Hall as [|r items Hr _ IH]; [reflexivity|].
      cbn [map_values List.map]. rewrite result_entry_field, Hr, IH.
      reflexivity. }
    rewrite Hm in He0. unfold parse in He0.
    destruct (RerankResponseSchema _); [discriminate|].
    injection He0 as <-. reflexivity.
Qed.

(** C6, as the code has it. In the two workers, a failure caught while a
    request is handled (a body that cannot be read, a validation failure or
    a failure of the rerank client inside a [get_reranking] call) is
    answered with a JSON-RPC error object whose message is the failure's
    message, and [handleRequest] returns it; the stdio handler returns such
    a failure as a tool result with [isError] set, its text the message
    after ["Error: "]. *)
Theorem C6_failures_are_answered zod_message (net : network) :
  (forall request e st,
     json request = Throw e ->
     Conformant.handleRequest zod_message net request st
       = (Normal (error_response (-32700) (err_message e) VNull), st))
  /\ (forall request body args e st,
        json request = Normal body ->
        is_tools_call body (VStr (lit "get_reranking")) args ->
        parse zod_message RerankRequestSchema args = Throw e ->
        Conformant.handleRequest zod_message net request st
          = (Normal (error_response (-32602) (err_message e)
                       (id_or_null (field body (lit "id")))), st))
  /\ (forall request body args query documents api_key e st,
        json request = Normal body ->
        is_tools_call body (VStr (lit "get_reranking")) args ->
        RerankRequest_ok args query documents api_key ->
        fst (makeRerankRequest zod_message net (VStr query)
               (VArr (List.map VStr documents)) (VStr api_key)
               (Conformant.outbound st)) = Throw e ->
        fst (Conformant.handleRequest zod_message net request st)
          = Normal (error_response (-32602) (err_message e)
                      (id_or_null (field body (lit "id")))))
  /\ (forall request e t,
        json request = Throw e ->
        Minimal.handleRequest zod_message net request t
          = (Normal (error_response (-32603) (err_message e) VNull), t))
  /\ (forall request body args e t,
        json request = Normal body ->
        is_tools_call body (VStr (lit "get_reranking")) args ->
        parse zod_message RerankRequestSchema args = Throw e ->
        Minimal.handleRequest zod_message net request t
          = (Normal (error_response (-32603) (err_message e) VNull), t))
  /\ (forall request body args query documents api_key e t,
        json request = Normal body ->
        is_tools_call body (VStr (lit "get_reranking")) args ->
        RerankRequest_ok args query documents api_key ->
        fst (makeRerankRequest zod_message net (VStr query)
               (VArr (List.map VStr documents)) (VStr api_key) t) = Throw e ->
        fst (Minimal.handleRequest zod_message net request t)
          = Normal (error_response (-32603) (err_message e) VNull))
  /\ (forall body args e t,
        is_tool_call body (VStr (lit "get_reranking")) args ->
        parse zod_message RerankRequestSchema args = Throw e ->
        Stdio.callToolHandler zod_message net body t
          = (Normal (tool_error (err_message e)), t))
  /\ (forall body args query documents api_key e t,
        is_tool_call body (VStr (lit "get_reranking")) args ->
        RerankRequest_ok args query documents api_key ->
        fst (makeRerankRequest zod_message net (VStr query)
               (VArr (List.map VStr documents)) (VStr api_key) t) = Throw e ->
        fst (Stdio.callToolHandler zod_message net body t)
          = Normal (tool_error (err_message e))).
Proof.
  repeat split.
  - intros request e st Hj.
    unfold Conformant.handleRequest, settle, try_catch, bind, eval, ret.
    rewrite Hj. reflexivity.
  - intros request body args e st Hj (Hreq & _ & Hn & Hname & Hargs) Hp.
    subst args. unfold parse in Hp.
    destruct (RerankRequestSchema _) eqn:E; [discriminate|].
    injection Hp as <-.
    rewrite (handleRequest_tools_call zod_message net st Hj Hreq).
    apply (callTool_rejects zod_message net _ st Hn Hname E).
  - intros request body args q d k e st Hj (Hreq & _ & Hn & Hname & Hargs) Hok He.
    subst args. rewrite makeRerankRequest_eq in He. cbn [fst] in He.
    rewrite (handleRequest_tools_call zod_message net st Hj Hreq).
    rewrite (callTool_accepts zod_message net _ st Hn Hname Hok).
    fold (rerank_call q d k) in He. rewrite He. reflexivity.
  - intros request e t Hj.
    unfold Minimal.handleRequest, settle, try_catch, bind, eval, ret.
    rewrite Hj. reflexivity.
  - intros request body args e t Hj ((Hb & _ & Hm) & _ & Hn & Hname & Hargs) Hp.
    subst args. unfold parse in Hp.
    destruct (RerankRequestSchema _) eqn:E; [discriminate|].
    injection Hp as <-.
    rewrite (minimal_handleRequest_tools_call zod_message net t Hj Hb Hm).
    apply (minimal_callTool_rejects zod_message net t Hn Hname E).
  - intros request body args q d k e t Hj ((Hb & _ & Hm) & _ & Hn & Hname & Hargs)
      Hok He.
    subst args. rewrite makeRerankRequest_eq in He. cbn [fst] in He.
    rewrite (minimal_handleRequest_tools_call zod_message net t Hj Hb Hm).
    rewrite (minimal_callTool_accepts zod_message net t Hn Hname Hok).
    fold (rerank_call q d k) in He. rewrite He. reflexivity.
  - intros body args e t (Hb & Hn & Hname & Hargs) Hp.
    subst args. unfold parse in Hp.
    destruct (RerankRequestSchema _) eqn:E; [discriminate|].
    injection Hp as <-.
    apply (stdio_handler_rejects zod_message net t Hb Hn Hname E).
  - intros body args q d k e t (Hb & Hn & Hname & Hargs) Hok He.
    subst args. rewrite makeRerankRequest_eq in He. cbn [fst] in He.
    rewrite (stdio_handler_accepts zod_message net t Hb Hn Hname Hok).
    fold (rerank_call q d k) in He. rewrite He. reflexivity.
Qed.

(** C7, as the code has it. A [tools/call] whose [params] are present and
    name a tool other than [get_reranking] is answered without validation
    and without an outbound call: by the protocol-conformant worker with the
    JSON-RPC error of code -32601 (method not found), by the minimal worker
    with the JSON-RPC error of its one code, -32603; the stdio handler
    throws [Unknown tool: <name>] to the SDK. *)
Theorem C7_unknown_tool zod_message (net : network) params id st shown :
  nullish params = false ->
  strict_eq_str (field params (lit "name")) (lit "get_reranking") = false ->
  ToString (field params (lit "name")) = Normal shown ->
  Conformant.callTool zod_message net params id st
    = (Normal (error_response (-32601) (lit "Unknown tool: " ++ shown)
                 (id_or_null id)), st)
  /\ Minimal.callTool zod_message net params (Conformant.outbound st)
     = (Normal (error_response (-32603) (lit "Unknown tool: " ++ shown) VNull),
        Conformant.outbound st)
  /\ Stdio.callToolHandler zod_message net (VObj [(lit "params", params)])
       (Conformant.outbound st)
     = (Throw (Error (lit "Unknown tool: " ++ shown)), Conformant.outbound st).
Proof.
  intros Hn Hname Hs. repeat split.
  - apply (callTool_unknown zod_message net id st Hn Hname Hs).
  - apply (minimal_callTool_unknown zod_message net _ Hn Hname Hs).
  - apply (@stdio_handler_unknown zod_message net
             (VObj [(lit "params", params)]) _ shown); auto.
Qed.

(** C8. The version check misses one case.  The body [null] has no
    [jsonrpc] field, so the claim asks for the JSON-RPC error of code -32600
    (invalid request); the check reads [body.jsonrpc], which throws on
    [null], and the [catch] of [handleRequest] answers with the error of
    code -32700 (parse error), whose message is that of the [TypeError].
    Every other body whose [jsonrpc] field is missing or is not ["2.0"] is
    answered with the code -32600 ([handleRequest_version]). *)
Theorem C8_null_body_is_answered_as_parse_error
    zod_message (net : network) st :
  field VNull (lit "jsonrpc") = VUndefined
  /\ strict_eq_str (field VNull (lit "jsonrpc")) (lit "2.0") = false
  /\ Conformant.handleRequest zod_message net (mkRequest (Normal VNull)) st
     = (Normal (error_response (-32700)
                  (lit "Cannot read properties of null (reading 'jsonrpc')")
                  VNull), st).
Proof.
  split; [reflexivity|]. split; [reflexivity|].
  unfold Conformant.handleRequest, settle, try_catch, bind, eval, ret.
  cbn [json Get]. vm_compute. reflexivity.
Qed.

(** C9. Handling an [initialize] request sets the flag [initialized], and
    for every request the response and the outbound calls are the same
    whether the flag was set or not. *)
Theorem C9_flag_written_never_read zod_message (net : network) :
  (forall request body st,
     json request = Normal body ->
     is_request body (lit "initialize") ->
     Conformant.initialized
       (snd (Conformant.handleRequest zod_message net request st)) = true)
  /\ (forall request t,
        fst (Conformant.handleRequest zod_message net request
               (Conformant.mkState true t))
        = fst (Conformant.handleRequest zod_message net request
                 (Conformant.mkState false t))
        /\ Conformant.outbound
             (snd (Conformant.handleRequest zod_message net request
                     (Conformant.mkState true t)))
           = Conformant.outbound
               (snd (Conformant.handleRequest zod_message net request
                       (Conformant.mkState false t)))).
Proof.
  split.
  - intros request body st Hj Hreq.
    now rewrite (handleRequest_initialize zod_message net st Hj Hreq).
  - intros request t.
    destruct (handleRequest_frame zod_message net request true t) as [b' ->].
    split; reflexivity.
Qed.

(** C10. In the protocol-conformant worker, whatever fails inside a
    [tools/call] of [get_reranking] (the validation of the arguments, or the
    rerank client: a 401, a 429, another status, a transport error, a body
    that is not well formed) is answered with the JSON-RPC error of code
    -32602, in a response of HTTP status 500. *)
Theorem C10_every_failure_is_invalid_params
    zod_message (net : network) params id st args :
  nullish params = false ->
  field params (lit "name") = VStr (lit "get_reranking") ->
  field params (lit "arguments") = args ->
  (forall e,
     parse zod_message RerankRequestSchema args = Throw e ->
     fst (Conformant.callTool zod_message net params id st)
       = Normal (error_response (-32602) (err_message e) (id_or_null id)))
  /\ (forall query documents api_key e,
        RerankRequest_ok args query documents api_key ->
        fst (makeRerankRequest zod_message net (VStr query)
               (VArr (List.map VStr documents)) (VStr api_key)
               (Conformant.outbound st)) = Throw e ->
        fst (Conformant.callTool zod_message net params id st)
          = Normal (error_response (-32602) (err_message e) (id_or_null id)))
  /\ (forall query documents api_key upstream,
        RerankRequest_ok args query documents api_key ->
        net (Conformant.outbound st) (rerank_call query documents api_key)
          = Normal upstream ->
        up_ok upstream = false ->
        fst (Conformant.callTool zod_message net params id st)
          = Normal (error_response (-32602)
                      (status_message (up_status upstream)) (id_or_null id)))
  /\ (forall query documents api_key e,
        RerankRequest_ok args query documents api_key ->
        net (Conformant.outbound st) (rerank_call query documents api_key)
          = Throw e ->
        fst (Conformant.callTool zod_message net params id st)
          = Normal (error_response (-32602) (err_message (rethrown e))
                      (id_or_null id)))
  /\ (forall code msg, status (error_response code msg (id_or_null id)) = 500%N).
Proof.
  intros Hn Hname Hargs. subst args. repeat split.
  - intros e Hp. unfold parse in Hp.
    destruct (RerankRequestSchema _) eqn:E; [discriminate|].
    injection Hp as <-.
    now rewrite (callTool_rejects zod_message net id st Hn Hname E).
  - intros q d k e Hok He.
    rewrite makeRerankRequest_eq in He. cbn [fst] in He.
    rewrite (callTool_accepts zod_message net id st Hn Hname Hok).
    fold (rerank_call q d k) in He. rewrite He. reflexivity.
  - intros q d k upstream Hok Hnet Hup.
    rewrite (callTool_accepts zod_message net id st Hn Hname Hok), Hnet.
    unfold client_outcome. rewrite Hup. reflexivity.
  - intros q d k e Hok Hnet.
    rewrite (callTool_accepts zod_message net id st Hn Hname Hok), Hnet.
    reflexivity.
Qed.

(* ================================================================== *)
(** ** The claims on the sample inputs *)

Local Transparent lit JSON_stringify JSON_stringify_indent N_toString
  Number_toString.

Lemma sample_blank_args_violate : violates_RerankRequest sample_blank_args.
Proof.
  apply (@listed_violations _ (lit "ml") [lit "a"; lit "  "] (lit "k"));
    try reflexivity.
  do 4 right. left. apply Exists_cons_tl, Exists_cons_hd. reflexivity.
Qed.

Lemma sample_args_ok :
  RerankRequest_ok sample_args (lit "ml") [lit "a"; lit "b"] (lit "k").
Proof.
  repeat split; try (vm_compute; congruence).
  repeat constructor; discriminate.
Qed.

Lemma sample_upstream_body_ok :
  RerankResponse_ok sample_upstream_body sample_scores.
Proof.
  eexists. split; [reflexivity|]. split.
  - repeat constructor; try (apply is_integer_whole; reflexivity);
      vm_compute; congruence.
  - vm_compute. split; congruence.
Qed.

Lemma sample_call_is_tools_call (id : Z) (tool : jsstring) (args : value) :
  is_tools_call (sample_call id tool args) (VStr tool) args.
Proof. repeat split. Qed.

(** C1 on the sample call with a blank document. *)
Lemma C1_witness :
  violates_RerankRequest sample_blank_args
  /\ Conformant.handleRequest sample_zod_message
       (sample_network 200 sample_upstream_body)
       (mkRequest (Normal (sample_call 7 (lit "get_reranking") sample_blank_args)))
       Conformant.constructor
     = (Normal (error_response (-32602)
                  (lit "Documents cannot be empty strings") (VNum (num_of_Z 7))),
        Conformant.constructor).
Proof.
  split; [exact sample_blank_args_violate|].
  exact (proj1 (@C1_invalid_arguments_rejected sample_zod_message
                  (sample_network 200 sample_upstream_body)
                  (mkRequest (Normal (sample_call 7 (lit "get_reranking")
                                        sample_blank_args)))
                  _ _ Conformant.constructor eq_refl
                  (sample_call_is_tools_call 7 _ _)
                  sample_blank_args_violate)).
Defined.

(** C2 on the scenario of the specification. *)
Lemma C2_witness :
  exists text,
    fst (Conformant.handleRequest sample_zod_message
           (sample_network 200 sample_upstream_body)
           (mkRequest (Normal (sample_call 7 (lit "get_reranking") sample_args)))
           Conformant.constructor)
      = Normal (result_response (VNum (num_of_Z 7))
                  (VObj [ (lit "content",
                            VArr [ VObj [ (lit "type", VStr (lit "text"));
                                          (lit "text", VStr text) ] ]) ]))
    /\ JSON_parse text = Some (rerank_response sample_scores).
Proof.
  exact (@C2_results_round_trip sample_zod_message
           (sample_network 200 sample_upstream_body)
           (mkRequest (Normal (sample_call 7 (lit "get_reranking") sample_args)))
           _ _ _ _ _ Conformant.constructor _ _ sample_scores eq_refl
           (sample_call_is_tools_call 7 _ _) sample_args_ok eq_refl eq_refl
           eq_refl sample_upstream_body_ok).
Defined.

(** C3 on the scenario of the specification. *)
Lemma C3_witness :
  Conformant.outbound
    (snd (Conformant.callTool sample_zod_message
            (sample_network 200 sample_upstream_body)
            (VObj [ (lit "name", VStr (lit "get_reranking"));
                    (lit "arguments", sample_args) ])
            VNull Conformant.constructor))
  = [ mkHttpRequest ZERANK_API_BASE (lit "POST")
        [ (lit "Authorization", lit "Bearer k");
          (lit "Content-Type", lit "application/json") ]
        (JSON_stringify
           (VObj [ (lit "query", VStr (lit "ml"));
                   (lit "documents", VArr [VStr (lit "a"); VStr (lit "b")]) ])) ].
Proof.
  exact (proj1 (@C3_upstream_request_shape sample_zod_message
                  (sample_network 200 sample_upstream_body)
                  (VObj [ (lit "name", VStr (lit "get_reranking"));
                          (lit "arguments", sample_args) ])
                  VNull Conformant.constructor _ _ _ _
                  eq_refl eq_refl eq_refl sample_args_ok)).
Defined.

(** C4 on an upstream that answers 500. *)
Lemma C4_witness :
  exists e,
    makeRerankRequest sample_zod_message (sample_network 500 VNull)
      (VStr (lit "ml")) (VArr [VStr (lit "a")]) (VStr (lit "k")) []
      = (Throw e,
         [outbound_call (VStr (lit "ml")) (VArr [VStr (lit "a")]) (lit "k")])
    /\ e = Error (lit "API error: 500")
    /\ includes (err_message e) (lit "500") = true.
Proof.
  exact (@C4_status_errors sample_zod_message (sample_network 500 VNull)
           (VStr (lit "ml")) (VArr [VStr (lit "a")]) (lit "k") []
           (mkUpstream 500 (Normal VNull)) eq_refl eq_refl).
Defined.

(** C5 on an upstream body whose second element has the index 1001. *)
Lemma C5_witness :
  exists e,
    fst (Conformant.handleRequest sample_zod_message
           (sample_network 200
              (VObj [ (lit "results",
                        VArr [ result_object (num_of_Z 0, decimal 9 (-1));
                               result_object (num_of_Z 1001, decimal 2 (-1)) ]) ]))
           (mkRequest (Normal (sample_call 7 (lit "get_reranking") sample_args)))
           Conformant.constructor)
    = Normal (error_response (-32602) (err_message e) (VNum (num_of_Z 7)))
    /\ err_name e = lit "ZodError".
Proof.
  assert (forall rs,
            ~ RerankResponse_ok
                (VObj [ (lit "results",
                          VArr [ result_object (num_of_Z 0, decimal 9 (-1));
                                 result_object (num_of_Z 1001, decimal 2 (-1)) ]) ])
                rs) as Hbad.
  { intros rs (items & Hf & HF & _). injection Hf as <-.
    inversion HF as [|? ? ? ? _ HF']; subst.
    inversion HF' as [|? p ? ? (Hi & _ & _ & (_ & Hle) & _) _]; subst.
    injection Hi as Hi. rewrite <- Hi in Hle. vm_compute in Hle. congruence. }
  destruct (@C5_malformed_upstream_fails_closed sample_zod_message
              (sample_network 200 _)
              (mkRequest (Normal (sample_call 7 (lit "get_reranking") sample_args)))
              _ _ _ _ _ Conformant.constructor _ _ eq_refl
              (sample_call_is_tools_call 7 _ _) sample_args_ok eq_refl eq_refl
              eq_refl Hbad) as (e & _ & Hr & _ & Hz).
  exists e. split.
  - now rewrite Hr.
  - rewrite (Hz _ eq_refl); [reflexivity|]. repeat constructor.
Defined.

(** C6 as stated fails on the stdio server: the failure of the validation
    is returned as a tool result, not as a JSON-RPC error object, and its
    text is not the failure's message but that message after ["Error: "]. *)
Lemma C6_counterexample :
  exists e,
    parse sample_zod_message RerankRequestSchema sample_blank_args = Throw e
    /\ Stdio.callToolHandler sample_zod_message
         (sample_network 200 sample_upstream_body)
         (sample_call 7 (lit "get_reranking") sample_blank_args) []
       = (Normal
            (VObj [ (lit "content",
                      VArr [ VObj [ (lit "type", VStr (lit "text"));
                                    (lit "text",
                                      VStr (lit "Error: " ++ err_message e)) ] ]);
                    (lit "isError", VBool true) ]), [])
    /\ field (tool_error (err_message e)) (lit "error") = VUndefined
    /\ lit "Error: " ++ err_message e <> err_message e.
Proof.
  exists (ZodError (lit "Documents cannot be empty strings")).
  repeat split. vm_compute. discriminate.
Qed.

(** The slip beside it: in the protocol-conformant worker a [tools/call]
    without [params] throws out of [handleRequest], because the promise of
    [callTool] is returned without [await]; the worker's entry point answers
    with an object that is not a JSON-RPC error. *)
Lemma tools_call_without_params_throws :
  let request :=
    mkRequest (Normal (VObj [ (lit "jsonrpc", VStr (lit "2.0"));
                              (lit "id", VNum (num_of_Z 1));
                              (lit "method", VStr (lit "tools/call")) ])) in
  Conformant.handleRequest sample_zod_message
    (sample_network 200 sample_upstream_body) request Conformant.constructor
  = (Throw (TypeError
              (lit "Cannot destructure property 'name' of 'params' as it is undefined.")),
     Conformant.constructor)
  /\ Minimal.handleRequest sample_zod_message
       (sample_network 200 sample_upstream_body) request []
     = (Throw (TypeError
                 (lit "Cannot destructure property 'name' of 'params' as it is undefined.")),
        []).
Proof. split; reflexivity. Qed.

(** C6 on the sample call with a blank document, in the three entry
    points. *)
Lemma C6_witness :
  Conformant.handleRequest sample_zod_message
    (sample_network 200 sample_upstream_body)
    (mkRequest (Normal (sample_call 7 (lit "get_reranking") sample_blank_args)))
    Conformant.constructor
  = (Normal (error_response (-32602)
               (lit "Documents cannot be empty strings") (VNum (num_of_Z 7))),
     Conformant.constructor)
  /\ Minimal.handleRequest sample_zod_message
       (sample_network 200 sample_upstream_body)
       (mkRequest (Normal (sample_call 7 (lit "get_reranking") sample_blank_args)))
       []
     = (Normal (error_response (-32603)
                  (lit "Documents cannot be empty strings") VNull), [])
  /\ Stdio.callToolHandler sample_zod_message
       (sample_network 200 sample_upstream_body)
       (sample_call 7 (lit "get_reranking") sample_blank_args) []
     = (Normal (tool_error (lit "Documents cannot be empty strings")), []).
Proof.
  destruct (C6_failures_are_answered sample_zod_message
              (sample_network 200 sample_upstream_body))
    as (_ & Hc & _ & _ & Hm & _ & Hs & _).
  split; [|split].
  - exact (Hc (mkRequest (Normal (sample_call 7 (lit "get_reranking")
                                    sample_blank_args)))
              _ _ (ZodError (lit "Documents cannot be empty strings"))
              Conformant.constructor eq_refl
              (sample_call_is_tools_call 7 _ _) eq_refl).
  - exact (Hm (mkRequest (Normal (sample_call 7 (lit "get_reranking")
                                    sample_blank_args)))
              _ _ (ZodError (lit "Documents cannot be empty strings"))
              [] eq_refl (sample_call_is_tools_call 7 _ _) eq_refl).
  - exact (Hs (sample_call 7 (lit "get_reranking") sample_blank_args)
              _ (ZodError (lit "Documents cannot be empty strings")) []
              (proj2 (sample_call_is_tools_call 7 _ _)) eq_refl).
Defined.

(** C7 as stated fails outside the protocol-conformant worker: for the
    unknown tool [search], the minimal worker answers with the code -32603,
    which is not the response of code -32601, and the stdio handler
    throws. *)
Lemma C7_counterexample :
  Minimal.callTool sample_zod_message (sample_network 200 sample_upstream_body)
    (VObj [(lit "name", VStr (lit "search"))]) []
  = (Normal (error_response (-32603) (lit "Unknown tool: search") VNull), [])
  /\ error_response (-32603) (lit "Unknown tool: search") VNull
     <> error_response (-32601) (lit "Unknown tool: search") VNull
  /\ Stdio.callToolHandler sample_zod_message
       (sample_network 200 sample_upstream_body)
       (VObj [(lit "params", VObj [(lit "name", VStr (lit "search"))])]) []
     = (Throw (Error (lit "Unknown tool: search")), []).
Proof.
  repeat split. vm_compute. discriminate.
Qed.

(** C7 on the unknown tool [search]. *)
Lemma C7_witness :
  Conformant.callTool sample_zod_message
    (sample_network 200 sample_upstream_body)
    (VObj [(lit "name", VStr (lit "search"))]) (VNum (num_of_Z 7))
    Conformant.constructor
  = (Normal (error_response (-32601) (lit "Unknown tool: search")
               (VNum (num_of_Z 7))), Conformant.constructor).
Proof.
  exact (proj1 (@C7_unknown_tool sample_zod_message
                  (sample_network 200 sample_upstream_body)
                  (VObj [(lit "name", VStr (lit "search"))])
                  (VNum (num_of_Z 7)) Conformant.constructor
                  (lit "search") eq_refl eq_refl eq_refl)).
Defined.

(** The version check on bodies that have members to read: a request of
    version 1.0, one without a version, and the bodies [5] and [[]] are
    answered with the code -32600. *)
Lemma version_check_on_samples :
  Conformant.handleRequest sample_zod_message
    (sample_network 200 sample_upstream_body)
    (mkRequest (Normal (VObj [ (lit "jsonrpc", VStr (lit "1.0"));
                               (lit "id", VNum (num_of_Z 3));
                               (lit "method", VStr (lit "ping")) ])))
    Conformant.constructor
  = (Normal (error_response (-32600) (lit "Invalid JSON-RPC version")
               (VNum (num_of_Z 3))), Conformant.constructor)
  /\ Conformant.handleRequest sample_zod_message
       (sample_network 200 sample_upstream_body)
       (mkRequest (Normal (VObj [(lit "method", VStr (lit "tools/list"))])))
       Conformant.constructor
     = (Normal (error_response (-32600) (lit "Invalid JSON-RPC version") VNull),
        Conformant.constructor)
  /\ Conformant.handleRequest sample_zod_message
       (sample_network 200 sample_upstream_body)
       (mkRequest (Normal (VNum (num_of_Z 5)))) Conformant.constructor
     = (Normal (error_response (-32600) (lit "Invalid JSON-RPC version") VNull),
        Conformant.constructor)
  /\ Conformant.handleRequest sample_zod_message
       (sample_network 200 sample_upstream_body)
       (mkRequest (Normal (VArr []))) Conformant.constructor
     = (Normal (error_response (-32600) (lit "Invalid JSON-RPC version") VNull),
        Conformant.constructor).
Proof.
  repeat split;
    exact (@handleRequest_version sample_zod_message
             (sample_network 200 sample_upstream_body) _ _
             Conformant.constructor eq_refl eq_refl eq_refl).
Qed.

(** C9 on an [initialize] request to a fresh server. *)
Lemma C9_witness :
  Conformant.initialized Conformant.constructor = false
  /\ Conformant.initialized
       (snd (Conformant.handleRequest sample_zod_message
               (sample_network 200 sample_upstream_body)
               (mkRequest (Normal (VObj [ (lit "jsonrpc", VStr (lit "2.0"));
                                          (lit "id", VNum (num_of_Z 1));
                                          (lit "method", VStr (lit "initialize")) ])))
               Conformant.constructor)) = true.
Proof.
  split; [reflexivity|].
  refine (proj1 (C9_flag_written_never_read sample_zod_message
                   (sample_network 200 sample_upstream_body))
            (mkRequest (Normal (VObj [ (lit "jsonrpc", VStr (lit "2.0"));
                                       (lit "id", VNum (num_of_Z 1));
                                       (lit "method", VStr (lit "initialize")) ])))
            _ Conformant.constructor eq_refl _).
  repeat split.
Defined.

(** C10 on an upstream that answers 401. *)
Lemma C10_witness :
  fst (Conformant.callTool sample_zod_message (sample_network 401 VNull)
         (VObj [ (lit "name", VStr (lit "get_reranking"));
                 (lit "arguments", sample_args) ])
         (VNum (num_of_Z 7)) Conformant.constructor)
  = Normal (error_response (-32602) (lit "Invalid API key") (VNum (num_of_Z 7)))
  /\ status (error_response (-32602) (lit "Invalid API key") (VNum (num_of_Z 7)))
     = 500%N.
Proof.
  destruct (@C10_every_failure_is_invalid_params sample_zod_message
              (sample_network 401 VNull)
              (VObj [ (lit "name", VStr (lit "get_reranking"));
                      (lit "arguments", sample_args) ])
              (VNum (num_of_Z 7)) Conformant.constructor _
              eq_refl eq_refl eq_refl) as (_ & _ & Hs & _ & H500).
  split.
  - exact (Hs _ _ _ (mkUpstream 401 (Normal VNull)) sample_args_ok
              eq_refl eq_refl).
  - apply H500.
Defined.

(* ================================================================== *)
(** ** Reading back any JSON text

    [JSON.parse] reads back every value [JSON.stringify] writes: strings
    with their escapes, numbers, arrays and objects, in the compact form and
    in the indented one. *)

Lemma hex_value_char (d : N) : (d < 16)%N -> hex_value (hex_char d) = Some d.
Proof.
  intros Hd. unfold hex_value, hex_char, is_digit.
  destruct (d <? 10)%N eqn:E.
  - apply N.ltb_lt in E.
    replace (48 <=? 48 + d)%N with true by (symmetry; apply N.leb_le; lia).
    replace (48 + d <=? 57)%N with true by (symmetry; apply N.leb_le; lia).
    cbn [andb]. f_equal. lia.
  - apply N.ltb_ge in E.
    replace (48 <=? 87 + d)%N with true by (symmetry; apply N.leb_le; lia).
    replace (87 + d <=? 57)%N with false by (symmetry; apply N.leb_gt; lia).
    replace (97 <=? 87 + d)%N with true by (symmetry; apply N.leb_le; lia).
    replace (87 + d <=? 102)%N with true by (symmetry; apply N.leb_le; lia).
    cbn [andb]. f_equal. lia.
Qed.

Lemma hex_digits (c : N) :
  (c < 65536)%N ->
  ((((c / 4096) mod 16 * 16 + (c / 256) mod 16) * 16 + (c / 16) mod 16) * 16
   + c mod 16 = c)%N.
Proof.
  intros Hc.
  replace (c / 4096)%N with (c / 16 / 16 / 16)%N
    by (now rewrite !N.Div0.div_div).
  replace (c / 256)%N with (c / 16 / 16)%N by (now rewrite !N.Div0.div_div).
  pose proof (N.div_mod c 16 ltac:(lia)) as H0.
  pose proof (N.div_mod (c / 16) 16 ltac:(lia)) as H1.
  pose proof (N.div_mod (c / 16 / 16) 16 ltac:(lia)) as H2.
  pose proof (N.div_mod (c / 16 / 16 / 16) 16 ltac:(lia)) as H3.
  pose proof (N.mod_upper_bound c 16 ltac:(lia)) as B0.
  pose proof (N.mod_upper_bound (c / 16) 16 ltac:(lia)) as B1.
  pose proof (N.mod_upper_bound (c / 16 / 16) 16 ltac:(lia)) as B2.
  pose proof (N.mod_upper_bound (c / 16 / 16 / 16) 16 ltac:(lia)) as B3.
  set (e := (c / 16 / 16 / 16 / 16)%N) in *.
  set (r3 := ((c / 16 / 16 / 16) mod 16)%N) in *.
  set (d := (c / 16 / 16 / 16)%N) in *.
  set (r2 := ((c / 16 / 16) mod 16)%N) in *.
  set (b := (c / 16 / 16)%N) in *.
  set (r1 := ((c / 16) mod 16)%N) in *.
  set (a := (c / 16)%N) in *.
  set (r0 := (c mod 16)%N) in *.
  clearbody e r3 d r2 b r1 a r0.
  assert (e = 0%N) by lia. subst e. lia.
Qed.

Lemma lex_plain_unit (c : N) (acc : jsstring) (p : pstate) :
  (32 <= c)%N -> c <> 34%N -> c <> 92%N ->
  lex_char (LString acc, p) c = Some (LString (c :: acc), p).
Proof.
  intros H1 H2 H3. cbn [lex_char].
  apply N.eqb_neq in H2, H3. rewrite H2, H3.
  replace (c <? 32)%N with false by (symmetry; apply N.ltb_ge; exact H1).
  reflexivity.
Qed.

Lemma lex_unicode_escape (c : N) (acc : jsstring) (p : pstate) :
  (c < 65536)%N ->
  lex (LString acc, p) (unicode_escape c) = Some (LString (c :: acc), p).
Proof.
  intros Hc. unfold unicode_escape.
  change (lit "\u") with [92%N; 117%N]. cbn [app lex].
  change (lex_char (LString acc, p) 92%N) with (Some (LEscape acc, p)).
  cbv beta iota.
  change (lex_char (LEscape acc, p) 117%N) with (Some (LUnicode acc [], p)).
  cbv beta iota. cbn [lex_char].
  rewrite hex_value_char by (apply N.mod_upper_bound; lia). cbn [app lex_char].
  rewrite hex_value_char by (apply N.mod_upper_bound; lia). cbn [app lex_char].
  rewrite hex_value_char by (apply N.mod_upper_bound; lia). cbn [app lex_char].
  rewrite hex_value_char by (apply N.mod_upper_bound; lia).
  now rewrite (hex_digits Hc).
Qed.

Lemma lex_escape_unit (c : N) (acc : jsstring) (p : pstate) :
  is_lead_surrogate c = false -> is_trail_surrogate c = false ->
  lex (LString acc, p) (escape_unit c) = Some (LString (c :: acc), p).
Proof.
  intros Hl Ht. unfold escape_unit.
  destruct (c =? 8)%N eqn:E8; [apply N.eqb_eq in E8; now subst|].
  destruct (c =? 9)%N eqn:E9; [apply N.eqb_eq in E9; now subst|].
  destruct (c =? 10)%N eqn:E10; [apply N.eqb_eq in E10; now subst|].
  destruct (c =? 12)%N eqn:E12; [apply N.eqb_eq in E12; now subst|].
  destruct (c =? 13)%N eqn:E13; [apply N.eqb_eq in E13; now subst|].
  destruct (c =? 34)%N eqn:E34; [apply N.eqb_eq in E34; now subst|].
  destruct (c =? 92)%N eqn:E92; [apply N.eqb_eq in E92; now subst|].
  destruct (c <? 32)%N eqn:E32.
  - apply N.ltb_lt in E32. apply lex_unicode_escape. lia.
  - apply N.ltb_ge in E32. apply N.eqb_neq in E34, E92.
    cbn [lex]. now rewrite lex_plain_unit.
Qed.

Lemma surrogate_plain (c : N) :
  is_lead_surrogate c = true \/ is_trail_surrogate c = true ->
  (32 <= c)%N /\ c <> 34%N /\ c <> 92%N /\ (c < 65536)%N.
Proof.
  unfold is_lead_surrogate, is_trail_surrogate.
  intros [H|H]; apply andb_true_iff in H as [H1 H2];
    apply N.leb_le in H1, H2; lia.
Qed.

Lemma lex_quote_units (n : nat) :
  forall (s acc : jsstring) (p : pstate),
    (List.length s <= n)%nat ->
    lex (LString acc, p) (quote_units s) = Some (LString (List.rev s ++ acc), p).
Proof.
  induction n as [|n IH]; intros s acc p Hn.
  - destruct s; [reflexivity|simpl in Hn; lia].
  - destruct s as [|c s']; [reflexivity|]. simpl in Hn.
    assert (forall acc',
              lex (LString acc', p) (quote_units s')
              = Some (LString (List.rev s' ++ acc'), p)) as IH1
      by (intros acc'; apply IH; lia).
    cbn [quote_units List.rev]. rewrite <- List.app_assoc. cbn [app].
    destruct (is_lead_surrogate c) eqn:El.
    + destruct (surrogate_plain (or_introl El)) as (B1 & B2 & B3 & B4).
      destruct s' as [|d s''].
      * now apply lex_unicode_escape.
      * destruct (is_trail_surrogate d) eqn:Et.
        -- destruct (surrogate_plain (or_intror Et)) as (D1 & D2 & D3 & D4).
           cbn [lex]. rewrite lex_plain_unit by assumption.
           rewrite lex_plain_unit by assumption.
           simpl in Hn. rewrite IH by lia.
           cbn [List.rev]. now rewrite <- !List.app_assoc.
        -- rewrite lex_app, lex_unicode_escape by assumption. apply IH1.
    + destruct (is_trail_surrogate c) eqn:Et.
      * destruct (surrogate_plain (or_intror Et)) as (B1 & B2 & B3 & B4).
        rewrite lex_app, lex_unicode_escape by assumption. apply IH1.
      * rewrite lex_app, lex_escape_unit by assumption. apply IH1.
Qed.

(** A quoted string is read back as the string, whatever its code units. *)
Lemma lex_quoted (s : jsstring) (p : pstate) (rest : jsstring) :
  lex (LStart, p) (QuoteJSONString s ++ rest) =
    match feed p (TString s) with
    | Some p' => lex (LStart, p') rest
    | None => None
    end.
Proof.
  unfold QuoteJSONString. cbn [app lex].
  change (lex_char (LStart, p) 34%N) with (Some (LString [], p)).
  cbv beta iota. rewrite <- List.app_assoc, lex_app.
  rewrite (@lex_quote_units (List.length s) s [] p (le_n _)).
  cbn [app lex lex_char]. change (34 =? 34)%N with true. cbv iota.
  rewrite List.app_nil_r, List.rev_involutive.
  destruct (feed p (TString s)); reflexivity.
Qed.

Lemma json_data_arr (items : list value) :
  json_data (VArr items) <-> Forall json_data items.
Proof.
  cbn [json_data]. induction items as [|i items IH].
  - split; constructor.
  - rewrite IH. split.
    + intros [H1 H2]. now constructor.
    + intros H. now inversion H.
Qed.

Lemma json_data_obj (props : list (jsstring * value)) :
  json_data (VObj props) <->
  define_all props = props /\ Forall (fun kv => json_data (snd kv)) props.
Proof.
  cbn [json_data]. apply and_iff_compat_l.
  induction props as [|[k x] props IH].
  - split; constructor.
  - rewrite IH. split.
    + intros [H1 H2]. now constructor.
    + intros H. now inversion H.
Qed.

Lemma json_data_serialized (gap indent : jsstring) (v : value) :
  json_data v -> exists s, SerializeJSONProperty gap indent v = Some s.
Proof.
  destruct v as [| |[|]| | | |]; cbn [json_data SerializeJSONProperty];
    intros H; try contradiction; eauto.
Qed.

Lemma lex_blank (w rest : jsstring) (p : pstate) :
  blank w -> lex (LStart, p) (w ++ rest) = lex (LStart, p) rest.
Proof.
  induction 1 as [|c w Hc _ IH]; [reflexivity|].
  cbn [app lex lex_char]. unfold start_char. now rewrite Hc.
Qed.

Lemma blank_app (a b : jsstring) : blank a -> blank b -> blank (a ++ b).
Proof. intros Ha Hb. apply Forall_app. now split. Qed.

Lemma delimiter_cases (c : N) :
  is_delimiter c = true -> c = 44%N \/ c = 93%N \/ c = 125%N \/ c = 10%N.
Proof.
  unfold is_delimiter. rewrite !orb_true_iff, !N.eqb_eq. tauto.
Qed.

Lemma delimiter_ends_number (c : N) :
  is_delimiter c = true -> is_number_char c = false.
Proof.
  intros H. destruct (delimiter_cases H) as [->|[->|[->| ->]]]; reflexivity.
Qed.

Lemma delimiter_ends_literal (c : N) :
  is_delimiter c = true -> is_lower c = false.
Proof.
  intros H. destruct (delimiter_cases H) as [->|[->|[->| ->]]]; reflexivity.
Qed.

Lemma reads_back_follow (v : value) :
  reads_back v ->
  forall gap indent p p' text c rest,
    blank gap -> blank indent ->
    value_expected (expecting p) = true ->
    push_value v (stack p) = Some p' ->
    SerializeJSONProperty gap indent v = Some text ->
    is_delimiter c = true ->
    lex (LStart, p) (text ++ c :: rest) = lex (LStart, p') (c :: rest).
Proof.
  intros Hv gap indent p p' text c rest Hg Hi He Hp Ht Hc.
  destruct (Hv gap indent p p' text Hg Hi He Hp Ht) as (st & H1 & _ & H3).
  rewrite lex_app, H1. cbn [lex]. now rewrite (H3 c Hc).
Qed.

Lemma reads_back_literal (v : value) (chars : jsstring) (t : token) :
  (forall gap indent, SerializeJSONProperty gap indent v = Some chars) ->
  (forall p, feed p t
             = if value_expected (expecting p) then push_value v (stack p)
               else None) ->
  Forall (fun c => is_lower c = true) chars ->
  chars <> [] ->
  literal_token chars = Some t ->
  reads_back v.
Proof.
  intros Hs Hf Hl Hne Ht gap indent p p' text Hg Hi He Hp Htext.
  rewrite Hs in Htext. injection Htext as <-.
  assert (forall l, Forall (fun c => is_lower c = true) l ->
          forall acc, lex (LLiteral acc, p) l
                      = Some (LLiteral (List.rev l ++ acc), p)) as Hlex.
  { induction 1 as [|c l Hc _ IH]; intros acc; [reflexivity|].
    cbn [lex lex_char]. rewrite Hc, IH. cbn [List.rev].
    now rewrite <- List.app_assoc. }
  destruct chars as [|c chars]; [contradiction|].
  exists (LLiteral (List.rev (c :: chars)), p).
  inversion Hl as [|? ? Hc Hl']; subst.
  assert (start_char p c = Some (LLiteral [c], p)) as Hstart.
  { unfold start_char. unfold is_lower in Hc.
    apply andb_true_iff in Hc as [C1 C2]. apply N.leb_le in C1, C2.
    unfold is_json_space, is_digit.
    repeat match goal with
           | |- context [(c =? ?k)%N] =>
               replace (c =? k)%N with false by (symmetry; apply N.eqb_neq; lia)
           end.
    replace (c <=? 57)%N with false by (symmetry; apply N.leb_gt; lia).
    rewrite andb_false_r. cbn [orb]. unfold is_lower.
    replace (97 <=? c)%N with true by (symmetry; apply N.leb_le; lia).
    replace (c <=? 122)%N with true by (symmetry; apply N.leb_le; lia).
    reflexivity. }
  split; [|split].
  - cbn [lex lex_char]. rewrite Hstart, (Hlex _ Hl'). reflexivity.
  - cbn [lex_end fst snd]. rewrite List.rev_involutive, Ht.
    cbn [end_token]. now rewrite Hf, He.
  - intros d Hd. cbn [lex_char]. rewrite (delimiter_ends_literal Hd).
    rewrite List.rev_involutive, Ht. cbn [end_token]. now rewrite Hf, He, Hp.
Qed.

Lemma reads_back_null : reads_back VNull.
Proof.
  apply (@reads_back_literal VNull (lit "null") TNull); try reflexivity;
    [repeat constructor | discriminate].
Qed.

Lemma reads_back_bool (b : bool) : reads_back (VBool b).
Proof.
  destruct b.
  - apply (@reads_back_literal (VBool true) (lit "true") TTrue);
      try reflexivity; [repeat constructor | discriminate].
  - apply (@reads_back_literal (VBool false) (lit "false") TFalse);
      try reflexivity; [repeat constructor | discriminate].
Qed.

Lemma reads_back_num (x : number) : reads_back (VNum x).
Proof.
  intros gap indent p p' text Hg Hi He Hp Htext.
  injection Htext as <-.
  exists (LNumber (List.rev (Number_toString x)), p).
  split; [apply lex_number_written|]. split.
  - cbn [lex_end fst snd]. rewrite List.rev_involutive, number_roundtrip.
    cbn [option_map end_token feed]. now rewrite He.
  - intros c Hc. rewrite (lex_number_end p x (delimiter_ends_number Hc)).
    cbn [feed]. now rewrite He, Hp.
Qed.

Lemma reads_back_str (s : jsstring) : reads_back (VStr s).
Proof.
  intros gap indent p p' text Hg Hi He Hp Htext.
  injection Htext as <-.
  exists (LStart, p').
  assert (feed p (TString s) = Some p') as Hf.
  { cbn [feed]. destruct (expecting p); try discriminate; exact Hp. }
  split; [|split; [reflexivity|reflexivity]].
  rewrite <- (List.app_nil_r (QuoteJSONString s)), lex_quoted, Hf.
  reflexivity.
Qed.

Lemma serialize_members (gap indent : jsstring)
    (props : list (jsstring * value)) :
  Forall (fun kv => json_data (snd kv)) props ->
  SerializeJSONProperty gap indent (VObj props) =
    Some (wrap_members (lit "{") (lit "}") gap indent
            (List.map (member_text gap (indent ++ gap)) props)).
Proof.
  intros H. cbn [SerializeJSONProperty]. do 2 f_equal.
  induction H as [|[k x] props Hx _ IH]; [reflexivity|].
  cbn [fst snd] in Hx.
  destruct (json_data_serialized gap (indent ++ gap) Hx) as [s Hs].
  rewrite Hs, IH. cbn [List.map]. f_equal.
  unfold member_text, item_text. cbn [fst snd]. now rewrite Hs.
Qed.

Lemma lex_items (gap indent : jsstring) (items : list value) :
  blank gap -> blank indent ->
  Forall reads_back items -> Forall json_data items -> items <> [] ->
  forall w acc stk e c rest,
    blank w -> value_expected e = true -> is_delimiter c = true ->
    lex (LStart, mkP (FArr acc :: stk) e None)
      (join (44%N :: w) (List.map (item_text gap indent) items) ++ c :: rest)
    = lex (LStart, mkP (FArr (List.rev items ++ acc) :: stk) ECommaOrClose None)
        (c :: rest).
Proof.
  intros Hg Hi Hr Hd Hne.
  induction items as [|i items IH]; [contradiction|].
  intros w acc stk e c rest Hw He Hc.
  inversion Hr as [|? ? Hri Hr']; subst. inversion Hd as [|? ? Hdi Hd']; subst.
  destruct (json_data_serialized gap indent Hdi) as [s Hs].
  assert (item_text gap indent i = s) as Hi' by (unfold item_text; now rewrite Hs).
  destruct items as [|j items].
  - cbn [List.map join List.rev app]. rewrite Hi'.
    apply (@reads_back_follow i Hri gap indent
             (mkP (FArr acc :: stk) e None)
             (mkP (FArr (i :: acc) :: stk) ECommaOrClose None)); auto.
  - change (join (44%N :: w) (List.map (item_text gap indent) (i :: j :: items)))
      with (item_text gap indent i ++ (44%N :: w)
            ++ join (44%N :: w) (List.map (item_text gap indent) (j :: items))).
    rewrite Hi', <- !List.app_assoc. cbn [app].
    rewrite (@reads_back_follow i Hri gap indent
               (mkP (FArr acc :: stk) e None)
               (mkP (FArr (i :: acc) :: stk) ECommaOrClose None)); auto.
    cbn [lex].
    change (lex_char (LStart, mkP (FArr (i :: acc) :: stk) ECommaOrClose None) 44%N)
      with (Some (LStart, mkP (FArr (i :: acc) :: stk) EValue None)).
    cbv beta iota. rewrite (lex_blank _ _ Hw).
    rewrite IH by (auto; discriminate).
    cbn [List.rev]. now rewrite <- !List.app_assoc.
Qed.

Lemma lex_members (gap indent : jsstring) (props : list (jsstring * value)) :
  blank gap -> blank indent ->
  Forall (fun kv => reads_back (snd kv)) props ->
  Forall (fun kv => json_data (snd kv)) props -> props <> [] ->
  forall w acc stk e c rest,
    blank w -> e = EKey \/ e = EKeyOrClose -> is_delimiter c = true ->
    lex (LStart, mkP (FObj acc None :: stk) e None)
      (join (44%N :: w) (List.map (member_text gap indent) props) ++ c :: rest)
    = lex (LStart,
           mkP (FObj (List.fold_left
                        (fun a kv => define_property a (fst kv) (snd kv))
                        props acc) None :: stk) ECommaOrClose None)
        (c :: rest).
Proof.
  intros Hg Hi Hr Hd Hne.
  induction props as [|[k x] props IH]; [contradiction|].
  intros w acc stk e c rest Hw He Hc.
  inversion Hr as [|? ? Hrx Hr']; subst. inversion Hd as [|? ? Hdx Hd']; subst.
  cbn [fst snd] in Hrx, Hdx.
  destruct (json_data_serialized gap indent Hdx) as [s Hs].
  assert (forall c' rest',
            is_delimiter c' = true ->
            lex (LStart, mkP (FObj acc None :: stk) e None)
              (member_text gap indent (k, x) ++ c' :: rest')
            = lex (LStart,
                   mkP (FObj (define_property acc k x) None :: stk)
                     ECommaOrClose None) (c' :: rest')) as Hmember.
  { intros c' rest' Hc'. unfold member_text, item_text. cbn [fst snd].
    rewrite Hs, <- !List.app_assoc, lex_quoted.
    assert (feed (mkP (FObj acc None :: stk) e None) (TString k)
            = Some (mkP (FObj acc (Some k) :: stk) EColon None)) as ->
      by (destruct He as [-> | ->]; reflexivity).
    change (lit ":") with [58%N]. cbn [app lex].
    change (lex_char (LStart, mkP (FObj acc (Some k) :: stk) EColon None) 58%N)
      with (Some (LStart, mkP (FObj acc (Some k) :: stk) EValue None)).
    cbv beta iota.
    assert (blank match gap with [] => [] | _ => lit " " end) as Hsp
      by (destruct gap; repeat constructor).
    rewrite (lex_blank _ _ Hsp).
    apply (@reads_back_follow x Hrx gap indent
             (mkP (FObj acc (Some k) :: stk) EValue None)
             (mkP (FObj (define_property acc k x) None :: stk)
                ECommaOrClose None)); auto. }
  destruct props as [|kv props].
  - cbn [List.map join List.fold_left fst snd]. now apply Hmember.
  - change (join (44%N :: w)
              (List.map (member_text gap indent) ((k, x) :: kv :: props)))
      with (member_text gap indent (k, x) ++ (44%N :: w)
            ++ join (44%N :: w)
                 (List.map (member_text gap indent) (kv :: props))).
    rewrite <- !List.app_assoc. cbn [app].
    rewrite Hmember by reflexivity. cbn [lex].
    change (lex_char (LStart,
                      mkP (FObj (define_property acc k x) None :: stk)
                        ECommaOrClose None) 44%N)
      with (Some (LStart,
                  mkP (FObj (define_property acc k x) None :: stk) EKey None)).
    cbv beta iota. rewrite (lex_blank _ _ Hw).
    rewrite IH by (auto; discriminate). reflexivity.
Qed.

Lemma start_open_bracket (p : pstate) :
  value_expected (expecting p) = true ->
  lex_char (LStart, p) 91%N
  = Some (LStart, mkP (FArr [] :: stack p) EValueOrClose None).
Proof.
  intros He. cbn [lex_char]. unfold start_char. cbn -[feed].
  cbn [feed]. now rewrite He.
Qed.

Lemma start_open_brace (p : pstate) :
  value_expected (expecting p) = true ->
  lex_char (LStart, p) 123%N
  = Some (LStart, mkP (FObj [] None :: stack p) EKeyOrClose None).
Proof.
  intros He. cbn [lex_char]. unfold start_char. cbn -[feed].
  cbn [feed]. now rewrite He.
Qed.

Lemma reads_back_arr (items : list value) :
  Forall reads_back items -> Forall json_data items ->
  reads_back (VArr items).
Proof.
  intros Hr Hd gap indent p p' text Hg Hi He Hp Htext.
  rewrite serialize_array in Htext. injection Htext as <-.
  fold (item_text gap (indent ++ gap)).
  exists (LStart, p').
  split; [|split; reflexivity].
  assert (blank (indent ++ gap)) as Hig by now apply blank_app.
  destruct items as [|i items].
  { cbn [List.map wrap_members]. change (lit "[" ++ lit "]") with [91%N; 93%N].
    cbn [lex]. rewrite (start_open_bracket He).
    cbn [lex_char start_char]. cbn -[push_value].
    cbn [List.rev] in Hp. now rewrite Hp. }
  set (texts := List.map (item_text gap (indent ++ gap)) (i :: items)).
  assert (exists t ts, texts = t :: ts) as (t & ts & Ht) by (cbn; eauto).
  unfold wrap_members. rewrite Ht, <- Ht. clear t ts Ht.
  assert (lex_char (LStart,
                    mkP (FArr (List.rev (i :: items) ++ []) :: stack p)
                      ECommaOrClose None) 93%N
          = Some (LStart, p')) as Hclose.
  { cbn [lex_char]. unfold start_char. cbn -[push_value List.rev app].
    now rewrite List.app_nil_r, List.rev_involutive, Hp. }
  destruct gap as [|g gap'].
  - change (lit "[") with [91%N]. change (lit "]") with [93%N].
    change (lit ",") with [44%N]. cbn [app lex].
    rewrite (start_open_bracket He). unfold texts.
    rewrite (@lex_items [] (indent ++ []) (i :: items)); auto;
      try discriminate; try constructor.
    cbn [lex]. now rewrite Hclose.
  - change (lit "[") with [91%N]. change (lit "]") with [93%N].
    change (lit "," ++ [10%N] ++ indent ++ g :: gap')
      with (44%N :: ([10%N] ++ indent ++ g :: gap')).
    cbn [app lex]. rewrite (start_open_bracket He).
    change (lex_char (LStart, mkP (FArr [] :: stack p) EValueOrClose None) 10%N)
      with (Some (LStart, mkP (FArr [] :: stack p) EValueOrClose None)).
    cbv beta iota. rewrite (lex_blank _ _ Hig). unfold texts.
    rewrite (@lex_items (g :: gap') (indent ++ g :: gap') (i :: items)); auto;
      try discriminate.
    + cbn [lex].
      change (lex_char (LStart, ?q) 10%N) with (Some (LStart, q)).
      cbv beta iota. rewrite (lex_blank _ _ Hi). cbn [lex].
      now rewrite Hclose.
    + constructor; [reflexivity|exact Hig].
Qed.

Lemma reads_back_obj (props : list (jsstring * value)) :
  Forall (fun kv => reads_back (snd kv)) props ->
  Forall (fun kv => json_data (snd kv)) props ->
  define_all props = props ->
  reads_back (VObj props).
Proof.
  intros Hr Hd Hord gap indent p p' text Hg Hi He Hp Htext.
  rewrite (serialize_members gap indent Hd) in Htext. injection Htext as <-.
  exists (LStart, p').
  split; [|split; reflexivity].
  assert (blank (indent ++ gap)) as Hig by now apply blank_app.
  destruct props as [|kv props].
  { cbn [List.map wrap_members]. change (lit "{" ++ lit "}") with [123%N; 125%N].
    cbn [lex]. rewrite (start_open_brace He).
    cbn [lex_char start_char]. cbn -[push_value].
    now rewrite Hp. }
  set (texts := List.map (member_text gap (indent ++ gap)) (kv :: props)).
  assert (exists t ts, texts = t :: ts) as (t & ts & Ht) by (cbn; eauto).
  unfold wrap_members. rewrite Ht, <- Ht. clear t ts Ht.
  assert (lex_char (LStart,
                    mkP (FObj (define_all (kv :: props)) None :: stack p)
                      ECommaOrClose None) 125%N
          = Some (LStart, p')) as Hclose.
  { cbn [lex_char]. unfold start_char. cbn -[push_value define_all].
    now rewrite Hord, Hp. }
  unfold define_all in Hclose.
  destruct gap as [|g gap'].
  - change (lit "{") with [123%N]. change (lit "}") with [125%N].
    change (lit ",") with [44%N]. cbn [app lex].
    rewrite (start_open_brace He). unfold texts.
    rewrite (@lex_members [] (indent ++ []) (kv :: props)); auto;
      try discriminate; try constructor.
    cbn [lex]. now rewrite Hclose.
  - change (lit "{") with [123%N]. change (lit "}") with [125%N].
    change (lit "," ++ [10%N] ++ indent ++ g :: gap')
      with (44%N :: ([10%N] ++ indent ++ g :: gap')).
    cbn [app lex]. rewrite (start_open_brace He).
    change (lex_char (LStart, mkP (FObj [] None :: stack p) EKeyOrClose None) 10%N)
      with (Some (LStart, mkP (FObj [] None :: stack p) EKeyOrClose None)).
    cbv beta iota. rewrite (lex_blank _ _ Hig). unfold texts.
    rewrite (@lex_members (g :: gap') (indent ++ g :: gap') (kv :: props)); auto;
      try discriminate.
    + cbn [lex].
      change (lex_char (LStart, ?q) 10%N) with (Some (LStart, q)).
      cbv beta iota. rewrite (lex_blank _ _ Hi). cbn [lex].
      now rewrite Hclose.
    + constructor; [reflexivity|exact Hig].
Qed.

(** Every JSON value is read back from its text. *)
Lemma json_data_reads_back (v : value) : json_data v -> reads_back v.
Proof.
  induction v using value_nested_ind.
  - contradiction.
  - intros _. apply reads_back_null.
  - intros _. apply reads_back_bool.
  - intros _. apply reads_back_num.
  - intros _. apply reads_back_str.
  - intros Hd. apply json_data_arr in Hd. apply reads_back_arr; [|exact Hd].
    rewrite Forall_forall in *. auto.
  - intros Hd. apply json_data_obj in Hd as [Ho Hd].
    apply reads_back_obj; [|exact Hd|exact Ho].
    rewrite Forall_forall in *. auto.
Qed.

(** [JSON.parse] reads back the value [JSON.stringify] wrote, in the compact
    form and in the indented one. *)
Lemma parse_serialized (gap : jsstring) (v : value) (text : jsstring) :
  blank gap -> json_data v ->
  SerializeJSONProperty gap [] v = Some text ->
  JSON_parse text = Some v.
Proof.
  intros Hg Hd Ht.
  destruct (@json_data_reads_back v Hd gap [] (mkP [] EValue None)
              (mkP [] EDone (Some v)) text Hg (Forall_nil _) eq_refl eq_refl Ht)
    as (st & H1 & H2 & _).
  unfold JSON_parse. now rewrite H1, H2.
Qed.

Lemma parse_stringify (v : value) (text : jsstring) :
  json_data v -> JSON_stringify v = Some text -> JSON_parse text = Some v.
Proof. intros Hd. apply parse_serialized; [constructor|exact Hd]. Qed.

Lemma parse_stringify_indent (v : value) (space : nat) (text : jsstring) :
  json_data v -> JSON_stringify_indent v space = Some text ->
  JSON_parse text = Some v.
Proof.
  intros Hd. apply parse_serialized; [|exact Hd].
  apply Forall_forall. intros c Hc. apply List.repeat_spec in Hc. now subst.
Qed.

(* ================================================================== *)
(** ** The messages on the wire *)

Lemma json_data_strings (l : list jsstring) : json_data (VArr (List.map VStr l)).
Proof.
  apply json_data_arr, Forall_forall. intros v Hv.
  apply List.in_map_iff in Hv as (s & <- & _). exact I.
Qed.

Lemma json_data_id_or_null (id : value) :
  id = VUndefined \/ json_data id -> json_data (id_or_null id).
Proof. intros [->|H]; [exact I|]. destruct id; try exact H. contradiction. Qed.

(** What [JSON.stringify] makes of a JSON value is a text that [JSON.parse]
    reads back as the value. *)
Lemma stringify_decodes (v : value) :
  json_data v ->
  exists text, JSON_stringify v = Some text /\ JSON_parse text = Some v.
Proof.
  intros Hd. destruct (json_data_serialized [] [] Hd) as [text Ht].
  exists text. split; [exact Ht|]. now apply parse_stringify.
Qed.

Lemma json_data_error (code : Z) (msg : jsstring) (id : value) :
  json_data id -> json_data (jsonrpc_error code msg id).
Proof.
  intros Hd. apply json_data_obj. split; [reflexivity|].
  constructor; [exact I|]. constructor; [|constructor; [exact Hd|constructor]].
  cbn [snd]. apply json_data_obj. split; [reflexivity|]. repeat constructor.
Qed.

Lemma error_response_text (code : Z) (msg : jsstring) (id : value) :
  id = VUndefined \/ json_data id ->
  exists text,
    error_response code msg (id_or_null id)
      = mkResponse 500 json_headers (Some text)
    /\ JSON_parse text = Some (jsonrpc_error code msg (id_or_null id)).
Proof.
  intros Hid.
  destruct (stringify_decodes
              (json_data_error code msg (json_data_id_or_null Hid)))
    as (text & Ht & Hp).
  exists text. split; [|exact Hp]. unfold error_response. now rewrite Ht.
Qed.

Lemma result_response_decodes (id result : value) :
  id = VUndefined \/ json_data id -> json_data result ->
  exists text,
    result_response id result = mkResponse 200 json_headers (Some text)
    /\ JSON_parse text = Some (result_message id result).
Proof.
  intros Hid Hr.
  assert (json_data (result_message id result)) as Hd.
  { unfold result_message. destruct Hid as [->|Hid].
    - apply json_data_obj. split; [reflexivity|]. repeat constructor. exact Hr.
    - destruct id; try contradiction;
        (apply json_data_obj; split; [reflexivity|];
         constructor; [exact I|]; constructor; [exact Hid|];
         constructor; [exact Hr|constructor]). }
  destruct (stringify_decodes Hd) as (text & Ht & Hp).
  exists text. split; [|exact Hp].
  unfold result_response. rewrite <- Ht. f_equal.
  unfold result_message. destruct id; reflexivity.
Qed.

Lemma json_data_tools_list : json_data Stdio.listToolsHandler.
Proof. vm_compute. repeat split. Qed.

Lemma listed_tool_name :
  field tool_descriptor (lit "name") = VStr (lit "get_reranking").
Proof. reflexivity. Qed.

Lemma json_data_initialize_result :
  json_data (VObj [ (lit "protocolVersion", VStr (lit "2024-11-05"));
                    (lit "capabilities", Stdio.capabilities);
                    (lit "serverInfo", Stdio.serverInfo) ]).
Proof. vm_compute. repeat split. Qed.

Lemma json_data_tool_result (text : jsstring) :
  json_data (VObj [ (lit "content", VArr [ text_content (VStr text) ]) ]).
Proof.
  apply json_data_obj. split; [reflexivity|]. constructor; [|constructor].
  cbn [snd]. apply json_data_arr. constructor; [|constructor].
  apply json_data_obj. split; [reflexivity|]. repeat constructor.
Qed.

Lemma stringify_error_object (msg : jsstring) :
  exists text,
    JSON_stringify (VObj [(lit "error", VStr msg)]) = Some text
    /\ JSON_parse text = Some (VObj [(lit "error", VStr msg)]).
Proof.
  apply stringify_decodes, json_data_obj. split; [reflexivity|].
  repeat constructor.
Qed.

Lemma method_strings :
  strict_eq_str (VStr (lit "initialized")) (lit "initialize") = false
  /\ strict_eq_str (VStr (lit "ping")) (lit "initialize") = false
  /\ strict_eq_str (VStr (lit "ping")) (lit "initialized") = false
  /\ strict_eq_str (VStr (lit "tools/list")) (lit "initialize") = false
  /\ strict_eq_str (VStr (lit "tools/list")) (lit "initialized") = false
  /\ strict_eq_str (VStr (lit "tools/list")) (lit "ping") = false.
Proof. repeat split. Qed.

Lemma not_the_method (v : value) (m : jsstring) :
  v <> VStr m -> strict_eq_str v m = false.
Proof.
  intros H. destruct (strict_eq_str v m) eqn:E; [|reflexivity].
  apply strict_eq_str_true in E. contradiction.
Qed.

Lemma id_or_null_defined (id : value) : id_or_null id <> VUndefined.
Proof. destruct id; discriminate. Qed.

(* ================================================================== *)
(** ** White space and bounds *)

Lemma trim_start_blank (s : jsstring) :
  trim_start s = [] <-> Forall (fun c => is_white_space c = true) s.
Proof.
  induction s as [|c s IH]; cbn [trim_start].
  - split; constructor.
  - destruct (is_white_space c) eqn:E.
    + rewrite IH. split; [now constructor|]. intros H. now inversion H.
    + split; [discriminate|]. intros H. inversion H. congruence.
Qed.

Lemma trim_start_head (s : jsstring) (c : N) (r : jsstring) :
  trim_start s = c :: r -> is_white_space c = false.
Proof.
  induction s as [|x s IH]; cbn [trim_start]; [discriminate|].
  destruct (is_white_space x) eqn:E; [exact IH|].
  intros H. injection H as <- _. exact E.
Qed.

(** [trim] leaves nothing of a string exactly when all its code units are
    white space. *)
Lemma trim_blank (s : jsstring) :
  trim s = [] <-> Forall (fun c => is_white_space c = true) s.
Proof.
  unfold trim. split.
  - intros H. apply (f_equal (@List.rev N)) in H.
    rewrite List.rev_involutive in H. cbn [List.rev] in H.
    apply trim_start_blank in H. apply Forall_rev in H.
    rewrite List.rev_involutive in H.
    destruct (trim_start s) as [|c r] eqn:E; [now apply trim_start_blank|].
    apply trim_start_head in E. inversion H. congruence.
  - intros H. apply trim_start_blank in H. now rewrite H.
Qed.

Lemma within_bounds (lo hi : Z) (n : N) :
  within (VNum (num_of_Z lo)) (VNum (num_of_Z hi)) n
  <-> lo <= Z.of_N n <= hi.
Proof.
  unfold within. split.
  - intros [Hlo Hhi]. specialize (Hlo _ eq_refl). specialize (Hhi _ eq_refl).
    unfold num_of_Z in *. rewrite decimal_value in Hlo, Hhi.
    change (Qpower (10 # 1) 0) with 1%Q in *. rewrite Qmult_1_r in Hlo, Hhi.
    rewrite <- Zle_Qle in Hlo, Hhi. lia.
  - intros [Hlo Hhi]. split; intros x Hx; injection Hx as <-;
      unfold num_of_Z; rewrite decimal_value;
      change (Qpower (10 # 1) 0) with 1%Q; rewrite Qmult_1_r, <- Zle_Qle; lia.
Qed.

Lemma within_lower (lo : Z) (n : N) :
  within (VNum (num_of_Z lo)) VUndefined n <-> lo <= Z.of_N n.
Proof.
  unfold within. split.
  - intros [Hlo _]. specialize (Hlo _ eq_refl).
    unfold num_of_Z in *. rewrite decimal_value in Hlo.
    change (Qpower (10 # 1) 0) with 1%Q in *. rewrite Qmult_1_r in Hlo.
    now rewrite <- Zle_Qle in Hlo.
  - intros Hlo. split; intros x Hx; [|discriminate]. injection Hx as <-.
    unfold num_of_Z. rewrite decimal_value.
    change (Qpower (10 # 1) 0) with 1%Q. now rewrite Qmult_1_r, <- Zle_Qle.
Qed.

Lemma advertised_bounds :
  advertised (lit "query") (lit "minLength") = VNum (num_of_Z 1)
  /\ advertised (lit "query") (lit "maxLength") = VNum (num_of_Z 10000)
  /\ advertised (lit "documents") (lit "minItems") = VNum (num_of_Z 1)
  /\ advertised (lit "documents") (lit "maxItems") = VNum (num_of_Z 1000)
  /\ advertised (lit "api_key") (lit "minLength") = VNum (num_of_Z 1)
  /\ advertised (lit "api_key") (lit "maxLength") = VUndefined.
Proof. repeat split. Qed.

(* ================================================================== *)
(** ** The dispatch, case by case *)

Local Opaque lit JSON_stringify JSON_stringify_indent N_toString Number_toString.

Section Dispatch.
Variable zod_message : zschema -> value -> jsstring.
Variable net : network.

(** The dispatch of the protocol-conformant worker on a request of version
    2.0, by its method. *)
Lemma handleRequest_dispatch request body st :
  json request = Normal body ->
  nullish body = false ->
  field body (lit "jsonrpc") = VStr (lit "2.0") ->
  Conformant.handleRequest zod_message net request st =
    let method := field body (lit "method") in
    let id := field body (lit "id") in
    if strict_eq_str method (lit "initialize") then
      Conformant.handleInitialize (field body (lit "params")) id st
    else if strict_eq_str method (lit "initialized") then
      (Normal (Conformant.handleInitialized (field body (lit "params"))), st)
    else if strict_eq_str method (lit "ping") then
      (Normal (Conformant.handlePing id), st)
    else if strict_eq_str method (lit "tools/list") then
      (Normal (Conformant.listTools id), st)
    else if strict_eq_str method (lit "tools/call") then
      Conformant.callTool zod_message net (field body (lit "params")) id st
    else
      (Normal (Conformant.createErrorResponse (lit "Unknown method") id
                 Conformant.MCP_ERROR_CODES.METHOD_NOT_FOUND), st).
Proof.
  intros Hj Hn Hv.
  unfold Conformant.handleRequest, settle, try_catch, bind, eval, ret.
  rewrite Hj, !(Get_field _ Hn), Hv, truthy_version, strict_eq_str_refl.
  cbn [negb orb]. cbv zeta.
  destruct (strict_eq_str _ (lit "initialize")); [reflexivity|].
  destruct (strict_eq_str _ (lit "initialized")); [reflexivity|].
  destruct (strict_eq_str _ (lit "ping")); [reflexivity|].
  destruct (strict_eq_str _ (lit "tools/list")); [reflexivity|].
  destruct (strict_eq_str _ (lit "tools/call")); reflexivity.
Qed.

Lemma handleRequest_unreadable request e st :
  json request = Throw e ->
  Conformant.handleRequest zod_message net request st
    = (Normal (error_response (-32700) (err_message e) VNull), st).
Proof.
  intros Hj.
  unfold Conformant.handleRequest, settle, try_catch, bind, eval, ret.
  now rewrite Hj.
Qed.

Lemma handleRequest_nullish request body st :
  json request = Normal body ->
  nullish body = true ->
  exists e,
    Get body (lit "jsonrpc") = Throw e
    /\ Conformant.handleRequest zod_message net request st
       = (Normal (error_response (-32700) (err_message e) VNull), st).
Proof.
  intros Hj Hn.
  unfold Conformant.handleRequest, settle, try_catch, bind, eval, ret.
  rewrite Hj. destruct body; try discriminate; eexists; split; reflexivity.
Qed.

(** A request reaches the dispatch, or is answered before it with a parse
    error or an invalid request. *)
Lemma handleRequest_reaches_dispatch request st :
  (exists body,
     json request = Normal body /\ nullish body = false
     /\ field body (lit "jsonrpc") = VStr (lit "2.0"))
  \/ ((forall body, json request = Normal body -> nullish body = false ->
                    field body (lit "jsonrpc") <> VStr (lit "2.0"))
      /\ exists code msg id,
           Conformant.handleRequest zod_message net request st
             = (Normal (error_response code msg id), st)
           /\ (code = -32700 \/ code = -32600) /\ id <> VUndefined).
Proof.
  destruct (json request) as [body|e] eqn:Hj.
  - destruct (nullish body) eqn:Hn.
    + right. split; [intros b Hb; injection Hb as <-; congruence|].
      destruct (handleRequest_nullish st Hj Hn) as (e & _ & ->).
      exists (-32700), (err_message e), VNull. repeat split; auto; discriminate.
    + destruct (strict_eq_str (field body (lit "jsonrpc")) (lit "2.0")) eqn:Hv.
      * left. apply strict_eq_str_true in Hv. eauto.
      * right. split.
        -- intros b Hb _ E. injection Hb as <-. rewrite E in Hv.
           now rewrite strict_eq_str_refl in Hv.
        -- rewrite (handleRequest_version zod_message net st Hj Hn Hv).
           exists (-32600), (lit "Invalid JSON-RPC version"),
             (id_or_null (field body (lit "id"))).
           repeat split; auto. apply id_or_null_defined.
  - right. split; [discriminate|].
    rewrite (handleRequest_unreadable st Hj).
    exists (-32700), (err_message e), VNull. repeat split; auto; discriminate.
Qed.

Lemma callTool_without_params params id st :
  nullish params = true ->
  exists e,
    Conformant.callTool zod_message net params id st = (Throw e, st)
    /\ err_name e = lit "TypeError".
Proof.
  intros Hn.
  destruct (destructure_call_nullish (lit "params") Hn) as (e & He & Hname).
  exists e. split; [|exact Hname].
  unfold Conformant.callTool, bind, eval. now rewrite He.
Qed.

Lemma callTool_unnameable params id st e :
  nullish params = false ->
  strict_eq_str (field params (lit "name")) (lit "get_reranking") = false ->
  ToString (field params (lit "name")) = Throw e ->
  Conformant.callTool zod_message net params id st = (Throw e, st).
Proof.
  intros Hn Hname Hs.
  unfold Conformant.callTool, bind, eval, ret.
  now rewrite (destructure_call_field _ Hn), Hname, Hs.
Qed.

(** [callTool] leaves the state as it is, or adds the one call of a
    validated invocation. *)
Lemma callTool_outbound params id st :
  snd (Conformant.callTool zod_message net params id st) = st
  \/ exists query documents api_key,
       nullish params = false
       /\ field params (lit "name") = VStr (lit "get_reranking")
       /\ RerankRequest_ok (field params (lit "arguments")) query documents api_key
       /\ snd (Conformant.callTool zod_message net params id st)
          = Conformant.mkState (Conformant.initialized st)
              (Conformant.outbound st ++ [rerank_call query documents api_key]).
Proof.
  destruct (nullish params) eqn:Hn.
  { left. destruct (callTool_without_params id st Hn) as (e & -> & _).
    reflexivity. }
  destruct (strict_eq_str (field params (lit "name")) (lit "get_reranking"))
    eqn:Hname.
  - apply strict_eq_str_true in Hname.
    destruct (RerankRequestSchema (field params (lit "arguments")))
      as [out|] eqn:Hs.
    + right. apply RerankRequestSchema_accepted in Hs as (q & d & k & Hok).
      exists q, d, k. split; [reflexivity|]. split; [exact Hname|].
      split; [exact Hok|].
      now rewrite (callTool_accepts zod_message net id st Hn Hname Hok).
    + left. now rewrite (callTool_rejects zod_message net id st Hn Hname Hs).
  - left. unfold Conformant.callTool, bind, eval, ret.
    rewrite (destructure_call_field _ Hn), Hname.
    destruct (ToString _); reflexivity.
Qed.

Lemma callTool_keeps_flag params id st :
  Conformant.initialized (snd (Conformant.callTool zod_message net params id st))
  = Conformant.initialized st.
Proof.
  destruct (callTool_outbound params id st)
    as [->|(q & d & k & _ & _ & _ & ->)]; reflexivity.
Qed.

(** What [callTool] answers, when it answers. *)
Lemma callTool_answer params id st r :
  fst (Conformant.callTool zod_message net params id st) = Normal r ->
  (exists response, r = result_response id (tool_result response))
  \/ (exists msg, r = error_response (-32602) msg (id_or_null id))
  \/ (exists msg, r = error_response (-32601) msg (id_or_null id)).
Proof.
  destruct (nullish params) eqn:Hn.
  { destruct (callTool_without_params id st Hn) as (e & -> & _). discriminate. }
  destruct (strict_eq_str (field params (lit "name")) (lit "get_reranking"))
    eqn:Hname.
  - apply strict_eq_str_true in Hname.
    destruct (RerankRequestSchema (field params (lit "arguments")))
      as [out|] eqn:Hs.
    + apply RerankRequestSchema_accepted in Hs as (q & d & k & Hok).
      rewrite (callTool_accepts zod_message net id st Hn Hname Hok).
      cbn [fst]. intros H. injection H as <-.
      destruct (client_outcome _ _); eauto.
    + rewrite (callTool_rejects zod_message net id st Hn Hname Hs).
      cbn [fst]. intros H. injection H as <-. eauto.
  - destruct (ToString (field params (lit "name"))) as [shown|e] eqn:Hs.
    + rewrite (callTool_unknown zod_message net id st Hn Hname Hs).
      cbn [fst]. intros H. injection H as <-. eauto.
    + rewrite (callTool_unnameable id st Hn Hname Hs). discriminate.
Qed.

(** The dispatch of the minimal worker, by the method of the request. *)
Lemma minimal_handleRequest_dispatch request body t :
  json request = Normal body ->
  nullish body = false ->
  Minimal.handleRequest zod_message net request t =
    if strict_eq_str (field body (lit "method")) (lit "tools/list") then
      (Normal Minimal.listTools, t)
    else if strict_eq_str (field body (lit "method")) (lit "tools/call") then
      Minimal.callTool zod_message net (field body (lit "params")) t
    else
      (Normal (Minimal.createErrorResponse (lit "Unknown method")
                 (field body (lit "id"))), t).
Proof.
  intros Hj Hn.
  unfold Minimal.handleRequest, settle, try_catch, bind, eval, ret.
  rewrite Hj, !(Get_field _ Hn).
  destruct (strict_eq_str _ (lit "tools/list")); [reflexivity|].
  destruct (strict_eq_str _ (lit "tools/call")); reflexivity.
Qed.

End Dispatch.

(* ================================================================== *)
(** ** Further properties of the protocol-conformant worker *)

(** X1. In the protocol-conformant worker, a request of version 2.0 whose
    method is none of [initialize], [initialized], [ping], [tools/list] and
    [tools/call] (a missing method or one that is not a string among them)
    is answered with the JSON-RPC error of code -32601 and message
    ["Unknown method"], with the [id] of the request, [null] when it has
    none; the state is left as it was. *)
Theorem X1_unknown_method_is_not_found
    zod_message (net : network) request body st :
  json request = Normal body ->
  nullish body = false ->
  field body (lit "jsonrpc") = VStr (lit "2.0") ->
  (forall m, In m protocol_methods -> field body (lit "method") <> VStr m) ->
  Conformant.handleRequest zod_message net request st
    = (Normal (error_response (-32601) (lit "Unknown method")
                 (id_or_null (field body (lit "id")))), st).
Proof.
  intros Hj Hn Hv Hm.
  rewrite (handleRequest_dispatch zod_message net st Hj Hn Hv). cbv zeta.
  rewrite !not_the_method by (apply Hm; unfold protocol_methods; simpl; tauto).
  reflexivity.
Qed.

(** X2. A [ping] request of version 2.0 is answered, in any state, with a
    response of status 200 whose body is a JSON text that reads back as
    [{jsonrpc: "2.0", id, result: {}}] with the [id] of the request (no
    member [id] when the request has none); the state is left as it was. *)
Theorem X2_ping_answers_empty_result
    zod_message (net : network) request body st :
  json request = Normal body ->
  is_request body (lit "ping") ->
  field body (lit "id") = VUndefined \/ json_data (field body (lit "id")) ->
  exists text,
    Conformant.handleRequest zod_message net request st
      = (Normal (mkResponse 200 json_headers (Some text)), st)
    /\ JSON_parse text
       = Some (result_message (field body (lit "id")) (VObj [])).
Proof.
  intros Hj (Hn & Hv & Hm) Hid.
  destruct (@result_response_decodes (field body (lit "id")) (VObj []) Hid)
    as (text & Ht & Hp); [split; [reflexivity|exact I]|].
  exists text. split; [|exact Hp].
  rewrite (handleRequest_dispatch zod_message net st Hj Hn Hv). cbv zeta.
  rewrite Hm. destruct method_strings as (_ & -> & -> & _).
  rewrite strict_eq_str_refl, <- Ht. reflexivity.
Qed.

(** X3. An [initialize] request of version 2.0 sets the flag and is answered
    with a response of status 200 whose body reads back as the result
    message with the protocol version ["2024-11-05"] and with the
    capabilities [{tools: {}}] and the identity [{name: "zerank-mcp",
    version: "0.1.0"}], the ones the stdio server is built with; no outbound
    call is made. *)
Theorem X3_initialize_declares_the_server
    zod_message (net : network) request body st :
  json request = Normal body ->
  is_request body (lit "initialize") ->
  field body (lit "id") = VUndefined \/ json_data (field body (lit "id")) ->
  exists text,
    Conformant.handleRequest zod_message net request st
      = (Normal (mkResponse 200 json_headers (Some text)),
         Conformant.mkState true (Conformant.outbound st))
    /\ JSON_parse text
       = Some (result_message (field body (lit "id"))
                 (VObj [ (lit "protocolVersion", VStr (lit "2024-11-05"));
                         (lit "capabilities", Stdio.capabilities);
                         (lit "serverInfo", Stdio.serverInfo) ])).
Proof.
  intros Hj Hreq Hid.
  destruct (result_response_decodes Hid json_data_initialize_result)
    as (text & Ht & Hp).
  exists text. split; [|exact Hp].
  rewrite (handleRequest_initialize zod_message net st Hj Hreq), <- Ht.
  reflexivity.
Qed.

(** X4. The [initialized] notification of version 2.0 is answered with the
    response of status 204 that has no body and no header, and the state is
    left as it was; no other request is answered with the status 204. *)
Theorem X4_no_content_answers_the_notification
    zod_message (net : network) request st :
  ((exists body,
      json request = Normal body /\ is_request body (lit "initialized")) ->
   Conformant.handleRequest zod_message net request st
     = (Normal (mkResponse 204 [] None), st))
  /\ (forall r,
        fst (Conformant.handleRequest zod_message net request st) = Normal r ->
        status r = 204%N ->
        exists body,
          json request = Normal body /\ is_request body (lit "initialized")).
Proof.
  split.
  - intros (body & Hj & Hn & Hv & Hm).
    rewrite (handleRequest_dispatch zod_message net st Hj Hn Hv). cbv zeta.
    rewrite Hm. destruct method_strings as (-> & _).
    now rewrite strict_eq_str_refl.
  - intros r Hr Hs.
    destruct (handleRequest_reaches_dispatch zod_message net request st)
      as [(body & Hj & Hn & Hv)|(_ & code & msg & id & H & _)].
    2:{ rewrite H in Hr. injection Hr as <-. discriminate. }
    exists body. split; [exact Hj|]. split; [exact Hn|]. split; [exact Hv|].
    rewrite (handleRequest_dispatch zod_message net st Hj Hn Hv) in Hr.
    cbv zeta in Hr.
    destruct (strict_eq_str _ (lit "initialize"));
      [injection Hr as <-; discriminate|].
    destruct (strict_eq_str _ (lit "initialized")) eqn:Em;
      [now apply strict_eq_str_true in Em|].
    destruct (strict_eq_str _ (lit "ping"));
      [injection Hr as <-; discriminate|].
    destruct (strict_eq_str _ (lit "tools/list"));
      [injection Hr as <-; discriminate|].
    destruct (strict_eq_str _ (lit "tools/call"));
      [|injection Hr as <-; discriminate].
    apply callTool_answer in Hr as [(x & ->)|[(x & ->)|(x & ->)]];
      discriminate.
Qed.

(** X5. The three entry points list the same tools, one tool whose name is
    [get_reranking]: the stdio handler returns [{tools: [descriptor]}], and
    a [tools/list] request is answered, in any state, by the
    protocol-conformant worker (for the version 2.0) with the result message
    that carries this list and the [id] of the request, and by the minimal
    worker (whatever the version) with the same message without [id]. *)
Theorem X5_tools_list_has_one_tool zod_message (net : network) request body :
  json request = Normal body ->
  nullish body = false ->
  field body (lit "method") = VStr (lit "tools/list") ->
  field body (lit "id") = VUndefined \/ json_data (field body (lit "id")) ->
  (exists tool,
     Stdio.listToolsHandler = VObj [(lit "tools", VArr [tool])]
     /\ field tool (lit "name") = VStr (lit "get_reranking"))
  /\ (forall st,
        field body (lit "jsonrpc") = VStr (lit "2.0") ->
        exists text,
          Conformant.handleRequest zod_message net request st
            = (Normal (mkResponse 200 json_headers (Some text)), st)
          /\ JSON_parse text
             = Some (result_message (field body (lit "id"))
                       Stdio.listToolsHandler))
  /\ (forall t,
        exists text,
          Minimal.handleRequest zod_message net request t
            = (Normal (mkResponse 200 json_headers (Some text)), t)
          /\ JSON_parse text
             = Some (result_message VUndefined Stdio.listToolsHandler)).
Proof.
  intros Hj Hn Hm Hid. split; [|split].
  - exists tool_descriptor. split; [reflexivity|exact listed_tool_name].
  - intros st Hv.
    destruct (result_response_decodes Hid json_data_tools_list)
      as (text & Ht & Hp).
    exists text. split; [|exact Hp].
    rewrite (handleRequest_dispatch zod_message net st Hj Hn Hv). cbv zeta.
    rewrite Hm. destruct method_strings as (_ & _ & _ & -> & -> & ->).
    rewrite strict_eq_str_refl, <- Ht. reflexivity.
  - intros t.
    destruct (@result_response_decodes VUndefined _ (or_introl eq_refl)
                json_data_tools_list) as (text & Ht & Hp).
    exists text. split; [|exact Hp].
    rewrite (minimal_handleRequest_dispatch zod_message net t Hj Hn), Hm.
    rewrite strict_eq_str_refl, <- Ht.
    unfold Minimal.listTools, result_response, Stdio.listToolsHandler.
    do 2 f_equal.
Qed.

(** X6. Every response of the protocol-conformant worker has one of three
    shapes: the response of status 204 without body; a response of status
    200 whose body is a result message with the [id] of the request; a
    response of status 500 whose body is a JSON-RPC error with one of the
    codes -32700, -32600, -32601, -32602 (never the default -32603) and
    with [null] or the [id] of the request. *)
Theorem X6_response_has_one_of_three_shapes
    zod_message (net : network) request st r :
  fst (Conformant.handleRequest zod_message net request st) = Normal r ->
  r = mkResponse 204 [] None
  \/ (exists body result,
        json request = Normal body
        /\ r = result_response (field body (lit "id")) result)
  \/ (exists code msg,
        In code [-32700; -32600; -32601; -32602]
        /\ (r = error_response code msg VNull
            \/ exists body,
                 json request = Normal body
                 /\ r = error_response code msg
                          (id_or_null (field body (lit "id"))))).
Proof.
  destruct (json request) as [body|e] eqn:Hj.
  2:{ rewrite (handleRequest_unreadable zod_message net st Hj). cbn [fst].
      intros H. injection H as <-. right. right.
      exists (-32700), (err_message e). split; [simpl; tauto|now left]. }
  destruct (nullish body) eqn:Hn.
  { destruct (handleRequest_nullish zod_message net st Hj Hn) as (e & _ & ->).
    cbn [fst]. intros H. injection H as <-. right. right.
    exists (-32700), (err_message e). split; [simpl; tauto|now left]. }
  destruct (strict_eq_str (field body (lit "jsonrpc")) (lit "2.0")) eqn:Hv.
  2:{ rewrite (handleRequest_version zod_message net st Hj Hn Hv). cbn [fst].
      intros H. injection H as <-. right. right.
      exists (-32600), (lit "Invalid JSON-RPC version").
      split; [simpl; tauto|right; eauto]. }
  apply strict_eq_str_true in Hv.
  rewrite (handleRequest_dispatch zod_message net st Hj Hn Hv). cbv zeta.
  destruct (strict_eq_str _ (lit "initialize")).
  { unfold Conformant.handleInitialize, bind, modify, ret. cbn [fst].
    intros H. injection H as <-. right. left.
    exists body. eexists. split; reflexivity. }
  destruct (strict_eq_str _ (lit "initialized")).
  { cbn [fst]. intros H. injection H as <-. now left. }
  destruct (strict_eq_str _ (lit "ping")).
  { cbn [fst]. intros H. injection H as <-. right. left.
    exists body, (VObj []). split; reflexivity. }
  destruct (strict_eq_str _ (lit "tools/list")).
  { cbn [fst]. intros H. injection H as <-. right. left.
    exists body, (VObj [(lit "tools", VArr [tool_descriptor])]).
    split; reflexivity. }
  destruct (strict_eq_str _ (lit "tools/call")).
  - intros H. apply callTool_answer in H as [(resp & ->)|[(m & ->)|(m & ->)]].
    + right. left. eauto.
    + right. right. exists (-32602), m. split; [simpl; tauto|right; eauto].
    + right. right. exists (-32601), m. split; [simpl; tauto|right; eauto].
  - cbn [fst]. intros H. injection H as <-. right. right.
    exists (-32601), (lit "Unknown method").
    split; [simpl; tauto|right; eauto].
Qed.

(** X7. [createErrorResponse] answers with the status 500 and a body that
    is a JSON text: it reads back as [{jsonrpc: "2.0", error: {code,
    message}, id}] with the message as given, code unit for code unit, and
    the [id] as given, [null] standing for an [id] left out (and for no
    other, so an [id] of 0 is kept); the minimal worker's has the fixed
    code -32603. *)
Theorem X7_error_responses_decode (message : jsstring) (id : value) (code : Z) :
  id = VUndefined \/ json_data id ->
  (exists text,
     Conformant.createErrorResponse message id code
       = mkResponse 500 json_headers (Some text)
     /\ JSON_parse text = Some (jsonrpc_error code message (id_or_null id)))
  /\ (exists text,
        Minimal.createErrorResponse message id
          = mkResponse 500 json_headers (Some text)
        /\ JSON_parse text
           = Some (jsonrpc_error (-32603) message (id_or_null id))).
Proof.
  intros Hid. split.
  - exact (error_response_text code message Hid).
  - exact (error_response_text (-32603) message Hid).
Qed.

(** X8. The flag [initialized] is set after a request exactly when it was
    set before or the request is an [initialize] request of version 2.0:
    nothing else sets it, and nothing clears it. *)
Theorem X8_flag_set_only_by_initialize
    zod_message (net : network) request st :
  Conformant.initialized
    (snd (Conformant.handleRequest zod_message net request st)) = true
  <-> Conformant.initialized st = true
      \/ exists body,
           json request = Normal body /\ is_request body (lit "initialize").
Proof.
  destruct (handleRequest_reaches_dispatch zod_message net request st)
    as [(body & Hj & Hn & Hv)|(Hno & code & msg & id & -> & _)].
  2:{ cbn [snd]. split; [now left|]. intros [H|(body & Hj & Hb & Hv & _)];
        [exact H|]. exfalso. exact (Hno body Hj Hb Hv). }
  rewrite (handleRequest_dispatch zod_message net st Hj Hn Hv). cbv zeta.
  destruct (strict_eq_str _ (lit "initialize")) eqn:Em.
  { apply strict_eq_str_true in Em. split; [|reflexivity].
    intros _. right. exists body. repeat split; assumption. }
  assert (forall st',
            Conformant.initialized st' = Conformant.initialized st ->
            Conformant.initialized st' = true
            <-> Conformant.initialized st = true
                \/ exists body,
                     json request = Normal body
                     /\ is_request body (lit "initialize")) as Hsame.
  { intros st' ->. split; [now left|].
    intros [H|(b & Hb & _ & _ & Hm)]; [exact H|].
    rewrite Hj in Hb. injection Hb as <-. rewrite Hm in Em.
    now rewrite strict_eq_str_refl in Em. }
  destruct (strict_eq_str _ (lit "initialized")); [now apply Hsame|].
  destruct (strict_eq_str _ (lit "ping")); [now apply Hsame|].
  destruct (strict_eq_str _ (lit "tools/list")); [now apply Hsame|].
  destruct (strict_eq_str _ (lit "tools/call")); [|now apply Hsame].
  apply Hsame, callTool_keeps_flag.
Qed.

(** X9. The protocol-conformant worker calls the upstream only when the
    request is a [tools/call] of [get_reranking] (version 2.0) whose
    arguments the validation accepts, and then once, with those arguments:
    after any request the outbound calls are the ones made before, or those
    followed by the one call of the validated invocation. *)
Theorem X9_upstream_called_only_when_valid
    zod_message (net : network) request st :
  Conformant.outbound
    (snd (Conformant.handleRequest zod_message net request st))
  = Conformant.outbound st
  \/ exists body args query documents api_key,
       json request = Normal body
       /\ is_tools_call body (VStr (lit "get_reranking")) args
       /\ RerankRequest_ok args query documents api_key
       /\ Conformant.outbound
            (snd (Conformant.handleRequest zod_message net request st))
          = Conformant.outbound st ++ [rerank_call query documents api_key].
Proof.
  destruct (handleRequest_reaches_dispatch zod_message net request st)
    as [(body & Hj & Hn & Hv)|(_ & code & msg & id & -> & _)]; [|now left].
  rewrite (handleRequest_dispatch zod_message net st Hj Hn Hv). cbv zeta.
  destruct (strict_eq_str _ (lit "initialize")); [now left|].
  destruct (strict_eq_str _ (lit "initialized")); [now left|].
  destruct (strict_eq_str _ (lit "ping")); [now left|].
  destruct (strict_eq_str _ (lit "tools/list")); [now left|].
  destruct (strict_eq_str _ (lit "tools/call")) eqn:Em; [|now left].
  apply strict_eq_str_true in Em.
  destruct (callTool_outbound zod_message net (field body (lit "params"))
              (field body (lit "id")) st)
    as [->|(q & d & k & Hp & Hname & Hok & ->)]; [now left|].
  right.
  exists body, (field (field body (lit "params")) (lit "arguments")), q, d, k.
  split; [exact Hj|]. split; [repeat split; assumption|].
  split; [exact Hok|reflexivity].
Qed.

(** X10. [handleRequest] of the protocol-conformant worker raises exactly on
    a [tools/call] request of version 2.0 whose [params] are missing or
    [null], or whose tool name is not [get_reranking] and has no string
    form; on every other request it returns a response. *)
Theorem X10_handleRequest_raises_only_on_tools_call
    zod_message (net : network) request st :
  (exists e, fst (Conformant.handleRequest zod_message net request st) = Throw e)
  <-> exists body,
        json request = Normal body
        /\ is_request body (lit "tools/call")
        /\ (nullish (field body (lit "params")) = true
            \/ (strict_eq_str (field (field body (lit "params")) (lit "name"))
                  (lit "get_reranking") = false
                /\ exists e,
                     ToString (field (field body (lit "params")) (lit "name"))
                     = Throw e)).
Proof.
  split.
  - intros [e He].
    destruct (handleRequest_reaches_dispatch zod_message net request st)
      as [(body & Hj & Hn & Hv)|(_ & code & msg & id & Hr & _)];
      [|rewrite Hr in He; discriminate].
    rewrite (handleRequest_dispatch zod_message net st Hj Hn Hv) in He.
    cbv zeta in He.
    destruct (strict_eq_str _ (lit "initialize")); [discriminate|].
    destruct (strict_eq_str _ (lit "initialized")); [discriminate|].
    destruct (strict_eq_str _ (lit "ping")); [discriminate|].
    destruct (strict_eq_str _ (lit "tools/list")); [discriminate|].
    destruct (strict_eq_str _ (lit "tools/call")) eqn:Em; [|discriminate].
    apply strict_eq_str_true in Em.
    exists body. split; [exact Hj|]. split; [repeat split; assumption|].
    destruct (nullish (field body (lit "params"))) eqn:Hp; [now left|right].
    destruct (strict_eq_str (field (field body (lit "params")) (lit "name"))
                (lit "get_reranking")) eqn:Hname.
    + apply strict_eq_str_true in Hname. exfalso.
      destruct (RerankRequestSchema
                  (field (field body (lit "params")) (lit "arguments")))
        as [out|] eqn:Hs.
      * apply RerankRequestSchema_accepted in Hs as (q & d & k & Hok).
        rewrite (callTool_accepts zod_message net _ st Hp Hname Hok) in He.
        discriminate.
      * rewrite (callTool_rejects zod_message net _ st Hp Hname Hs) in He.
        discriminate.
    + split; [reflexivity|].
      destruct (ToString (field (field body (lit "params")) (lit "name")))
        as [shown|e'] eqn:Hs; [|now exists e'].
      rewrite (callTool_unknown zod_message net _ st Hp Hname Hs) in He.
      discriminate.
  - intros (body & Hj & Hreq & Hcase).
    rewrite (handleRequest_tools_call zod_message net st Hj Hreq).
    destruct Hcase as [Hp|(Hname & e & Hs)].
    + destruct (callTool_without_params zod_message net (field body (lit "id"))
                  st Hp) as (e & -> & _). now exists e.
    + destruct (nullish (field body (lit "params"))) eqn:Hp.
      * destruct (callTool_without_params zod_message net
                    (field body (lit "id")) st Hp) as (e' & -> & _).
        now exists e'.
      * exists e.
        now rewrite (callTool_unnameable zod_message net _ st Hp Hname Hs).
Qed.

(** X11. The entry point of each worker always answers: with the response
    of [handleRequest] when it returns one, and, when it raises, with a
    response of status 500 whose body reads back as [{error: "Worker
    error: " + message}]; the state is the one [handleRequest] leaves. *)
Theorem X11_worker_entry_always_answers zod_message (net : network) request :
  guards (Conformant.worker_fetch zod_message net request)
    (Conformant.handleRequest zod_message net request)
  /\ guards (Minimal.worker_fetch zod_message net request)
       (Minimal.handleRequest zod_message net request).
Proof.
  split; intros s.
  - unfold Conformant.worker_fetch, Conformant.fetch, try_catch, ret.
    destruct (Conformant.handleRequest zod_message net request s)
      as [[r|e] s'].
    + exists r. split; [reflexivity|]. split; [|discriminate].
      intros r' H. now injection H.
    + destruct (stringify_error_object (lit "Worker error: " ++ err_message e))
        as (text & Ht & Hp).
      eexists. split; [reflexivity|]. split; [discriminate|].
      intros e' H. injection H as <-. exists text. now rewrite Ht.
  - unfold Minimal.worker_fetch, Minimal.fetch, try_catch, ret.
    destruct (Minimal.handleRequest zod_message net request s) as [[r|e] s'].
    + exists r. split; [reflexivity|]. split; [|discriminate].
      intros r' H. now injection H.
    + destruct (stringify_error_object (lit "Worker error: " ++ err_message e))
        as (text & Ht & Hp).
      eexists. split; [reflexivity|]. split; [discriminate|].
      intros e' H. injection H as <-. exists text. now rewrite Ht.
Qed.

(** X12. A session: when an [initialize] request has been handled, a [ping]
    request is answered with the empty result and its own [id], the flag is
    set, and the outbound calls are those made before the two requests. *)
Theorem X12_initialize_then_ping
    zod_message (net : network) first second body body' st :
  json first = Normal body ->
  is_request body (lit "initialize") ->
  json second = Normal body' ->
  is_request body' (lit "ping") ->
  Conformant.handleRequest zod_message net second
    (snd (Conformant.handleRequest zod_message net first st))
  = (Normal (result_response (field body' (lit "id")) (VObj [])),
     Conformant.mkState true (Conformant.outbound st)).
Proof.
  intros Hj Hreq Hj' (Hn' & Hv' & Hm').
  rewrite (handleRequest_initialize zod_message net st Hj Hreq). cbn [snd].
  rewrite (handleRequest_dispatch zod_message net _ Hj' Hn' Hv'). cbv zeta.
  rewrite Hm'. destruct method_strings as (_ & -> & -> & _).
  now rewrite strict_eq_str_refl.
Qed.

(* ================================================================== *)
(** ** Further properties of the validation and of the client *)

(** X13. [RerankRequestSchema] accepts exactly the arguments that meet the
    RerankRequest constraints, and its output is the object with the three
    fields [query], [documents] and [api_key], in this order, and no other:
    the other properties of the arguments are stripped. *)
Theorem X13_RerankRequestSchema_exactly (args out : value) :
  RerankRequestSchema args = Some out
  <-> exists query documents api_key,
        RerankRequest_ok args query documents api_key
        /\ out = validated_args query documents api_key.
Proof.
  split.
  - intros H. destruct (RerankRequestSchema_accepted H) as (q & d & k & Hok).
    exists q, d, k. split; [exact Hok|].
    rewrite (RerankRequestSchema_accepts Hok) in H. now injection H.
  - intros (q & d & k & Hok & ->). now apply RerankRequestSchema_accepts.
Qed.

(** X14. The check [docs.every(doc => doc.trim().length > 0)] holds of an
    array of strings exactly when every document has a code unit that is
    not white space: the documents it refuses are those made of white space
    and line terminators only, the empty document among them. *)
Theorem X14_blank_documents_are_white_space (docs : list jsstring) :
  every_nonblank (List.map VStr docs) = true
  <-> Forall (fun d => Exists (fun c => is_white_space c = false) d) docs.
Proof.
  assert (forall d, trim d <> []
                    <-> Exists (fun c => is_white_space c = false) d) as Hd.
  { intros d. rewrite trim_blank. split.
    - intros H. apply neg_Forall_Exists_neg in H.
      + eapply Exists_impl; [|exact H]. intros c Hc. cbv beta in Hc.
        destruct (is_white_space c); [now elim Hc|reflexivity].
      + intros c. destruct (is_white_space c); [now left|right; discriminate].
    - intros He Hf. apply Exists_exists in He as (c & Hin & Hc).
      rewrite Forall_forall in Hf. specialize (Hf c Hin). congruence. }
  rewrite every_nonblank_strings, !Forall_forall.
  split; intros H d Hin; apply Hd, H, Hin.
Qed.

(** X15. The validation enforces the bounds the tool descriptor advertises
    ([minLength] and [maxLength] of [query], [minItems] and [maxItems] of
    [documents], [minLength] of [api_key]), lengths counted in code units,
    and one constraint the descriptor does not advertise: no document is
    blank. *)
Theorem X15_advertised_bounds_are_enforced (args : value) :
  RerankRequestSchema args <> None
  <-> exists query documents api_key,
        field args (lit "query") = VStr query
        /\ field args (lit "documents") = VArr (List.map VStr documents)
        /\ field args (lit "api_key") = VStr api_key
        /\ within (advertised (lit "query") (lit "minLength"))
             (advertised (lit "query") (lit "maxLength")) (js_length query)
        /\ within (advertised (lit "documents") (lit "minItems"))
             (advertised (lit "documents") (lit "maxItems"))
             (N.of_nat (List.length documents))
        /\ within (advertised (lit "api_key") (lit "minLength"))
             (advertised (lit "api_key") (lit "maxLength")) (js_length api_key)
        /\ Forall (fun d => trim d <> []) documents.
Proof.
  destruct advertised_bounds as (-> & -> & -> & -> & -> & ->).
  split.
  - intros H. destruct (RerankRequestSchema args) as [out|] eqn:E;
      [|contradiction].
    apply RerankRequestSchema_accepted in E
      as (q & d & k & Hq & Hd & Hk & Bq & Bd & Fd & Bk).
    exists q, d, k. rewrite !within_bounds, within_lower.
    repeat split; try assumption; lia.
  - intros (q & d & k & Hq & Hd & Hk & Bq & Bd & Bk & Fd).
    rewrite within_bounds in Bq, Bd. rewrite within_lower in Bk.
    rewrite (@RerankRequestSchema_accepts args q d k); [discriminate|].
    repeat split; try assumption; lia.
Qed.

(** X16. What the rerank client returns has passed the validation of the
    response: when [makeRerankRequest] returns a value, the upstream has
    answered with a success status and a body whose [results] are 1 to 1000
    elements within the RerankResult bounds, and the value is [{results:
    [{index, relevance_score}, ...]}] with their indexes and scores in
    order, and nothing else of the body. *)
Theorem X16_client_returns_validated_results
    zod_message (net : network) (query documents : value) (api_key : jsstring)
    (t : trace) (v : value) :
  fst (makeRerankRequest zod_message net query documents (VStr api_key) t)
    = Normal v ->
  exists upstream result rs,
    net t (outbound_call query documents api_key) = Normal upstream
    /\ up_ok upstream = true
    /\ up_json upstream = Normal result
    /\ RerankResponse_ok result rs
    /\ v = rerank_response rs.
Proof.
  rewrite makeRerankRequest_eq. cbn [fst]. unfold client_outcome.
  destruct (net t _) as [upstream|e]; [|discriminate].
  destruct (up_ok upstream) eqn:Hok; [|discriminate].
  destruct (up_json upstream) as [result|e] eqn:Hjson; [|discriminate].
  destruct (read_results zod_message result) as [v'|e] eqn:Hr; [|discriminate].
  intros H. injection H as <-.
  apply read_results_accepted in Hr as (rs & Hrs & ->).
  exists upstream, result, rs. auto.
Qed.

(** X17. The body of the outbound call is a JSON text that reads back as
    the object with the two members [query] and [documents], equal to the
    inputs code unit for code unit; the key is in the [Authorization] header
    and not in the body. *)
Theorem X17_outbound_body_decodes
    zod_message (net : network) (query : jsstring) (documents : list jsstring)
    (api_key : jsstring) (t : trace) :
  exists text,
    snd (makeRerankRequest zod_message net (VStr query)
           (VArr (List.map VStr documents)) (VStr api_key) t)
    = t ++ [ mkHttpRequest ZERANK_API_BASE (lit "POST")
               [ (lit "Authorization", lit "Bearer " ++ api_key);
                 (lit "Content-Type", lit "application/json") ]
               (Some text) ]
    /\ JSON_parse text
       = Some (VObj [ (lit "query", VStr query);
                      (lit "documents", VArr (List.map VStr documents)) ]).
Proof.
  assert (json_data (VObj [ (lit "query", VStr query);
                            (lit "documents", VArr (List.map VStr documents)) ]))
    as Hd.
  { apply json_data_obj. split; [reflexivity|].
    repeat constructor. apply json_data_strings. }
  destruct (stringify_decodes Hd) as (text & Ht & Hp).
  exists text. split; [|exact Hp].
  rewrite makeRerankRequest_eq. cbn [snd]. unfold outbound_call.
  now rewrite Ht.
Qed.

(** X18. The response to a successful call, decoded twice: its body reads
    back as the result message with the [id] of the request and one text
    content, and the text of that content reads back as the reranked
    results. *)
Theorem X18_tools_call_response_decodes
    zod_message (net : network) request body args query documents api_key
    st upstream result rs :
  json request = Normal body ->
  is_tools_call body (VStr (lit "get_reranking")) args ->
  field body (lit "id") = VUndefined \/ json_data (field body (lit "id")) ->
  RerankRequest_ok args query documents api_key ->
  net (Conformant.outbound st) (rerank_call query documents api_key)
    = Normal upstream ->
  up_ok upstream = true ->
  up_json upstream = Normal result ->
  RerankResponse_ok result rs ->
  exists wire text,
    fst (Conformant.handleRequest zod_message net request st)
      = Normal (mkResponse 200 json_headers (Some wire))
    /\ JSON_parse wire
       = Some (result_message (field body (lit "id"))
                 (VObj [ (lit "content",
                           VArr [ VObj [ (lit "type", VStr (lit "text"));
                                         (lit "text", VStr text) ] ]) ]))
    /\ JSON_parse text = Some (rerank_response rs).
Proof.
  intros Hj (Hreq & _ & Hn & Hname & Hargs) Hid Hok Hnet Hup Hjson Hres.
  subst args.
  destruct (response_text_parses rs) as (text & Htext & Hparse).
  destruct (result_response_decodes Hid (json_data_tool_result text))
    as (wire & Hw & Hp).
  exists wire, text. split; [|split; [exact Hp|exact Hparse]].
  rewrite (handleRequest_tools_call zod_message net st Hj Hreq).
  rewrite (callTool_accepts zod_message net _ st Hn Hname Hok), Hnet.
  unfold client_outcome.
  rewrite Hup, Hjson, (read_results_accepts zod_message Hres).
  unfold tool_result. rewrite Htext. cbn [fst string_or_undefined].
  now rewrite <- Hw.
Qed.

(* ================================================================== *)
(** ** Further properties across the entry points *)

(** X19. The three entry points run the same call of [get_reranking]: for
    the same [params] and the same network they make the same outbound
    calls and reach the same outcome, which each puts in its own envelope
    (a result message with [id], one without, a tool result; an error of
    code -32602, one of code -32603, a tool result with [isError]). *)
Theorem X19_entry_points_agree zod_message (net : network) params id st :
  nullish params = false ->
  field params (lit "name") = VStr (lit "get_reranking") ->
  exists (outcome : completion value) (t' : trace),
    Conformant.callTool zod_message net params id st
      = (Normal match outcome with
                | Normal response => result_response id (tool_result response)
                | Throw e =>
                    error_response (-32602) (err_message e) (id_or_null id)
                end,
         Conformant.mkState (Conformant.initialized st) t')
    /\ Minimal.callTool zod_message net params (Conformant.outbound st)
       = (Normal match outcome with
                 | Normal response =>
                     anonymous_result_response (tool_result response)
                 | Throw e => error_response (-32603) (err_message e) VNull
                 end, t')
    /\ Stdio.callToolHandler zod_message net (VObj [(lit "params", params)])
         (Conformant.outbound st)
       = (Normal match outcome with
                 | Normal response => tool_result response
                 | Throw e => tool_error (err_message e)
                 end, t').
Proof.
  intros Hn Hname.
  assert (nullish (VObj [(lit "params", params)]) = false) as Hr by reflexivity.
  assert (field (VObj [(lit "params", params)]) (lit "params") = params) as Hp
    by reflexivity.
  destruct (RerankRequestSchema (field params (lit "arguments")))
    as [out|] eqn:Hs.
  - apply RerankRequestSchema_accepted in Hs as (q & d & k & Hok).
    exists (client_outcome zod_message
              (net (Conformant.outbound st) (rerank_call q d k))),
      (Conformant.outbound st ++ [rerank_call q d k]).
    rewrite (callTool_accepts zod_message net id st Hn Hname Hok).
    rewrite (minimal_callTool_accepts zod_message net _ Hn Hname Hok).
    rewrite (@stdio_handler_accepts zod_message net _ (Conformant.outbound st)
               q d k Hr); rewrite ?Hp; try assumption.
    destruct (client_outcome _ _); repeat split.
  - exists (Throw (ZodError (zod_message RerankRequestSchema
                               (field params (lit "arguments"))))),
      (Conformant.outbound st).
    rewrite (callTool_rejects zod_message net id st Hn Hname Hs).
    rewrite (minimal_callTool_rejects zod_message net _ Hn Hname Hs).
    rewrite (@stdio_handler_rejects zod_message net _ (Conformant.outbound st)
               Hr); rewrite ?Hp; try assumption.
    destruct st. repeat split.
Qed.

(** X20. The minimal worker knows two methods: a request whose method is
    neither [tools/list] nor [tools/call] ([initialize] and [ping] among
    them) or that has none is answered with the JSON-RPC error of the
    worker's one code, -32603, with the [id] of the request, [null] when it
    has none, and no outbound call is made.  The message is ["Unknown
    method"]; for the body [null], which has no member to read, it is the
    message of the [TypeError] that reading [body.method] throws. *)
Theorem X20_minimal_worker_knows_two_methods
    zod_message (net : network) request body t :
  json request = Normal body ->
  field body (lit "method") <> VStr (lit "tools/list") ->
  field body (lit "method") <> VStr (lit "tools/call") ->
  Minimal.handleRequest zod_message net request t
    = (Normal (error_response (-32603)
                 match Get body (lit "method") with
                 | Normal _ => lit "Unknown method"
                 | Throw e => err_message e
                 end
                 (id_or_null (field body (lit "id")))), t).
Proof.
  intros Hj H1 H2.
  destruct (nullish body) eqn:Hn.
  - unfold Minimal.handleRequest, settle, try_catch, bind, eval, ret.
    rewrite Hj. destruct body; try discriminate; reflexivity.
  - rewrite (minimal_handleRequest_dispatch zod_message net t Hj Hn).
    rewrite (Get_field _ Hn).
    now rewrite !not_the_method by assumption.
Qed.

(** X21. The answer of the minimal worker depends only on what reading the
    [method], the [params] and the [id] of the body gives (a value, or the
    [TypeError] that reading a member of [null] throws): two requests on
    which these three reads agree get the same response and leave the same
    state, whatever else their bodies hold, the [jsonrpc] member among it;
    there is no version check. *)
Theorem X21_minimal_worker_reads_three_fields
    zod_message (net : network) request request' body body' t :
  json request = Normal body ->
  json request' = Normal body' ->
  Get body (lit "method") = Get body' (lit "method") ->
  Get body (lit "params") = Get body' (lit "params") ->
  Get body (lit "id") = Get body' (lit "id") ->
  Minimal.handleRequest zod_message net request t
    = Minimal.handleRequest zod_message net request' t.
Proof.
  intros Hj Hj' Hm Hp Hi.
  unfold Minimal.handleRequest, settle, try_catch, bind, eval, ret.
  now rewrite Hj, Hj', Hm, Hp, Hi.
Qed.

(* ================================================================== *)
(** ** What a failure leaves behind, and what the client does not check *)

(** X22. A request that the protocol-conformant worker answers with an
    error (a response of status 500) leaves the flag [initialized] as it
    was. *)
Theorem X22_errors_leave_the_flag
    zod_message (net : network) request st r :
  fst (Conformant.handleRequest zod_message net request st) = Normal r ->
  status r = 500%N ->
  Conformant.initialized
    (snd (Conformant.handleRequest zod_message net request st))
  = Conformant.initialized st.
Proof.
  destruct (handleRequest_reaches_dispatch zod_message net request st)
    as [(body & Hj & Hn & Hv)|(_ & code & msg & id & -> & _)];
    [|reflexivity].
  rewrite (handleRequest_dispatch zod_message net st Hj Hn Hv). cbv zeta.
  destruct (strict_eq_str _ (lit "initialize")).
  { unfold Conformant.handleInitialize, bind, modify, ret. cbn [fst].
    intros H. injection H as <-. discriminate. }
  destruct (strict_eq_str _ (lit "initialized")); [reflexivity|].
  destruct (strict_eq_str _ (lit "ping")); [reflexivity|].
  destruct (strict_eq_str _ (lit "tools/list")); [reflexivity|].
  destruct (strict_eq_str _ (lit "tools/call")); [|reflexivity].
  intros _ _. apply callTool_keeps_flag.
Qed.

(** X23. The rerank client does not check the results against the request:
    its outcome is the same for two invocations that the network answers
    alike, whatever their queries, documents and keys, so neither the
    number of results nor their indexes are compared with the documents
    sent. *)
Theorem X23_results_are_not_checked_against_request
    zod_message (net : network) query documents api_key t
    query' documents' api_key' t' :
  net t (outbound_call query documents api_key)
    = net t' (outbound_call query' documents' api_key') ->
  fst (makeRerankRequest zod_message net query documents (VStr api_key) t)
  = fst (makeRerankRequest zod_message net query' documents' (VStr api_key') t').
Proof.
  intros H. rewrite !makeRerankRequest_eq. cbn [fst]. now rewrite H.
Qed.

(* ================================================================== *)
(** ** The further properties on the sample inputs *)

Local Transparent lit JSON_stringify JSON_stringify_indent N_toString
  Number_toString.

(** X1 on a request for the method [resources/list]. *)
Lemma X1_witness :
  Conformant.handleRequest sample_zod_message
    (sample_network 200 sample_upstream_body)
    (mkRequest (Normal (sample_request 7 (lit "resources/list"))))
    Conformant.constructor
  = (Normal (error_response (-32601) (lit "Unknown method") (VNum (num_of_Z 7))),
     Conformant.constructor).
Proof.
  refine (@X1_unknown_method_is_not_found sample_zod_message
            (sample_network 200 sample_upstream_body)
            (mkRequest (Normal (sample_request 7 (lit "resources/list"))))
            _ Conformant.constructor eq_refl eq_refl eq_refl _).
  intros m Hm E. vm_compute in Hm, E.
  destruct Hm as [<-|[<-|[<-|[<-|[<-|[]]]]]]; discriminate E.
Defined.

(** X2 on a [ping] with the [id] 7. *)
Lemma X2_witness :
  exists text,
    Conformant.handleRequest sample_zod_message
      (sample_network 200 sample_upstream_body)
      (mkRequest (Normal (sample_request 7 (lit "ping"))))
      Conformant.constructor
    = (Normal (mkResponse 200 json_headers (Some text)), Conformant.constructor)
    /\ JSON_parse text
       = Some (VObj [ (lit "jsonrpc", VStr (lit "2.0"));
                      (lit "id", VNum (num_of_Z 7));
                      (lit "result", VObj []) ]).
Proof.
  exact (@X2_ping_answers_empty_result sample_zod_message
           (sample_network 200 sample_upstream_body)
           (mkRequest (Normal (sample_request 7 (lit "ping"))))
           _ Conformant.constructor eq_refl
           (conj eq_refl (conj eq_refl eq_refl)) (or_intror I)).
Defined.

(** X3 on an [initialize] with the [id] 1, to a fresh server. *)
Lemma X3_witness :
  exists text,
    Conformant.handleRequest sample_zod_message
      (sample_network 200 sample_upstream_body)
      (mkRequest (Normal (sample_request 1 (lit "initialize"))))
      Conformant.constructor
    = (Normal (mkResponse 200 json_headers (Some text)),
       Conformant.mkState true [])
    /\ JSON_parse text
       = Some (VObj [ (lit "jsonrpc", VStr (lit "2.0"));
                      (lit "id", VNum (num_of_Z 1));
                      (lit "result",
                        VObj [ (lit "protocolVersion", VStr (lit "2024-11-05"));
                               (lit "capabilities", Stdio.capabilities);
                               (lit "serverInfo", Stdio.serverInfo) ]) ]).
Proof.
  exact (@X3_initialize_declares_the_server sample_zod_message
           (sample_network 200 sample_upstream_body)
           (mkRequest (Normal (sample_request 1 (lit "initialize"))))
           _ Conformant.constructor eq_refl
           (conj eq_refl (conj eq_refl eq_refl)) (or_intror I)).
Defined.

(** X4 on the notification. *)
Lemma X4_witness :
  Conformant.handleRequest sample_zod_message
    (sample_network 200 sample_upstream_body)
    (mkRequest (Normal (VObj [ (lit "jsonrpc", VStr (lit "2.0"));
                               (lit "method", VStr (lit "initialized")) ])))
    Conformant.constructor
  = (Normal (mkResponse 204 [] None), Conformant.constructor).
Proof.
  exact (proj1 (@X4_no_content_answers_the_notification sample_zod_message
                  (sample_network 200 sample_upstream_body)
                  (mkRequest
                     (Normal (VObj [ (lit "jsonrpc", VStr (lit "2.0"));
                                     (lit "method", VStr (lit "initialized")) ])))
                  Conformant.constructor)
               (ex_intro _ _
                  (conj eq_refl (conj eq_refl (conj eq_refl eq_refl))))).
Defined.

(** X5 on a [tools/list] with the [id] 7, to a fresh server. *)
Lemma X5_witness :
  exists text,
    Conformant.handleRequest sample_zod_message
      (sample_network 200 sample_upstream_body)
      (mkRequest (Normal (sample_request 7 (lit "tools/list"))))
      Conformant.constructor
    = (Normal (mkResponse 200 json_headers (Some text)), Conformant.constructor)
    /\ JSON_parse text
       = Some (VObj [ (lit "jsonrpc", VStr (lit "2.0"));
                      (lit "id", VNum (num_of_Z 7));
                      (lit "result", Stdio.listToolsHandler) ]).
Proof.
  exact (proj1 (proj2 (@X5_tools_list_has_one_tool sample_zod_message
                         (sample_network 200 sample_upstream_body)
                         (mkRequest (Normal (sample_request 7 (lit "tools/list"))))
                         _ eq_refl eq_refl eq_refl (or_intror I)))
           Conformant.constructor eq_refl).
Defined.

(** X6 on the response to a [ping]. *)
Lemma X6_witness :
  let request := mkRequest (Normal (sample_request 7 (lit "ping"))) in
  let r := result_response (VNum (num_of_Z 7)) (VObj []) in
  r = mkResponse 204 [] None
  \/ (exists body result,
        json request = Normal body
        /\ r = result_response (field body (lit "id")) result)
  \/ (exists code msg,
        In code [-32700; -32600; -32601; -32602]
        /\ (r = error_response code msg VNull
            \/ exists body,
                 json request = Normal body
                 /\ r = error_response code msg
                          (id_or_null (field body (lit "id"))))).
Proof.
  exact (@X6_response_has_one_of_three_shapes sample_zod_message
           (sample_network 200 sample_upstream_body)
           (mkRequest (Normal (sample_request 7 (lit "ping"))))
           Conformant.constructor
           (result_response (VNum (num_of_Z 7)) (VObj [])) eq_refl).
Defined.

(** X7 on the error of an unknown method, with the [id] 0. *)
Lemma X7_witness :
  (exists text,
     Conformant.createErrorResponse (lit "Unknown method") (VNum (num_of_Z 0))
       (-32601)
       = mkResponse 500 json_headers (Some text)
     /\ JSON_parse text
        = Some (VObj [ (lit "jsonrpc", VStr (lit "2.0"));
                       (lit "error",
                         VObj [ (lit "code", VNum (num_of_Z (-32601)));
                                (lit "message", VStr (lit "Unknown method")) ]);
                       (lit "id", VNum (num_of_Z 0)) ]))
  /\ (exists text,
        Minimal.createErrorResponse (lit "Unknown method") (VNum (num_of_Z 0))
          = mkResponse 500 json_headers (Some text)
        /\ JSON_parse text
           = Some (VObj [ (lit "jsonrpc", VStr (lit "2.0"));
                          (lit "error",
                            VObj [ (lit "code", VNum (num_of_Z (-32603)));
                                   (lit "message", VStr (lit "Unknown method")) ]);
                          (lit "id", VNum (num_of_Z 0)) ])).
Proof.
  exact (@X7_error_responses_decode (lit "Unknown method") (VNum (num_of_Z 0))
           (-32601) (or_intror I)).
Defined.

(** X12 on a fresh server. *)
Lemma X12_witness :
  Conformant.handleRequest sample_zod_message
    (sample_network 200 sample_upstream_body)
    (mkRequest (Normal (sample_request 2 (lit "ping"))))
    (snd (Conformant.handleRequest sample_zod_message
            (sample_network 200 sample_upstream_body)
            (mkRequest (Normal (sample_request 1 (lit "initialize"))))
            Conformant.constructor))
  = (Normal (result_response (VNum (num_of_Z 2)) (VObj [])),
     Conformant.mkState true []).
Proof.
  exact (@X12_initialize_then_ping sample_zod_message
           (sample_network 200 sample_upstream_body)
           (mkRequest (Normal (sample_request 1 (lit "initialize"))))
           (mkRequest (Normal (sample_request 2 (lit "ping"))))
           _ _ Conformant.constructor eq_refl
           (conj eq_refl (conj eq_refl eq_refl)) eq_refl
           (conj eq_refl (conj eq_refl eq_refl))).
Defined.

(** X16 on the scenario of the specification. *)
Lemma X16_witness :
  exists upstream result rs,
    sample_network 200 sample_upstream_body []
      (outbound_call (VStr (lit "ml")) (VArr [VStr (lit "a"); VStr (lit "b")])
         (lit "k"))
    = Normal upstream
    /\ up_ok upstream = true
    /\ up_json upstream = Normal result
    /\ RerankResponse_ok result rs
    /\ rerank_response sample_scores = rerank_response rs.
Proof.
  exact (@X16_client_returns_validated_results sample_zod_message
           (sample_network 200 sample_upstream_body)
           (VStr (lit "ml")) (VArr [VStr (lit "a"); VStr (lit "b")]) (lit "k")
           [] (rerank_response sample_scores) eq_refl).
Defined.

(** X18 on the scenario of the specification. *)
Lemma X18_witness :
  exists wire text,
    fst (Conformant.handleRequest sample_zod_message
           (sample_network 200 sample_upstream_body)
           (mkRequest (Normal (sample_call 7 (lit "get_reranking") sample_args)))
           Conformant.constructor)
      = Normal (mkResponse 200 json_headers (Some wire))
    /\ JSON_parse wire
       = Some (VObj [ (lit "jsonrpc", VStr (lit "2.0"));
                      (lit "id", VNum (num_of_Z 7));
                      (lit "result",
                        VObj [ (lit "content",
                                 VArr [ VObj [ (lit "type", VStr (lit "text"));
                                               (lit "text", VStr text) ] ]) ]) ])
    /\ JSON_parse text = Some (rerank_response sample_scores).
Proof.
  exact (@X18_tools_call_response_decodes sample_zod_message
           (sample_network 200 sample_upstream_body)
           (mkRequest (Normal (sample_call 7 (lit "get_reranking") sample_args)))
           _ _ _ _ _ Conformant.constructor _ _ sample_scores eq_refl
           (sample_call_is_tools_call 7 _ _) (or_intror I) sample_args_ok
           eq_refl eq_refl eq_refl sample_upstream_body_ok).
Defined.

(** X19 on the scenario of the specification. *)
Lemma X19_witness :
  exists (outcome : completion value) (t' : trace),
    Conformant.callTool sample_zod_message
      (sample_network 200 sample_upstream_body)
      (VObj [ (lit "name", VStr (lit "get_reranking"));
              (lit "arguments", sample_args) ])
      (VNum (num_of_Z 7)) Conformant.constructor
      = (Normal match outcome with
                | Normal response =>
                    result_response (VNum (num_of_Z 7)) (tool_result response)
                | Throw e =>
                    error_response (-32602) (err_message e) (VNum (num_of_Z 7))
                end,
         Conformant.mkState false t')
    /\ Minimal.callTool sample_zod_message
         (sample_network 200 sample_upstream_body)
         (VObj [ (lit "name", VStr (lit "get_reranking"));
                 (lit "arguments", sample_args) ]) []
       = (Normal match outcome with
                 | Normal response =>
                     anonymous_result_response (tool_result response)
                 | Throw e => error_response (-32603) (err_message e) VNull
                 end, t')
    /\ Stdio.callToolHandler sample_zod_message
         (sample_network 200 sample_upstream_body)
         (VObj [ (lit "params",
                   VObj [ (lit "name", VStr (lit "get_reranking"));
                          (lit "arguments", sample_args) ]) ]) []
       = (Normal match outcome with
                 | Normal response => tool_result response
                 | Throw e => tool_error (err_message e)
                 end, t').
Proof.
  exact (@X19_entry_points_agree sample_zod_message
           (sample_network 200 sample_upstream_body)
           (VObj [ (lit "name", VStr (lit "get_reranking"));
                   (lit "arguments", sample_args) ])
           (VNum (num_of_Z 7)) Conformant.constructor eq_refl eq_refl).
Defined.

(** X20 on an [initialize] request to the minimal worker, and on the body
    [null]. *)
Lemma X20_witness :
  Minimal.handleRequest sample_zod_message
    (sample_network 200 sample_upstream_body)
    (mkRequest (Normal (sample_request 1 (lit "initialize")))) []
  = (Normal (error_response (-32603) (lit "Unknown method") (VNum (num_of_Z 1))),
     [])
  /\ Minimal.handleRequest sample_zod_message
       (sample_network 200 sample_upstream_body) (mkRequest (Normal VNull)) []
     = (Normal (error_response (-32603)
                  (lit "Cannot read properties of null (reading 'method')")
                  VNull), []).
Proof.
  split.
  - refine (@X20_minimal_worker_knows_two_methods sample_zod_message
              (sample_network 200 sample_upstream_body)
              (mkRequest (Normal (sample_request 1 (lit "initialize"))))
              _ [] eq_refl _ _);
      intros E; vm_compute in E; discriminate E.
  - refine (@X20_minimal_worker_knows_two_methods sample_zod_message
              (sample_network 200 sample_upstream_body)
              (mkRequest (Normal VNull)) _ [] eq_refl _ _);
      intros E; vm_compute in E; discriminate E.
Defined.

(** X21 on two [tools/list] requests, one of version 1.0. *)
Lemma X21_witness :
  Minimal.handleRequest sample_zod_message
    (sample_network 200 sample_upstream_body)
    (mkRequest (Normal (VObj [ (lit "jsonrpc", VStr (lit "1.0"));
                               (lit "id", VNum (num_of_Z 7));
                               (lit "method", VStr (lit "tools/list")) ]))) []
  = Minimal.handleRequest sample_zod_message
      (sample_network 200 sample_upstream_body)
      (mkRequest (Normal (sample_request 7 (lit "tools/list")))) [].
Proof.
  exact (@X21_minimal_worker_reads_three_fields sample_zod_message
           (sample_network 200 sample_upstream_body)
           (mkRequest (Normal (VObj [ (lit "jsonrpc", VStr (lit "1.0"));
                                      (lit "id", VNum (num_of_Z 7));
                                      (lit "method", VStr (lit "tools/list")) ])))
           (mkRequest (Normal (sample_request 7 (lit "tools/list"))))
           _ _ [] eq_refl eq_refl eq_refl eq_refl eq_refl).
Defined.

(** X22 on a request for the method [resources/list], to a server that has
    been initialized. *)
Lemma X22_witness :
  Conformant.initialized
    (snd (Conformant.handleRequest sample_zod_message
            (sample_network 200 sample_upstream_body)
            (mkRequest (Normal (sample_request 7 (lit "resources/list"))))
            (Conformant.mkState true [])))
  = true.
Proof.
  exact (@X22_errors_leave_the_flag sample_zod_message
           (sample_network 200 sample_upstream_body)
           (mkRequest (Normal (sample_request 7 (lit "resources/list"))))
           (Conformant.mkState true [])
           (error_response (-32601) (lit "Unknown method") (VNum (num_of_Z 7)))
           eq_refl eq_refl).
Defined.

(** X23 on the scenario of the specification and on a call with one
    document: the two results are returned to both. *)
Lemma X23_witness :
  fst (makeRerankRequest sample_zod_message
         (sample_network 200 sample_upstream_body)
         (VStr (lit "ml")) (VArr [VStr (lit "a"); VStr (lit "b")])
         (VStr (lit "k")) [])
  = fst (makeRerankRequest sample_zod_message
           (sample_network 200 sample_upstream_body)
           (VStr (lit "ml")) (VArr [VStr (lit "a")]) (VStr (lit "k")) []).
Proof.
  exact (@X23_results_are_not_checked_against_request sample_zod_message
           (sample_network 200 sample_upstream_body)
           (VStr (lit "ml")) (VArr [VStr (lit "a"); VStr (lit "b")]) (lit "k") []
           (VStr (lit "ml")) (VArr [VStr (lit "a")]) (lit "k") [] eq_refl).
Defined.
